(** * X12 277CA acknowledgment assembler and claim reconciliation engine

    A shallow embedding of
      - [src/parsers/x12_277ca_parser.py] (class [X12_277CA_Parser]) and
      - [src/core/reconciliation.py]      (class [ClaimReconciliationEngine])
    together with the properties of the specification that concern them.

    Conventions of the embedding.
      - A Python value of type [Any] is a [value]: [None], an [int], a
        [float] or a [str].  Floats are IEEE binary64 numbers, written as
        [spec_float] values with the operations of [SpecFloat] at precision
        53 and maximal exponent 1024.
      - A transaction (a Python [dict] with string keys) is a
        [gmap string value]; [d.get(k)] is [dict_get].
      - The two caches of the engine are insertion-ordered dictionaries
        ([odict]): iteration order is observable in the engine's results.
      - Code that can raise runs in the exception monad [Exc]; list
        indexing raises [IndexError] when out of range, as in Python.
      - Interpreter built-ins whose code is not part of the repository
        ([float] on a string, [repr] of a float, [datetime.strptime], [sum]
        on floats) are the fields of the class [Builtins]; every result
        holds for every instance.
      - A character is one code point below 256. *)

From Stdlib Require Import ZArith String Ascii List Bool Lia.
From Stdlib Require Import Floats.SpecFloat.
From Stdlib Require Import Sorting.Sorted.
From stdpp Require Import base option list strings gmap pretty.

Local Open Scope string_scope.
Local Open Scope Z_scope.
Local Open Scope list_scope.

(** ** Exceptions *)

Inductive exn :=
| IndexError
| KeyError
| ValueError
| TypeError
| OverflowError
| ZeroDivisionError
| X12ParseError (cause : exn).

Inductive Exc (A : Type) :=
| Return (a : A)
| Raise (e : exn).
Arguments Return {A} a.
Arguments Raise {A} e.

Global Instance Exc_ret : MRet Exc := fun A a => Return a.
Global Instance Exc_bind : MBind Exc := fun A B f c =>
  match c with
  | Return a => f a
  | Raise e => Raise e
  end.

Definition returns {A} (c : Exc A) : Prop := exists a, c = Return a.

(** ** Python values *)

Inductive value :=
| VNone
| VInt (z : Z)
| VFloat (f : spec_float)
| VStr (s : string).

Global Instance spec_float_eq_dec : EqDecision spec_float.
Proof. solve_decision. Defined.
Global Instance value_eq_dec : EqDecision value.
Proof. solve_decision. Defined.

Definition prec64 : Z := 53.
Definition emax64 : Z := 1024.

(** [float(z)] for an integer whose conversion does not overflow. *)
Definition float_of_Z (z : Z) : spec_float :=
  binary_normalize prec64 emax64 z 0 false.

(** [bool(v)]. *)
Definition truthy (v : value) : bool :=
  match v with
  | VNone => false
  | VInt z => negb (z =? 0)
  | VFloat (S754_zero _) => false
  | VFloat _ => true
  | VStr s => negb (String.eqb s "")
  end.

(** [a or b]. *)
Definition py_or (a b : value) : value := if truthy a then a else b.

(** [v == s] for a string literal [s]. *)
Definition eq_str (v : value) (s : string) : bool :=
  match v with
  | VStr s' => String.eqb s' s
  | _ => false
  end.

(** The date-time model.  A naive [datetime] is a number of microseconds
    since 1970-01-01T00:00:00 on the proleptic Gregorian time line, within
    the interpreter's bounds: [datetime.min] is 0001-01-01T00:00:00, which
    is 719162 days before 1970-01-01, and [datetime.max] is
    9999-12-31T23:59:59.999999, the last microsecond of the day 2932896
    days after it.  A [timedelta] is a signed number of microseconds. *)
Definition us_per_day : Z := 86400 * 1000000.

Definition datetime_min : Z := -719162 * us_per_day.
Definition datetime_max : Z := 2932897 * us_per_day - 1.

Definition in_datetime_range (us : Z) : bool :=
  (datetime_min <=? us) && (us <=? datetime_max).

Record datetime := {
  dt_us :> Z;
  dt_range : in_datetime_range dt_us = true
}.

Definition timedelta := Z.

(** The [datetime] at [us] microseconds, when there is one. *)
Definition datetime_of_us (us : Z) : option datetime :=
  match in_datetime_range us as b
        return in_datetime_range us = b -> option datetime with
  | true => fun H => Some {| dt_us := us; dt_range := H |}
  | false => fun _ => None
  end eq_refl.

(** The value of [timedelta(days=n)]. *)
Definition timedelta_days (n : Z) : timedelta := n * us_per_day.

(** [timedelta(days=n)]: the constructor raises [OverflowError] beyond
    999999999 days. *)
Definition py_timedelta (n : Z) : Exc timedelta :=
  if Z.abs n <=? 999999999 then Return (timedelta_days n)
  else Raise OverflowError.

(** [dt - td] for a [datetime] and a [timedelta]: [OverflowError] when the
    result is not a [datetime]. *)
Definition datetime_sub (dt : datetime) (td : timedelta) : Exc datetime :=
  match datetime_of_us (dt - td) with
  | Some r => Return r
  | None => Raise OverflowError
  end.

(** [td.days]. *)
Definition days_of (td : timedelta) : Z := td / us_per_day.

Class Builtins := {
  (** [float(s)] on a string; [None] stands for [ValueError]. *)
  float_of_string : string -> option spec_float;
  (** [str(f)] on a float. *)
  float_repr : spec_float -> string;
  (** [datetime.strptime(s, fmt)]; [None] stands for [ValueError]. *)
  strptime : string -> string -> option datetime;
  (** [sum] over a non-empty sequence of floats. *)
  float_sum : list spec_float -> spec_float
}.

(** ** String helpers (methods of [str]) *)

(** [s.split(sep)] for a one-character separator. *)
Fixpoint split (sep : ascii) (s : string) : list string :=
  match s with
  | EmptyString => [""]
  | String c s' =>
      if Ascii.eqb c sep then "" :: split sep s'
      else match split sep s' with
           | h :: t => String c h :: t
           | [] => [String c ""]
           end
  end.

(** [c in s] for a one-character [c]. *)
Fixpoint contains (c : ascii) (s : string) : bool :=
  match s with
  | EmptyString => false
  | String c' s' => Ascii.eqb c' c || contains c s'
  end.

(** [s.replace(c, '')]. *)
Fixpoint remove_char (c : ascii) (s : string) : string :=
  match s with
  | EmptyString => EmptyString
  | String c' s' =>
      if Ascii.eqb c' c then remove_char c s' else String c' (remove_char c s')
  end.

(** [c.isspace()] on code points below 256. *)
Definition is_space (c : ascii) : bool :=
  let n := N_of_ascii c in
  ((9 <=? n) && (n <=? 13) || (28 <=? n) && (n <=? 32)
   || (n =? 133) || (n =? 160))%N.

Fixpoint lstrip (s : string) : string :=
  match s with
  | EmptyString => EmptyString
  | String c s' => if is_space c then lstrip s' else s
  end.

Fixpoint rstrip (s : string) : string :=
  match s with
  | EmptyString => EmptyString
  | String c s' =>
      match rstrip s' with
      | EmptyString => if is_space c then EmptyString else String c EmptyString
      | r => String c r
      end
  end.

(** [s.strip()]. *)
Definition strip (s : string) : string := rstrip (lstrip s).

(** [sep.join(l)]. *)
Fixpoint join (sep : string) (l : list string) : string :=
  match l with
  | [] => ""
  | [x] => x
  | x :: l' => x +:+ sep +:+ join sep l'
  end.

(** [l[i]] for [i >= 0]. *)
Definition py_index {A} (l : list A) (i : nat) : Exc A :=
  match l !! i with
  | Some x => Return x
  | None => Raise IndexError
  end.

(** ** Dictionaries with string keys *)

Abbreviation txn := (gmap string value).

(** [d.get(k)]. *)
Definition dict_get (d : txn) (k : string) : value := default VNone (d !! k).

(** [bool(d)]. *)
Definition dict_truthy (d : txn) : bool := negb (bool_decide (d = ∅)).

(** ** The 277CA parser *)

Record Segment := { seg_id : string; seg_elements : list string }.

Record Summary := {
  total_claims : nat;
  rejected_count : nat;
  accepted_count : nat;
  rejection_rate : value
}.

Record ParseResult := {
  transaction_type : string;
  version : string;
  acknowledgments : list txn;
  rejections : list txn;
  acceptances : list txn;
  summary : Summary
}.

Section Parser.
Context {py : Builtins}.

(** [float(v)]. *)
Definition py_float (v : value) : Exc spec_float :=
  match v with
  | VNone => Raise TypeError
  | VInt z =>
      match float_of_Z z with
      | S754_infinity _ => Raise OverflowError
      | f => Return f
      end
  | VFloat f => Return f
  | VStr s =>
      match float_of_string s with
      | Some f => Return f
      | None => Raise ValueError
      end
  end.

Definition _parse_segments (x12_content : string) : list Segment :=
  let lines := split "~" (remove_char "010" x12_content) in
  fold_left
    (fun segments line =>
       let line := strip line in
       if String.eqb line "" then segments
       else
         match split "*" line with
         | [] => segments
         | e0 :: rest => segments ++ [{| seg_id := e0; seg_elements := rest |}]
         end)
    lines [].

Definition _init_transaction : txn :=
  list_to_map
    [("claim_id", VNone); ("patient_id", VNone); ("patient_name", VNone);
     ("date_of_service", VNone); ("billed_amount", VNone);
     ("status_category", VNone); ("status_code", VNone);
     ("rejection_reason", VNone); ("provider_npi", VNone);
     ("payer_claim_control_number", VNone); ("trace_number", VNone)].

Definition _process_nm1 (segment : Segment) (transaction : txn) : Exc txn :=
  let elements := seg_elements segment in
  if (length elements <? 2)%nat then Return transaction
  else
    entity_code ← py_index elements 0;
    if String.eqb entity_code "IL" then
      transaction ←
        (if (3 <=? length elements)%nat then
           name ← (if (3 <=? length elements)%nat then
                     e2 ← py_index elements 2;
                     e1 ← py_index elements 1;
                     Return (e2 +:+ " " +:+ e1)
                   else py_index elements 1);
           Return (<["patient_name" := VStr name]> transaction)
         else Return transaction);
      if (9 <=? length elements)%nat then
        e8 ← py_index elements 8;
        Return (<["patient_id" := VStr e8]> transaction)
      else Return transaction
    else if String.eqb entity_code "1P" then
      if (9 <=? length elements)%nat then
        e8 ← py_index elements 8;
        Return (<["provider_npi" := VStr e8]> transaction)
      else Return transaction
    else Return transaction.

Definition _process_trn (segment : Segment) (transaction : txn) : Exc txn :=
  let elements := seg_elements segment in
  if (2 <=? length elements)%nat then
    e1 ← py_index elements 1;
    Return (<["trace_number" := VStr e1]> transaction)
  else Return transaction.

Definition _process_stc (segment : Segment) (transaction : txn) : Exc txn :=
  let elements := seg_elements segment in
  if (length elements <? 1)%nat then Return transaction
  else
    status_info ← py_index elements 0;
    transaction ←
      (if contains ":" status_info then
         let parts := split ":" status_info in
         p0 ← py_index parts 0;
         code ← (if (1 <? length parts)%nat then
                   p1 ← py_index parts 1; Return (VStr p1)
                 else Return VNone);
         Return (<["status_code" := code]>
                   (<["status_category" := VStr p0]> transaction))
       else Return transaction);
    if (4 <=? length elements)%nat then
      e3 ← py_index elements 3;
      if truthy (VStr e3) then
        match py_float (VStr e3) with
        | Return f => Return (<["billed_amount" := VFloat f]> transaction)
        | Raise ValueError | Raise TypeError => Return transaction
        | Raise e => Raise e
        end
      else Return transaction
    else Return transaction.

Definition _process_ref (segment : Segment) (transaction : txn) : Exc txn :=
  let elements := seg_elements segment in
  if (length elements <? 2)%nat then Return transaction
  else
    ref_qualifier ← py_index elements 0;
    ref_value ← py_index elements 1;
    if String.eqb ref_qualifier "D9" then
      Return (<["claim_id" := VStr ref_value]> transaction)
    else if String.eqb ref_qualifier "EA" then
      if negb (truthy (dict_get transaction "patient_id")) then
        Return (<["patient_id" := VStr ref_value]> transaction)
      else Return transaction
    else Return transaction.

Definition _process_dtp (segment : Segment) (transaction : txn) : Exc txn :=
  let elements := seg_elements segment in
  if (length elements <? 3)%nat then Return transaction
  else
    date_qualifier ← py_index elements 0;
    if String.eqb date_qualifier "472" then
      e2 ← py_index elements 2;
      Return (<["date_of_service" := VStr e2]> transaction)
    else Return transaction.

Definition _process_msg (segment : Segment) (transaction : txn) : Exc txn :=
  let elements := seg_elements segment in
  match elements with
  | [] => Return transaction
  | _ =>
      e0 ← py_index elements 0;
      Return (<["rejection_reason" := VStr e0]> transaction)
  end.

(** The body of the [if current_transaction:] block of [parse]. *)
Definition dispatch (segment : Segment) (transaction : txn) : Exc txn :=
  let segment_id := seg_id segment in
  if String.eqb segment_id "NM1" then _process_nm1 segment transaction
  else if String.eqb segment_id "TRN" then _process_trn segment transaction
  else if String.eqb segment_id "STC" then _process_stc segment transaction
  else if String.eqb segment_id "REF" then _process_ref segment transaction
  else if String.eqb segment_id "DTP" then _process_dtp segment transaction
  else if String.eqb segment_id "MSG" then _process_msg segment transaction
  else Return transaction.

(** [if current_transaction and current_transaction.get("trace_number"):
       result["acknowledgments"].append(current_transaction)]. *)
Definition commit (current : option txn) (acks : list txn) : list txn :=
  match current with
  | Some t =>
      if dict_truthy t && truthy (dict_get t "trace_number")
      then acks ++ [t] else acks
  | None => acks
  end.

(** The state of the assembling loop: [current_transaction] and
    [result["acknowledgments"]]. *)
Definition asm_state : Type := option txn * list txn.

(** One iteration of [for segment in segments]. *)
Definition assemble_step (st : asm_state) (segment : Segment) : Exc asm_state :=
  let '(current, acks) := st in
  let elements := seg_elements segment in
  '(current, acks) ←
    (if String.eqb (seg_id segment) "HL" && (3 <=? length elements)%nat then
       level_code ← py_index elements 2;
       if String.eqb level_code "22" then
         Return (Some _init_transaction, commit current acks)
       else Return (current, acks)
     else Return (current, acks));
  match current with
  | Some t =>
      if dict_truthy t then
        t' ← dispatch segment t; Return (Some t', acks)
      else Return (current, acks)
  | None => Return (current, acks)
  end.

Fixpoint assemble (st : asm_state) (segments : list Segment) : Exc asm_state :=
  match segments with
  | [] => Return st
  | segment :: rest => st' ← assemble_step st segment; assemble st' rest
  end.

(** One iteration of [for ack in result["acknowledgments"]]. *)
Definition categorize_step (st : list txn * list txn) (ack : txn)
  : list txn * list txn :=
  let '(rej, acc) := st in
  if eq_str (dict_get ack "status_category") "A7" then (rej ++ [ack], acc)
  else if eq_str (dict_get ack "status_category") "A1" then (rej, acc ++ [ack])
  else (rej, acc).

(** [a / b] on two integers (exact for operands below 2^53). *)
Definition int_truediv (a b : Z) : Exc spec_float :=
  if b =? 0 then Raise ZeroDivisionError
  else Return (SFdiv prec64 emax64 (float_of_Z a) (float_of_Z b)).

Definition make_summary (acks rej acc : list txn) : Exc Summary :=
  rate ←
    (match acks with
     | _ :: _ =>
         q ← int_truediv (Z.of_nat (length rej)) (Z.of_nat (length acks));
         Return (VFloat (SFmul prec64 emax64 q (float_of_Z 100)))
     | [] => Return (VInt 0)
     end);
  Return {| total_claims := length acks;
            rejected_count := length rej;
            accepted_count := length acc;
            rejection_rate := rate |}.

(** The [try] block of [parse]. *)
Definition parse_body (x12_content : string) : Exc ParseResult :=
  let segments := _parse_segments x12_content in
  '(current, acks) ← assemble (None, []) segments;
  let acks := commit current acks in
  let '(rej, acc) := fold_left categorize_step acks ([], []) in
  summ ← make_summary acks rej acc;
  Return {| transaction_type := "277CA";
            version := "005010X214";
            acknowledgments := acks;
            rejections := rej;
            acceptances := acc;
            summary := summ |}.

(** [X12_277CA_Parser.parse]: any exception of the body is re-raised as
    [X12ParseError]. *)
Definition parse (x12_content : string) : Exc ParseResult :=
  match parse_body x12_content with
  | Return result => Return result
  | Raise e => Raise (X12ParseError e)
  end.

End Parser.

(** ** The reconciliation engine *)

(** Insertion-ordered dictionaries with string keys: assigning to an
    existing key keeps its position, a new key goes to the end. *)
Definition odict (V : Type) : Type := list (string * V).

Fixpoint od_get {V} (k : string) (d : odict V) : option V :=
  match d with
  | [] => None
  | (k', v) :: d' => if String.eqb k k' then Some v else od_get k d'
  end.

Fixpoint od_set {V} (k : string) (v : V) (d : odict V) : odict V :=
  match d with
  | [] => [(k, v)]
  | (k', v') :: d' =>
      if String.eqb k k' then (k, v) :: d' else (k', v') :: od_set k v d'
  end.

Definition od_mem {V} (k : string) (d : odict V) : bool :=
  match od_get k d with Some _ => true | None => false end.

Definition od_keys {V} (d : odict V) : list string := map fst d.
Definition od_values {V} (d : odict V) : list V := map snd d.

(** An entry of [rejections_cache]. *)
Module Rejection.
Record t := {
  rejection_date : value;
  patient_id : value;
  patient_name : value;
  date_of_service : value;
  billed_amount : value;
  rejection_reason : value;
  status_code : value;
  trace_number : value;
  found_in_835 : bool;
  resubmission_date : value
}.
End Rejection.

(** An entry of [payments_cache]. *)
Module Payment.
Record t := {
  payment_date : value;
  patient_id : value;
  paid_amount : value;
  claim_status : value
}.
End Payment.

(** An alert of [find_unsubmitted_claims]; [action_required] is a constant
    text and is left out. *)
Module Alert.
Record t := {
  severity : string;
  match_key : string;
  patient_id : value;
  patient_name : value;
  date_of_service : value;
  billed_amount : value;
  rejection_date : value;
  rejection_reason : value;
  days_since_rejection : Z;
  estimated_revenue_loss : value
}.
End Alert.

Record Engine := {
  lookback_days : Z;
  rejections_cache : odict Rejection.t;
  payments_cache : odict Payment.t
}.

Record ReconSummary := {
  total_rejections_tracked : nat;
  successfully_resubmitted : nat;
  still_unsubmitted : nat;
  resubmission_rate : value;
  potential_revenue_at_risk : value;
  tracking_period_days : Z
}.

(** [ClaimReconciliationEngine.__init__]. *)
Definition new_engine (lookback_days : Z) : Engine :=
  {| lookback_days := lookback_days;
     rejections_cache := [];
     payments_cache := [] |}.

(** [int(f)]: truncation toward zero. *)
Definition py_int (f : spec_float) : Exc Z :=
  match f with
  | S754_zero _ => Return 0
  | S754_infinity _ => Raise OverflowError
  | S754_nan => Raise ValueError
  | S754_finite s m e =>
      let a := if 0 <=? e then Z.shiftl (Z.pos m) e
               else Z.shiftr (Z.pos m) (- e) in
      Return (if s then - a else a)
  end.

Section EngineOps.
Context {py : Builtins}.

(** [str(v)]. *)
Definition py_str (v : value) : string :=
  match v with
  | VNone => "None"
  | VInt z => pretty z
  | VFloat f => float_repr f
  | VStr s => s
  end.

(** [bool(match_key)] for an [Optional[str]]. *)
Definition key_truthy (match_key : option string) : bool :=
  match match_key with
  | Some k => negb (String.eqb k "")
  | None => false
  end.

Definition _create_match_key (transaction : txn) : Exc (option string) :=
  let patient_id := dict_get transaction "patient_id" in
  let date_of_service := dict_get transaction "date_of_service" in
  let amount := py_or (dict_get transaction "billed_amount")
                      (dict_get transaction "charged_amount") in
  if negb (truthy patient_id) then Return None
  else
    date_of_service ←
      (if truthy date_of_service && contains "-" (py_str date_of_service) then
         let date_parts := split "-" (py_str date_of_service) in
         if (length date_parts =? 2)%nat then
           p0 ← py_index date_parts 0;
           if (String.length p0 =? 8)%nat then Return (VStr p0)
           else Return date_of_service
         else Return date_of_service
       else Return date_of_service);
    let key_parts := [py_str patient_id] in
    let key_parts :=
      if truthy date_of_service then key_parts ++ [py_str date_of_service]
      else key_parts in
    key_parts ←
      (if truthy amount then
         f ← py_float amount;
         n ← py_int f;
         Return (key_parts ++ [py_str (VInt n)])
       else Return key_parts);
    Return (if (2 <=? length key_parts)%nat then Some (join "|" key_parts)
            else None).

(** The dictionary literal stored for a rejection. *)
Definition rejection_entry (rejection : txn) : Rejection.t :=
  {| Rejection.rejection_date := dict_get rejection "transaction_date";
     Rejection.patient_id := dict_get rejection "patient_id";
     Rejection.patient_name := dict_get rejection "patient_name";
     Rejection.date_of_service := dict_get rejection "date_of_service";
     Rejection.billed_amount := dict_get rejection "billed_amount";
     Rejection.rejection_reason := dict_get rejection "rejection_reason";
     Rejection.status_code := dict_get rejection "status_code";
     Rejection.trace_number := dict_get rejection "trace_number";
     Rejection.found_in_835 := false;
     Rejection.resubmission_date := VNone |}.

(** The dictionary literal stored for a payment. *)
Definition payment_entry (claim : txn) : Payment.t :=
  {| Payment.payment_date := dict_get claim "payment_date";
     Payment.patient_id := dict_get claim "patient_id";
     Payment.paid_amount := dict_get claim "paid_amount";
     Payment.claim_status := dict_get claim "claim_status" |}.

(** The two assignments made to a rejection entry matched by a payment. *)
Definition mark_found (payment_date : value) (r : Rejection.t) : Rejection.t :=
  {| Rejection.rejection_date := Rejection.rejection_date r;
     Rejection.patient_id := Rejection.patient_id r;
     Rejection.patient_name := Rejection.patient_name r;
     Rejection.date_of_service := Rejection.date_of_service r;
     Rejection.billed_amount := Rejection.billed_amount r;
     Rejection.rejection_reason := Rejection.rejection_reason r;
     Rejection.status_code := Rejection.status_code r;
     Rejection.trace_number := Rejection.trace_number r;
     Rejection.found_in_835 := true;
     Rejection.resubmission_date := payment_date |}.

(** One iteration of the loop of [add_277ca_rejections]. *)
Definition add_rejection (rejection : txn) (e : Engine) : Engine * Exc unit :=
  match _create_match_key rejection with
  | Raise x => (e, Raise x)
  | Return match_key =>
      match match_key with
      | Some k =>
          if key_truthy match_key then
            ({| lookback_days := lookback_days e;
                rejections_cache :=
                  od_set k (rejection_entry rejection) (rejections_cache e);
                payments_cache := payments_cache e |}, Return tt)
          else (e, Return tt)
      | None => (e, Return tt)
      end
  end.

(** [add_277ca_rejections], applied to [parsed_277ca.get("rejections", [])].
    An exception leaves the engine as the earlier iterations made it. *)
Fixpoint add_277ca_rejections (rejections : list txn) (e : Engine)
  : Engine * Exc unit :=
  match rejections with
  | [] => (e, Return tt)
  | rejection :: rest =>
      match add_rejection rejection e with
      | (e', Return _) => add_277ca_rejections rest e'
      | (e', Raise x) => (e', Raise x)
      end
  end.

(** One iteration of the loop of [add_835_payments]. *)
Definition add_payment (claim : txn) (e : Engine) : Engine * Exc unit :=
  match _create_match_key claim with
  | Raise x => (e, Raise x)
  | Return match_key =>
      match match_key with
      | Some k =>
          if key_truthy match_key then
            let payments := od_set k (payment_entry claim) (payments_cache e) in
            let rejections :=
              match od_get k (rejections_cache e) with
              | Some r =>
                  od_set k (mark_found (dict_get claim "payment_date") r)
                         (rejections_cache e)
              | None => rejections_cache e
              end in
            ({| lookback_days := lookback_days e;
                rejections_cache := rejections;
                payments_cache := payments |}, Return tt)
          else (e, Return tt)
      | None => (e, Return tt)
      end
  end.

(** [add_835_payments], applied to [parsed_835.get("claims", [])]. *)
Fixpoint add_835_payments (claims : list txn) (e : Engine)
  : Engine * Exc unit :=
  match claims with
  | [] => (e, Return tt)
  | claim :: rest =>
      match add_payment claim e with
      | (e', Return _) => add_835_payments rest e'
      | (e', Raise x) => (e', Raise x)
      end
  end.

(** The format chosen for a rejection date: dashed or compact. *)
Definition date_format (s : string) : string :=
  if contains "-" s then "%Y-%m-%d" else "%Y%m%d".

(** The [try] block of [find_unsubmitted_claims] that parses the rejection
    date; [None] is the [continue] of the [except ValueError] branch. *)
Definition parse_rejection_date (rejection_date_str : value)
  : Exc (option datetime) :=
  match rejection_date_str with
  | VStr s => Return (strptime s (date_format s))
  | _ => Raise TypeError
  end.

Definition make_alert (current_date : datetime) (match_key : string)
    (rejection : Rejection.t) (rejection_date : datetime) : Alert.t :=
  let days_since_rejection := days_of (current_date - rejection_date) in
  {| Alert.severity := if 45 <? days_since_rejection then "HIGH" else "MEDIUM";
     Alert.match_key := match_key;
     Alert.patient_id := Rejection.patient_id rejection;
     Alert.patient_name := Rejection.patient_name rejection;
     Alert.date_of_service := Rejection.date_of_service rejection;
     Alert.billed_amount := Rejection.billed_amount rejection;
     Alert.rejection_date := Rejection.rejection_date rejection;
     Alert.rejection_reason := Rejection.rejection_reason rejection;
     Alert.days_since_rejection := days_since_rejection;
     Alert.estimated_revenue_loss := Rejection.billed_amount rejection |}.

(** The loop of [find_unsubmitted_claims] over [rejections_cache.items()]. *)
Fixpoint scan_rejections (current_date threshold_date : datetime)
    (items : odict Rejection.t) (alerts : list Alert.t) : Exc (list Alert.t) :=
  match items with
  | [] => Return alerts
  | (match_key, rejection) :: rest =>
      if Rejection.found_in_835 rejection then
        scan_rejections current_date threshold_date rest alerts
      else if negb (truthy (Rejection.rejection_date rejection)) then
        scan_rejections current_date threshold_date rest alerts
      else
        parsed ← parse_rejection_date (Rejection.rejection_date rejection);
        match parsed with
        | None => scan_rejections current_date threshold_date rest alerts
        | Some rejection_date =>
            if dt_us rejection_date <? threshold_date then
              scan_rejections current_date threshold_date rest
                (alerts ++ [make_alert current_date match_key rejection
                                       rejection_date])
            else scan_rejections current_date threshold_date rest alerts
        end
  end.

(** [alerts.sort(key=days_since_rejection, reverse=True)]: a stable sort
    into descending order. *)
Fixpoint insert_desc (a : Alert.t) (l : list Alert.t) : list Alert.t :=
  match l with
  | [] => [a]
  | b :: l' =>
      if Alert.days_since_rejection a <? Alert.days_since_rejection b
      then b :: insert_desc a l'
      else a :: b :: l'
  end.

Definition sort_desc (alerts : list Alert.t) : list Alert.t :=
  foldr insert_desc [] alerts.

(** [find_unsubmitted_claims]; [now] is the value of [datetime.now()]. *)
Definition find_unsubmitted_claims (now : datetime) (days_threshold : Z)
    (e : Engine) : Exc (list Alert.t) :=
  let current_date := now in
  td ← py_timedelta days_threshold;
  threshold_date ← datetime_sub current_date td;
  alerts ← scan_rejections current_date threshold_date (rejections_cache e) [];
  Return (sort_desc alerts).

(** [sum(...)] of a sequence of floats, starting from the integer 0. *)
Definition py_sum (l : list spec_float) : value :=
  match l with
  | [] => VInt 0
  | _ => VFloat (float_sum l)
  end.

(** The generator summed for the revenue at risk. *)
Fixpoint unsubmitted_amounts (values : list Rejection.t)
  : Exc (list spec_float) :=
  match values with
  | [] => Return []
  | r :: rest =>
      if negb (Rejection.found_in_835 r) then
        f ← py_float (py_or (Rejection.billed_amount r) (VInt 0));
        fs ← unsubmitted_amounts rest;
        Return (f :: fs)
      else unsubmitted_amounts rest
  end.

Definition get_reconciliation_summary (e : Engine) : Exc ReconSummary :=
  let total_rejections := length (rejections_cache e) in
  let resubmitted :=
    length (List.filter Rejection.found_in_835
                        (od_values (rejections_cache e))) in
  let unsubmitted := (total_rejections - resubmitted)%nat in
  amounts ← unsubmitted_amounts (od_values (rejections_cache e));
  let potential_loss := py_sum amounts in
  rate ←
    (if (0 <? total_rejections)%nat then
       q ← int_truediv (Z.of_nat resubmitted) (Z.of_nat total_rejections);
       Return (VFloat (SFmul prec64 emax64 q (float_of_Z 100)))
     else Return (VInt 0));
  Return {| total_rejections_tracked := total_rejections;
            successfully_resubmitted := resubmitted;
            still_unsubmitted := unsubmitted;
            resubmission_rate := rate;
            potential_revenue_at_risk := potential_loss;
            tracking_period_days := lookback_days e |}.

End EngineOps.

(** ** A sample instance of the built-ins

    Enough of the interpreter to run the model on concrete documents: plain
    unsigned decimal literals, dates of eight digits with or without
    dashes, and left-to-right float addition. *)
Module Sample.

Definition digit (c : ascii) : option Z :=
  let n := Z.of_N (N_of_ascii c) in
  if (48 <=? n) && (n <=? 57) then Some (n - 48) else None.

Fixpoint digits (s : string) (acc : Z) : option Z :=
  match s with
  | EmptyString => Some acc
  | String c s' =>
      match digit c with
      | Some d => digits s' (10 * acc + d)
      | None => None
      end
  end.

Definition number (s : string) : option Z :=
  if String.eqb s "" then None else digits s 0.

Definition float_literal (s : string) : option spec_float :=
  match split "." s with
  | [i] => n ← number i; Some (float_of_Z n)
  | [i; f] =>
      n ← number (i +:+ f);
      Some (SFdiv prec64 emax64 (float_of_Z n)
              (float_of_Z (10 ^ Z.of_nat (String.length f))))
  | _ => None
  end.

Definition show_float (f : spec_float) : string :=
  match py_int f with
  | Return z => pretty z +:+ ".0"
  | Raise _ => "nan"
  end.

(** Days from 1970-01-01 to the civil date [y]-[m]-[d]. *)
Definition days_from_civil (y m d : Z) : Z :=
  let y' := if m <=? 2 then y - 1 else y in
  let era := y' / 400 in
  let yoe := y' - era * 400 in
  let mp := (m + 9) mod 12 in
  let doy := (153 * mp + 2) / 5 + d - 1 in
  let doe := yoe * 365 + yoe / 4 - yoe / 100 + doy in
  era * 146097 + doe - 719468.

Definition civil (y m d : string) : option datetime :=
  y ← number y; m ← number m; d ← number d;
  if (1 <=? y) && (1 <=? m) && (m <=? 12) && (1 <=? d) && (d <=? 28)
  then datetime_of_us (days_from_civil y m d * us_per_day) else None.

Definition parse_date (s fmt : string) : option datetime :=
  if String.eqb fmt "%Y%m%d" then
    if (String.length s =? 8)%nat then
      civil (substring 0 4 s) (substring 4 2 s) (substring 6 2 s)
    else None
  else if String.eqb fmt "%Y-%m-%d" then
    match split "-" s with
    | [y; m; d] =>
        if (String.length y =? 4)%nat && (String.length m =? 2)%nat
           && (String.length d =? 2)%nat
        then civil y m d else None
    | _ => None
    end
  else None.

Definition add_floats (l : list spec_float) : spec_float :=
  fold_left (SFadd prec64 emax64) l (S754_zero false).

Definition builtins : Builtins :=
  {| float_of_string := float_literal;
     float_repr := show_float;
     strptime := parse_date;
     float_sum := add_floats |}.

End Sample.

(** ** Notions used to state the properties *)

(** A field is absent when the code's test [if not v] holds for it:
    [None], an empty string or a zero. *)
Definition absent (v : value) : Prop := truthy v = false.
Definition present (v : value) : Prop := truthy v = true.

(** The amount of a record: [billed_amount], else [charged_amount]. *)
Definition amount_of (t : txn) : value :=
  py_or (dict_get t "billed_amount") (dict_get t "charged_amount").

(** A transaction carries a usable trace number. *)
Definition has_trace (t : txn) : Prop :=
  truthy (dict_get t "trace_number") = true.

Definition is_rejected (t : txn) : bool :=
  eq_str (dict_get t "status_category") "A7".
Definition is_accepted (t : txn) : bool :=
  eq_str (dict_get t "status_category") "A1".

(** The rejection rate as a percentage: [rejected / total * 100], and the
    integer 0 for an empty document. *)
Definition percent_rate (rejected total : nat) : value :=
  match total with
  | O => VInt 0
  | _ => VFloat (SFmul prec64 emax64
                   (SFdiv prec64 emax64 (float_of_Z (Z.of_nat rejected))
                                        (float_of_Z (Z.of_nat total)))
                   (float_of_Z 100))
  end.

(** The rejection rate as the specification words it: the ratio
    [rejected / total], and 0 for an empty document. *)
Definition ratio_rate (rejected total : nat) : value :=
  match total with
  | O => VInt 0
  | _ => VFloat (SFdiv prec64 emax64 (float_of_Z (Z.of_nat rejected))
                                     (float_of_Z (Z.of_nat total)))
  end.

Definition all_digits (s : string) : bool :=
  forallb (fun c => match Sample.digit c with Some _ => true | None => false end)
          (list_ascii_of_string s).

(** The date component as the specification words it: the first segment
    when the value is a dash-delimited range of two 8-digit segments, the
    value itself otherwise. *)
Definition claimed_date_component (s : string) : string :=
  match split "-" s with
  | [a; b] =>
      if (String.length a =? 8)%nat && all_digits a
         && (String.length b =? 8)%nat && all_digits b
      then a else s
  | _ => s
  end.

Section Notions.
Context {py : Builtins}.

(** The date component of a match key: the text before the dash when the
    value has exactly one dash and eight characters before it, the whole
    text otherwise. *)
Definition normalized_date (date_of_service : value) : string :=
  let s := py_str date_of_service in
  match split "-" s with
  | [p0; _] => if (String.length p0 =? 8)%nat then p0 else s
  | _ => s
  end.

(** The components of a match key whose amount truncates to [n]. *)
Definition key_components (t : txn) (n : Z) : list string :=
  [py_str (dict_get t "patient_id")]
  ++ (if truthy (dict_get t "date_of_service")
      then [normalized_date (dict_get t "date_of_service")] else [])
  ++ (if truthy (amount_of t) then [pretty n] else []).

(** The amount of a record is missing or is a number with an integer
    part [n]. *)
Definition amount_truncates (t : txn) (n : Z) : Prop :=
  absent (amount_of t) \/
  exists f, py_float (amount_of t) = Return f /\ py_int f = Return n.

(** The amount of a record is present and [int(float(amount))] raises
    [x]. *)
Definition amount_raises (t : txn) (x : exn) : Prop :=
  present (amount_of t) /\
  (py_float (amount_of t) = Raise x \/
   exists f, py_float (amount_of t) = Return f /\ py_int f = Raise x).

(** A cache entry's billed amount as a float, a missing one counted as 0. *)
Definition amount_or_zero (r : Rejection.t) : spec_float :=
  match py_float (py_or (Rejection.billed_amount r) (VInt 0)) with
  | Return f => f
  | Raise _ => S754_zero false
  end.

Definition unmatched (r : Rejection.t) : bool :=
  negb (Rejection.found_in_835 r).

(** The operations of the engine and the states they reach. *)
Inductive op :=
| AddRejections (rejections : list txn)
| AddPayments (claims : list txn)
| FindUnsubmitted (now : datetime) (days_threshold : Z)
| GetSummary.

(** The engine after an operation; the two queries assign to no attribute
    of the engine. *)
Definition run_op (o : op) (e : Engine) : Engine :=
  match o with
  | AddRejections l => fst (add_277ca_rejections l e)
  | AddPayments l => fst (add_835_payments l e)
  | FindUnsubmitted _ _ => e
  | GetSummary => e
  end.

Definition run_ops (ops : list op) (e : Engine) : Engine :=
  fold_left (fun e o => run_op o e) ops e.

(** The engine after the rejections of each document, parsed by the 277CA
    parser, have been added in turn. *)
Definition ingest_277ca (docs : list string) (e : Engine) : Engine :=
  fold_left
    (fun e doc =>
       match parse doc with
       | Return r => fst (add_277ca_rejections (rejections r) e)
       | Raise _ => e
       end)
    docs e.

(** A cache entry's billed amount converts to a float. *)
Definition amount_ok (r : Rejection.t) : Prop :=
  returns (py_float (py_or (Rejection.billed_amount r) (VInt 0))).

(** What every reachable engine satisfies: the keys of the rejections cache
    are pairwise distinct and every billed amount converts to a float. *)
Definition engine_inv (e : Engine) : Prop :=
  NoDup (od_keys (rejections_cache e)) /\
  Forall amount_ok (od_values (rejections_cache e)).

End Notions.

(** [n] is the float [f] truncated toward zero: [f] is [m * 2^e] up to its
    sign, [n] has the sign of [f], and [|n| <= |f| < |n| + 1]. *)
Definition truncation_of (f : spec_float) (n : Z) : Prop :=
  match f with
  | S754_zero _ => n = 0
  | S754_finite s m e =>
      let a := Z.abs n in
      n = (if s then - a else a) /\
      a * 2 ^ Z.max 0 (- e) <= Z.pos m * 2 ^ Z.max 0 e
        < (a + 1) * 2 ^ Z.max 0 (- e)
  | _ => False
  end.

(** ** Notions used in the proofs about the parser *)

(** A transaction without rejection date, and an engine whose entries
    have none. *)
Definition no_rejection_date (e : Engine) : Prop :=
  Forall (fun r => Rejection.rejection_date r = VNone)
         (od_values (rejections_cache e)).

Definition no_transaction_date (t : txn) : Prop :=
  t !! "transaction_date" = None.

(** What every extractor guarantees: it returns, and it leaves the key
    [k] alone unless [k] is one of the keys the parser writes. *)
Definition parser_keys : list string :=
  ["claim_id"; "patient_id"; "patient_name"; "date_of_service";
   "billed_amount"; "status_category"; "status_code"; "rejection_reason";
   "provider_npi"; "payer_claim_control_number"; "trace_number"].

Definition extends (t t' : txn) : Prop :=
  forall k, k ∉ parser_keys -> t' !! k = t !! k.

Definition extractor_ok (c : Exc txn) (t : txn) : Prop :=
  exists t', c = Return t' /\ extends t t'.


(** [Q] holds of the open transaction and [P] of every committed one. *)
Definition asm_inv (P Q : txn -> Prop) (st : asm_state) : Prop :=
  (forall t, st.1 = Some t -> Q t) /\ Forall P st.2.

(** The result of [parse] in closed form: the committed transactions, the
    two filtered views and the counts. *)
Definition result_of (acks : list txn) : ParseResult :=
  {| transaction_type := "277CA";
     version := "005010X214";
     acknowledgments := acks;
     rejections := List.filter is_rejected acks;
     acceptances := List.filter is_accepted acks;
     summary :=
       {| total_claims := length acks;
          rejected_count := length (List.filter is_rejected acks);
          accepted_count := length (List.filter is_accepted acks);
          rejection_rate :=
            percent_rate (length (List.filter is_rejected acks))
                         (length acks) |} |}.

(** ** Sample documents and records *)

Definition newline : string := String "010" "".

(** One rejected claim of 150.99 for patient 12345. *)
Definition doc_one_rejection : string :=
  "ST*277*0001~" +:+ newline +:+
  "HL*1**20*1~NM1*PR*2*PAYER~" +:+ newline +:+
  "HL*2*1*22*0~NM1*IL*1*DOE*JOHN****MI*12345~TRN*2*TRACE1~" +:+ newline +:+
  "STC*A7:42*20240101*U*150.99~DTP*472*D8*20240101~MSG*bad id~SE*9*0001~".

Definition record (fields : list (string * value)) : txn := list_to_map fields.

(** The float 150.99. *)
Definition f150_99 : spec_float := S754_finite false 5312488341692744 (-45).

(** A rejection with a service period given as a range. *)
Definition rec_range : txn :=
  record [("patient_id", VStr "12345");
          ("date_of_service", VStr "20050831-20050906");
          ("billed_amount", VFloat f150_99)].

(** A rejection whose service period has a short second part. *)
Definition rec_short_range : txn :=
  record [("patient_id", VStr "12345");
          ("date_of_service", VStr "20050831-2005")].

(** A record without patient id. *)
Definition rec_nan_amount : txn :=
  record [("patient_id", VStr "123"); ("billed_amount", VFloat S754_nan)].

Definition rec_no_patient : txn :=
  record [("date_of_service", VStr "20240101");
          ("billed_amount", VFloat (float_of_Z 150))].

(** A rejection, a payment for it, and a second rejection with the same
    patient, date and integer amount. *)
Definition rec_rejection : txn :=
  record [("patient_id", VStr "123"); ("date_of_service", VStr "20240101");
          ("billed_amount", VFloat (float_of_Z 150));
          ("rejection_reason", VStr "bad id")].

Definition rec_payment : txn :=
  record [("patient_id", VStr "123"); ("date_of_service", VStr "20240101");
          ("billed_amount", VFloat (float_of_Z 150));
          ("payment_date", VStr "20240201")].

Definition rec_rejection_again : txn :=
  record [("patient_id", VStr "123"); ("date_of_service", VStr "20240101");
          ("billed_amount", VFloat f150_99);
          ("rejection_reason", VStr "missing npi")].

(** A cache entry rejected on 2024-01-01 and not matched by a payment. *)
Definition entry_20240101 : Rejection.t :=
  {| Rejection.rejection_date := VStr "20240101";
     Rejection.patient_id := VStr "123";
     Rejection.patient_name := VStr "DOE JOHN";
     Rejection.date_of_service := VStr "20231215";
     Rejection.billed_amount := VFloat (float_of_Z 150);
     Rejection.rejection_reason := VStr "bad id";
     Rejection.status_code := VStr "42";
     Rejection.trace_number := VStr "TRACE1";
     Rejection.found_in_835 := false;
     Rejection.resubmission_date := VNone |}.

Definition engine_one_entry : Engine :=
  {| lookback_days := 60;
     rejections_cache := [("123|20231215|150", entry_20240101)];
     payments_cache := [] |}.

(** Midnight of 2024-01-01, and the instants 45, 46 and 50 days later. *)
Definition midnight_20240101 : datetime :=
  {| dt_us := 1704067200000000; dt_range := eq_refl |}.

Definition midnight_20240215 : datetime :=
  {| dt_us := midnight_20240101 + timedelta_days 45; dt_range := eq_refl |}.

Definition midnight_20240216 : datetime :=
  {| dt_us := midnight_20240101 + timedelta_days 46; dt_range := eq_refl |}.

Definition midnight_20240220 : datetime :=
  {| dt_us := midnight_20240101 + timedelta_days 50; dt_range := eq_refl |}.

(** * More of the two modules

    The rest of [x12_277ca_parser.py] and [reconciliation.py] that can be
    embedded ([validate], [generate_reconciliation_report]), and
    [get_transaction_info], which the parser inherits from
    [base_parser.py]. *)

(** ** [X12_277CA_Parser.validate] *)

Definition msg_missing_ids : string :=
  "Missing patient identifier and trace number - "
  +:+ "cannot cross-reference with 835".

Section Validate.
Context {py : Builtins}.

(** The f-string of the second check. *)
Definition msg_missing_reason (ack : txn) : string :=
  "Rejection for patient " +:+ py_str (dict_get ack "patient_id")
  +:+ " missing rejection reason".

(** One iteration of [for ack in parsed_data.get("acknowledgments", [])]. *)
Definition validate_step (errors : list string) (ack : txn) : list string :=
  let errors :=
    if negb (truthy (dict_get ack "patient_id"))
       && negb (truthy (dict_get ack "trace_number"))
    then errors ++ [msg_missing_ids] else errors in
  if eq_str (dict_get ack "status_category") "A7"
     && negb (truthy (dict_get ack "rejection_reason"))
  then errors ++ [msg_missing_reason ack] else errors.

(** [validate], applied to [parsed_data.get("acknowledgments", [])]. *)
Definition validate (acknowledgments : list txn) : list string :=
  fold_left validate_step acknowledgments [].

End Validate.

(** ** [generate_reconciliation_report] *)

(** The report; [report_date] is the instant read from the clock, before
    its rendering by [isoformat]. *)
Module Report.
Record t := {
  report_date : datetime;
  unsubmitted_claims : list Alert.t;
  summary : ReconSummary;
  alert_count : nat;
  high_severity_count : nat
}.
End Report.

Section ReportOps.
Context {py : Builtins}.

(** [now_alerts] and [now_report] are the two readings of [datetime.now()]:
    the one inside [find_unsubmitted_claims] and the one of [report_date]. *)
Definition generate_reconciliation_report (now_alerts now_report : datetime)
    (rejections_277ca payments_835 : list txn) (days_threshold : Z)
  : Exc Report.t :=
  let engine := new_engine 60 in
  match add_277ca_rejections rejections_277ca engine with
  | (_, Raise x) => Raise x
  | (engine, Return _) =>
      match add_835_payments payments_835 engine with
      | (_, Raise x) => Raise x
      | (engine, Return _) =>
          unsubmitted_alerts ←
            find_unsubmitted_claims now_alerts days_threshold engine;
          summary ← get_reconciliation_summary engine;
          Return {| Report.report_date := now_report;
                    Report.unsubmitted_claims := unsubmitted_alerts;
                    Report.summary := summary;
                    Report.alert_count := length unsubmitted_alerts;
                    Report.high_severity_count :=
                      length (List.filter
                                (fun a => String.eqb (Alert.severity a) "HIGH")
                                unsubmitted_alerts) |}
      end
  end.

End ReportOps.

(** ** [BaseX12Parser.get_transaction_info] *)

Record TransactionInfo := {
  transaction_code : string;
  info_version : string
}.

Definition unknown_info : TransactionInfo :=
  {| transaction_code := "unknown"; info_version := "unknown" |}.

(** The loop [for line in lines]: the first piece that starts with "ST"
    once stripped and has at least three elements decides. *)
Fixpoint find_st_line (lines : list string) : Exc TransactionInfo :=
  match lines with
  | [] => Return unknown_info
  | line :: rest =>
      if String.prefix "ST" (strip line) then
        let elements := split "*" line in
        if (3 <=? length elements)%nat then
          code ← py_index elements 1;
          version ← (if (3 <? length elements)%nat then py_index elements 3
                     else Return "unknown");
          Return {| transaction_code := code; info_version := version |}
        else find_st_line rest
      else find_st_line rest
  end.

Definition get_transaction_info (x12_content : string) : Exc TransactionInfo :=
  find_st_line (split "~" x12_content).

(** ** Notions used to state the further properties *)

(** The segment opens a claim: an HL segment with at least three elements
    whose level code is "22". *)
Definition is_boundary (segment : Segment) : bool :=
  String.eqb (seg_id segment) "HL"
  && (3 <=? length (seg_elements segment))%nat
  && match seg_elements segment !! 2%nat with
     | Some level_code => String.eqb level_code "22"
     | None => false
     end.

(** A token holds no segment terminator, element separator or line break. *)
Definition token_ok (s : string) : bool :=
  negb (contains "~" s) && negb (contains "*" s) && negb (contains "010" s).

(** The text of a segment, and of a document with one segment per line. *)
Definition segment_line (segment : Segment) : string :=
  join "*" (seg_id segment :: seg_elements segment).

Fixpoint render (segments : list Segment) : string :=
  match segments with
  | [] => ""
  | segment :: rest =>
      segment_line segment +:+ "~" +:+ newline +:+ render rest
  end.

(** A segment that survives tokenizing: its tokens are clean, and its text
    is not empty and neither starts nor ends with white space. *)
Definition clean_segment (segment : Segment) : bool :=
  forallb token_ok (seg_id segment :: seg_elements segment)
  && String.eqb (strip (segment_line segment)) (segment_line segment)
  && negb (String.eqb (segment_line segment) "").

(** The shape of a record assembled by the parser: exactly the eleven keys
    of [_init_transaction]; [billed_amount] holds [None] or a float, every
    other field [None] or a string. *)
Definition field_shape (k : string) (v : value) : Prop :=
  match v with
  | VNone => True
  | VStr _ => k <> "billed_amount"
  | VFloat _ => k = "billed_amount"
  | VInt _ => False
  end.


Definition record_shape (t : txn) : Prop :=
  (forall k, is_Some (t !! k) <-> k ∈ parser_keys) /\
  (forall k v, t !! k = Some v -> field_shape k v).

(** An extractor keeps the shape of the record. *)
Definition keeps_shape (c : Exc txn) (t : txn) : Prop :=
  forall t', c = Return t' -> record_shape t -> record_shape t'.

(** The amount is not a NaN or an infinity. *)
Definition amount_finite (v : value) : Prop :=
  match v with
  | VFloat S754_nan | VFloat (S754_infinity _) => False
  | _ => True
  end.

(** A record passes [validate]. *)
Definition passes_validation (ack : txn) : bool :=
  (truthy (dict_get ack "patient_id") || truthy (dict_get ack "trace_number"))
  && (negb (is_rejected ack) || truthy (dict_get ack "rejection_reason")).

(** A rejected record without rejection reason. *)
Definition lacks_reason (ack : txn) : bool :=
  is_rejected ack && negb (truthy (dict_get ack "rejection_reason")).

(** The alert that one pass of the loop of [find_unsubmitted_claims]
    raises for a cache item, if any. *)
Definition entry_alert {py : Builtins} (current_date threshold_date : datetime)
    (item : string * Rejection.t) : option Alert.t :=
  let '(match_key, rejection) := item in
  if Rejection.found_in_835 rejection then None
  else
    match Rejection.rejection_date rejection with
    | VStr s =>
        if String.eqb s "" then None
        else
          match strptime s (date_format s) with
          | Some rejection_date =>
              if rejection_date <? threshold_date
              then Some (make_alert current_date match_key rejection
                                    rejection_date)
              else None
          | None => None
          end
    | _ => None
    end.

(** Alerts in descending order of age. *)
Definition older_first (a b : Alert.t) : Prop :=
  Alert.days_since_rejection b <= Alert.days_since_rejection a.

(** The segment is taken for the transaction set header: its id starts
    with "ST" and it has at least two elements. *)
Definition st_like (segment : Segment) : bool :=
  String.prefix "ST" (seg_id segment)
  && (2 <=? length (seg_elements segment))%nat.

(** No entry of the rejections cache is matched. *)
Definition all_unmatched (e : Engine) : Prop :=
  Forall (fun r => Rejection.found_in_835 r = false)
         (od_values (rejections_cache e)).

(** The threshold date [now - timedelta(days=days_threshold)] exists: the
    number of days is one a [timedelta] can hold and the difference is a
    [datetime]. *)
Definition threshold_in_range (now : datetime) (days_threshold : Z) : bool :=
  (Z.abs days_threshold <=? 999999999)
  && in_datetime_range (now - timedelta_days days_threshold).

(** The rejection date of an entry can be handed to [strptime]. *)
Definition date_readable (r : Rejection.t) : Prop :=
  Rejection.found_in_835 r = true \/
  truthy (Rejection.rejection_date r) = false \/
  exists s, Rejection.rejection_date r = VStr s.

(** * Properties *)

(** ** Strings and lists *)

Lemma split_cons (sep : ascii) (s : string) :
  exists h t, split sep s = h :: t.
Proof.
  induction s as [|c s IH]; simpl; [by eauto|].
  destruct (Ascii.eqb c sep); [by eauto|].
  destruct IH as (h & t & ->). by eauto.
Qed.

Lemma py_index_Some {A} (l : list A) (i : nat) (x : A) :
  l !! i = Some x -> py_index l i = Return x.
Proof. unfold py_index. by intros ->. Qed.

Lemma py_index_lt {A} (l : list A) (i : nat) :
  (i < length l)%nat -> exists x, l !! i = Some x /\ py_index l i = Return x.
Proof.
  intros Hi. destruct (lookup_lt_is_Some_2 l i Hi) as [x Hx].
  exists x. split; [done|]. by apply py_index_Some.
Qed.

Create HintDb extract.

(** ** The field extractors return, and touch only their own keys *)

Section ParserProps.
Context {py : Builtins}.

Lemma extends_refl t : extends t t.
Proof. by intros k _. Qed.

Lemma extends_insert t t' k v :
  k ∈ parser_keys -> extends t t' -> extends t (<[k := v]> t').
Proof.
  intros Hk Ht k' Hk'. rewrite lookup_insert_ne; [by apply Ht|].
  intros ->. by apply Hk'.
Qed.

Lemma extends_trans t1 t2 t3 : extends t1 t2 -> extends t2 t3 -> extends t1 t3.
Proof. intros H12 H23 k Hk. rewrite H23, H12; done. Qed.

Lemma extractor_ok_same t : extractor_ok (Return t) t.
Proof. exists t. split; [done | apply extends_refl]. Qed.

Lemma extractor_ok_insert t k v :
  k ∈ parser_keys -> extractor_ok (Return (<[k := v]> t)) t.
Proof.
  intros Hk. eexists. split; [done|].
  by apply extends_insert; [|apply extends_refl].
Qed.

Local Hint Resolve extractor_ok_same extends_refl : extract.

Ltac key_in := unfold parser_keys; set_solver.

Ltac solve_ok :=
  eexists; split; [reflexivity|];
  repeat (apply extends_insert; [key_in|]); apply extends_refl.

Ltac elements_cases l :=
  repeat (destruct l as [|? l]; simpl; auto with extract).

Lemma _process_nm1_ok segment t : extractor_ok (_process_nm1 segment t) t.
Proof.
  destruct segment as [sid els]. unfold _process_nm1. simpl.
  destruct els as [|e0 [|e1 els]]; simpl; auto with extract.
  destruct (String.eqb e0 "IL"); [|destruct (String.eqb e0 "1P")];
    auto with extract.
  - destruct els as [|e2 [|e3 [|e4 [|e5 [|e6 [|e7 [|e8 els]]]]]]]; simpl;
      auto with extract;
      try (apply extractor_ok_insert; key_in).
    eexists. split; [done|].
    repeat (apply extends_insert; [key_in|]). apply extends_refl.
  - destruct els as [|e2 [|e3 [|e4 [|e5 [|e6 [|e7 [|e8 els]]]]]]]; simpl;
      auto with extract.
    apply extractor_ok_insert; key_in.
Qed.

Lemma _process_trn_ok segment t : extractor_ok (_process_trn segment t) t.
Proof.
  destruct segment as [sid els]. unfold _process_trn. simpl.
  destruct els as [|e0 [|e1 els]]; simpl; auto with extract.
  apply extractor_ok_insert; key_in.
Qed.

Lemma _process_stc_ok segment t : extractor_ok (_process_stc segment t) t.
Proof.
  destruct segment as [sid els]. unfold _process_stc. simpl.
  destruct els as [|e0 els]; simpl; auto with extract.
  destruct (contains ":" e0);
    [destruct (split_cons ":" e0) as (p0 & ps & ->); destruct ps as [|p1 ps]|];
    simpl;
    (destruct els as [|e1 [|e2 [|e3 els]]]; simpl; try solve_ok;
     destruct (negb (String.eqb e3 "")); try solve_ok;
     destruct (float_of_string e3); solve_ok).
Qed.

Lemma _process_ref_ok segment t : extractor_ok (_process_ref segment t) t.
Proof.
  destruct segment as [sid els]. unfold _process_ref. simpl.
  destruct els as [|e0 [|e1 els]]; simpl; auto with extract.
  destruct (String.eqb e0 "D9"); [apply extractor_ok_insert; key_in|].
  destruct (String.eqb e0 "EA"); auto with extract.
  destruct (negb (truthy (dict_get t "patient_id"))); auto with extract.
  apply extractor_ok_insert; key_in.
Qed.

Lemma _process_dtp_ok segment t : extractor_ok (_process_dtp segment t) t.
Proof.
  destruct segment as [sid els]. unfold _process_dtp. simpl.
  destruct els as [|e0 [|e1 [|e2 els]]]; simpl; auto with extract.
  destruct (String.eqb e0 "472"); auto with extract.
  apply extractor_ok_insert; key_in.
Qed.

Lemma _process_msg_ok segment t : extractor_ok (_process_msg segment t) t.
Proof.
  destruct segment as [sid els]. unfold _process_msg. simpl.
  destruct els as [|e0 els]; simpl; auto with extract.
  apply extractor_ok_insert; key_in.
Qed.

Lemma dispatch_ok segment t : extractor_ok (dispatch segment t) t.
Proof.
  unfold dispatch.
  repeat (match goal with
          | |- context [if ?b then _ else _] => destruct b
          end);
    auto using _process_nm1_ok, _process_trn_ok, _process_stc_ok,
      _process_ref_ok, _process_dtp_ok, _process_msg_ok with extract.
Qed.

(** ** The assembling loop *)

Section AssembleInvariant.
Variables (P Q : txn -> Prop).
Hypothesis Q_init : Q _init_transaction.
Hypothesis Q_extends : forall t t', Q t -> extends t t' -> Q t'.
Hypothesis P_commit : forall t, Q t -> has_trace t -> P t.

Lemma commit_inv current acks :
  asm_inv P Q (current, acks) -> Forall P (commit current acks).
Proof using P_commit.
  intros [Hcur Hacks]. simpl in *. unfold commit.
  destruct current as [t|]; [|done].
  destruct (dict_truthy t); simpl; [|done].
  destruct (truthy (dict_get t "trace_number")) eqn:Htrace; [|done].
  apply Forall_app. split; [done|].
  apply Forall_singleton. by apply P_commit; [apply Hcur|].
Qed.

Lemma assemble_step_inv st segment :
  asm_inv P Q st ->
  exists st', assemble_step st segment = Return st' /\ asm_inv P Q st'.
Proof using All.
  destruct st as [current acks]. intros Hinv.
  assert (Hdispatch : forall cur acks',
    asm_inv P Q (cur, acks') ->
    exists st',
      match cur with
      | Some t =>
          if dict_truthy t
          then t' ← dispatch segment t; Return (Some t', acks')
          else Return (cur, acks')
      | None => Return (cur, acks')
      end = Return st' /\ asm_inv P Q st').
  { intros cur acks' [Hcur Hacks']. simpl in *.
    destruct cur as [t|]; [|by eexists; split; [done|split]].
    destruct (dict_truthy t); [|by eexists; split; [done|split]].
    destruct (dispatch_ok segment t) as (t' & -> & Hext). simpl.
    eexists. split; [done|]. split; [|done]. simpl.
    intros ? [= <-]. eapply Q_extends; [|done]. by apply Hcur. }
  unfold assemble_step.
  destruct (String.eqb (seg_id segment) "HL"
            && (3 <=? length (seg_elements segment))%nat) eqn:Hhl;
    simpl; [|by apply Hdispatch].
  apply andb_prop in Hhl as [_ Hlen]. apply Nat.leb_le in Hlen.
  destruct (py_index_lt (seg_elements segment) 2) as (lc & _ & ->); [lia|].
  simpl. destruct (String.eqb lc "22"); simpl; [|by apply Hdispatch].
  apply (Hdispatch (Some _init_transaction) (commit current acks)).
  split; simpl.
  - by intros ? [= <-].
  - by apply commit_inv.
Qed.

Lemma assemble_inv segments st :
  asm_inv P Q st ->
  exists st', assemble st segments = Return st' /\ asm_inv P Q st'.
Proof using All.
  revert st. induction segments as [|segment rest IH]; intros st Hinv.
  - by exists st.
  - destruct (assemble_step_inv st segment Hinv) as (st1 & Hstep & Hinv1).
    simpl. rewrite Hstep. simpl. by apply IH.
Qed.

Lemma asm_inv_start : asm_inv P Q (None, []).
Proof. split; [done|]. by apply Forall_nil. Qed.
End AssembleInvariant.

(** ** The classification loop and the summary *)

Lemma rejected_not_accepted t : is_rejected t = true -> is_accepted t = false.
Proof.
  unfold is_rejected, is_accepted.
  destruct (dict_get t "status_category") as [| | |s]; simpl; try done.
  intros Hs. apply String.eqb_eq in Hs. by subst.
Qed.

Lemma categorize_filter acks rej acc :
  fold_left categorize_step acks (rej, acc)
  = (rej ++ List.filter is_rejected acks, acc ++ List.filter is_accepted acks).
Proof.
  revert rej acc. induction acks as [|t acks IH]; intros rej acc; simpl.
  - by rewrite !app_nil_r.
  - fold (is_rejected t). fold (is_accepted t).
    destruct (is_rejected t) eqn:Hr.
    + rewrite (rejected_not_accepted t Hr), IH. by rewrite <- app_assoc.
    + destruct (is_accepted t); rewrite IH; by rewrite <- ?app_assoc.
Qed.

Lemma make_summary_percent acks rej acc :
  make_summary acks rej acc
  = Return {| total_claims := length acks;
              rejected_count := length rej;
              accepted_count := length acc;
              rejection_rate := percent_rate (length rej) (length acks) |}.
Proof.
  unfold make_summary, percent_rate, int_truediv.
  destruct acks as [|t acks]; [done|].
  change (length (t :: acks)) with (S (length acks)).
  destruct (Z.of_nat (S (length acks)) =? 0) eqn:Hz; [|done].
  apply Z.eqb_eq in Hz. lia.
Qed.

Lemma parse_result_inv (P Q : txn -> Prop) x12_content :
  Q _init_transaction ->
  (forall t t', Q t -> extends t t' -> Q t') ->
  (forall t, Q t -> has_trace t -> P t) ->
  exists acks, parse x12_content = Return (result_of acks) /\ Forall P acks.
Proof.
  intros HQ0 HQe HP.
  destruct (assemble_inv P Q HQ0 HQe HP (_parse_segments x12_content)
              (None, []) (asm_inv_start P Q))
    as ([current acks] & Hasm & Hinv).
  exists (commit current acks). split.
  - unfold parse, parse_body. rewrite Hasm. simpl.
    rewrite categorize_filter. simpl. by rewrite make_summary_percent.
  - by apply (commit_inv P Q HP).
Qed.

End ParserProps.

Lemma Forall_list_filter {A} (P : A -> Prop) (f : A -> bool) (l : list A) :
  Forall P l -> Forall P (List.filter f l).
Proof.
  induction 1 as [|x l Hx Hl IH]; simpl; [done|].
  destruct (f x); [by constructor | done].
Qed.

Lemma commit_trace (t : txn) (acks : list txn) :
  commit (Some t) acks
  = if truthy (dict_get t "trace_number") then acks ++ [t] else acks.
Proof.
  unfold commit, dict_truthy, dict_get.
  destruct (bool_decide (t = ∅)) eqn:Hempty; [|done].
  apply bool_decide_eq_true in Hempty. subst t.
  by rewrite lookup_empty.
Qed.

(** ** The parser: claims C3, C6, C7 and C8 *)

(** C3. For every input document the parser returns, and every record of
    its [acknowledgments] list, hence of [rejections] and [acceptances],
    has a non-empty trace number: at a commit (the next claim-level
    boundary or the end of the stream) a transaction is appended exactly
    when its trace number is set and non-empty, and is dropped otherwise. *)
Theorem committed_records_have_trace_number `{Builtins} (x12_content : string) :
  (exists result,
      parse x12_content = Return result /\
      Forall has_trace (acknowledgments result) /\
      Forall has_trace (rejections result) /\
      Forall has_trace (acceptances result)) /\
  (forall (t : txn) (acks : list txn),
      commit (Some t) acks
      = if truthy (dict_get t "trace_number") then acks ++ [t] else acks).
Proof.
  split; [|apply commit_trace].
  destruct (parse_result_inv has_trace (fun _ => True) x12_content)
    as (acks & Hparse & Hacks); [done..|].
  exists (result_of acks). simpl.
  auto using Forall_list_filter.
Qed.

(** C6, as the code has it. [parse] raises for no input text.  When the
    stream yields no committed record it returns a result whose three
    lists are empty and whose summary holds the counts 0 and the rate 0. *)
Theorem parse_never_raises `{Builtins} (x12_content : string) :
  exists result,
    parse x12_content = Return result /\
    match acknowledgments result with
    | [] =>
        rejections result = [] /\ acceptances result = [] /\
        summary result = {| total_claims := 0; rejected_count := 0;
                            accepted_count := 0; rejection_rate := VInt 0 |}
    | _ :: _ => True
    end.
Proof.
  destruct (parse_result_inv (fun _ => True) (fun _ => True) x12_content)
    as (acks & Hparse & _); [done..|].
  exists (result_of acks). split; [done|].
  by destruct acks.
Qed.

(** C6 fails as stated: the empty document yields no committed record, and
    [parse] returns instead of raising. *)
Lemma parse_empty_document_returns :
  (exists result,
      parse (py := Sample.builtins) "" = Return result /\
      acknowledgments result = []) /\
  ~ (exists e, parse (py := Sample.builtins) "" = Raise e).
Proof.
  split.
  - eexists. split; [vm_compute; reflexivity | reflexivity].
  - intros [e He]. vm_compute in He. discriminate.
Qed.

(** C7, as the code has it. With at least two elements and the role code
    "IL" in element 0, the name segment sets [patient_name] to element 2,
    a space and element 1 when element 2 exists, and [patient_id] to
    element 8 when element 8 exists; with the role code "1P" it sets
    [provider_npi] to element 8 when element 8 exists.  Every other field
    is left as it was, and so is the whole record for any other segment. *)
Theorem nm1_reads_element_eight (segment : Segment) (t : txn) :
  _process_nm1 segment t
  = Return
      (match seg_elements segment with
       | role :: e1 :: rest =>
           if String.eqb role "IL" then
             let t1 := match rest with
                       | e2 :: _ =>
                           <["patient_name" := VStr (e2 +:+ " " +:+ e1)]> t
                       | [] => t
                       end in
             match seg_elements segment !! 8%nat with
             | Some e8 => <["patient_id" := VStr e8]> t1
             | None => t1
             end
           else if String.eqb role "1P" then
             match seg_elements segment !! 8%nat with
             | Some e8 => <["provider_npi" := VStr e8]> t
             | None => t
             end
           else t
       | _ => t
       end).
Proof.
  destruct segment as [sid els]. unfold _process_nm1. simpl.
  destruct els as [|e0 [|e1 els]]; simpl; try done.
  destruct (String.eqb e0 "IL"); [|destruct (String.eqb e0 "1P")]; try done;
    by destruct els as [|e2 [|e3 [|e4 [|e5 [|e6 [|e7 [|e8 els]]]]]]].
Qed.

(** C7 fails as stated: on a patient name segment with nine elements the
    code stores element 8 as [patient_id], not element 7; and with eight
    elements, where element 7 exists, it stores nothing. *)
Lemma nm1_does_not_read_element_seven :
  let nine := {| seg_id := "NM1";
                 seg_elements :=
                   ["IL"; "1"; "DOE"; "JOHN"; ""; ""; ""; "MI"; "12345"] |} in
  let eight := {| seg_id := "NM1";
                  seg_elements :=
                    ["IL"; "1"; "DOE"; "JOHN"; ""; ""; ""; "12345"] |} in
  (exists t,
      _process_nm1 nine _init_transaction = Return t /\
      seg_elements nine !! 7%nat = Some "MI" /\
      dict_get t "patient_id" = VStr "12345" /\
      dict_get t "patient_id" <> VStr "MI") /\
  (exists t,
      _process_nm1 eight _init_transaction = Return t /\
      seg_elements eight !! 7%nat = Some "12345" /\
      dict_get t "patient_id" = VNone).
Proof.
  split; eexists; (split; [reflexivity|]); vm_compute; repeat split;
    discriminate.
Qed.

(** C8, as the code has it. The summary holds the number of
    acknowledgments, the number of them whose status category is "A7", the
    number whose status category is "A1", and as rejection rate the
    percentage [rejected / total * 100], or 0 for an empty document. *)
Theorem summary_counts_and_percentage `{Builtins} (x12_content : string) :
  exists result,
    parse x12_content = Return result /\
    let s := summary result in
    total_claims s = length (acknowledgments result) /\
    rejected_count s
      = length (List.filter is_rejected (acknowledgments result)) /\
    accepted_count s
      = length (List.filter is_accepted (acknowledgments result)) /\
    rejection_rate s = percent_rate (rejected_count s) (total_claims s).
Proof.
  destruct (parse_result_inv (fun _ => True) (fun _ => True) x12_content)
    as (acks & Hparse & _); [done..|].
  by exists (result_of acks).
Qed.

(** C8 fails as stated: for a document with one claim, rejected, the rate
    is 100, not the ratio 1. *)
Lemma rejection_rate_is_not_a_ratio :
  exists result,
    parse (py := Sample.builtins) doc_one_rejection = Return result /\
    total_claims (summary result) = 1%nat /\
    rejected_count (summary result) = 1%nat /\
    rejection_rate (summary result) = VFloat (float_of_Z 100) /\
    rejection_rate (summary result) <> ratio_rate 1 1.
Proof.
  eexists. split; [vm_compute; reflexivity|].
  vm_compute. repeat split. discriminate.
Qed.

(** ** Insertion-ordered dictionaries *)

Section ODict.
Context {V : Type}.
Implicit Types (d : odict V) (k : string) (v : V).

Lemma od_get_set_eq k v d : od_get k (od_set k v d) = Some v.
Proof.
  induction d as [|[k' v'] d IH]; simpl.
  - by rewrite String.eqb_refl.
  - destruct (String.eqb k k') eqn:Hk; simpl.
    + by rewrite String.eqb_refl.
    + by rewrite Hk.
Qed.

Lemma od_get_set_ne k k' v d :
  k <> k' -> od_get k' (od_set k v d) = od_get k' d.
Proof.
  intros Hne. induction d as [|[k0 v0] d IH]; simpl.
  - destruct (String.eqb k' k) eqn:Hk; [|done].
    apply String.eqb_eq in Hk. by subst.
  - destruct (String.eqb k k0) eqn:Hk; simpl.
    + apply String.eqb_eq in Hk. subst k0.
      destruct (String.eqb k' k) eqn:Hk'; [|done].
      apply String.eqb_eq in Hk'. by subst.
    + by rewrite IH.
Qed.

Lemma od_set_keys k v d :
  od_keys (od_set k v d)
  = if od_mem k d then od_keys d else od_keys d ++ [k].
Proof.
  unfold od_mem, od_keys. induction d as [|[k' v'] d IH]; simpl; [done|].
  destruct (String.eqb k k') eqn:Hk; simpl.
  - apply String.eqb_eq in Hk. by subst.
  - rewrite IH. by destruct (od_get k d).
Qed.

Lemma od_set_length k v d :
  length (od_set k v d) = if od_mem k d then length d else S (length d).
Proof.
  unfold od_mem. induction d as [|[k' v'] d IH]; simpl; [done|].
  destruct (String.eqb k k'); simpl; [done|].
  rewrite IH. by destruct (od_get k d).
Qed.

Lemma od_get_keys k d : od_get k d = None -> k ∉ od_keys d.
Proof.
  unfold od_keys. induction d as [|[k' v'] d IH]; simpl; [set_solver|].
  destruct (String.eqb k k') eqn:Hk; [done|].
  intros Hget. apply String.eqb_neq in Hk.
  apply not_elem_of_cons. split; [done | by apply IH].
Qed.

Lemma od_set_NoDup k v d : NoDup (od_keys d) -> NoDup (od_keys (od_set k v d)).
Proof.
  intros Hd. rewrite od_set_keys. unfold od_mem.
  destruct (od_get k d) eqn:Hget; [done|].
  apply NoDup_app. split_and!; [done| |apply NoDup_singleton].
  intros x Hx Hk. apply list_elem_of_singleton in Hk. subst x.
  by apply (od_get_keys k d).
Qed.

Lemma od_set_Forall (P : V -> Prop) k v d :
  P v -> Forall P (od_values d) -> Forall P (od_values (od_set k v d)).
Proof.
  intros Hv. unfold od_values.
  induction d as [|[k' v'] d IH]; simpl; intros Hd.
  - by constructor.
  - apply Forall_cons in Hd as [Hv' Hd].
    destruct (String.eqb k k'); simpl; constructor; auto.
Qed.

Lemma od_get_Forall (P : V -> Prop) k v d :
  Forall P (od_values d) -> od_get k d = Some v -> P v.
Proof.
  unfold od_values. induction d as [|[k' v'] d IH]; simpl; [done|].
  intros Hd. apply Forall_cons in Hd as [Hv' Hd].
  destruct (String.eqb k k'); [by intros [= <-] | by apply IH].
Qed.

End ODict.

(** ** The match key *)

Section KeyProps.
Context {py : Builtins}.

Lemma contains_split (c : ascii) (s : string) :
  contains c s = false -> split c s = [s].
Proof.
  induction s as [|c' s IH]; simpl; [done|].
  destruct (Ascii.eqb c' c); simpl; [done|].
  intros Hs. by rewrite IH.
Qed.

Lemma length_8_truthy (s : string) :
  (String.length s =? 8)%nat = true -> truthy (VStr s) = true.
Proof. by destruct s. Qed.

Lemma key_none (t : txn) :
  absent (dict_get t "patient_id") \/
  (absent (dict_get t "date_of_service") /\ absent (amount_of t)) ->
  _create_match_key t = Return None.
Proof.
  unfold absent, amount_of, _create_match_key.
  destruct (truthy (dict_get t "patient_id")); simpl; [|done].
  intros [Hp|[Hd Ha]]; [done|]. rewrite Hd, Ha. simpl. by rewrite Hd.
Qed.

Lemma key_some (t : txn) (n : Z) :
  present (dict_get t "patient_id") ->
  present (dict_get t "date_of_service") \/ present (amount_of t) ->
  amount_truncates t n ->
  _create_match_key t = Return (Some (join "|" (key_components t n))).
Proof.
  unfold present, absent, amount_truncates, key_components, normalized_date,
    _create_match_key.
  cbv zeta. fold (amount_of t).
  set (pid := dict_get t "patient_id").
  set (dos := dict_get t "date_of_service").
  set (amt := amount_of t).
  intros -> Hda Hn. simpl negb. cbv iota.
  assert (Htail : forall kp : list string,
    (if truthy amt
     then f ← py_float amt; m ← py_int f; Return (kp ++ [py_str (VInt m)])
     else Return kp)
    = Return (kp ++ (if truthy amt then [pretty n] else []))).
  { intros kp. destruct (truthy amt) eqn:Ha; [|by rewrite app_nil_r].
    destruct Hn as [Hn|(f & -> & Hf)]; [unfold absent in Hn; congruence|].
    simpl. by rewrite Hf. }
  assert (Hlen : forall (a b : string) (l : list string),
    (2 <=? length (a :: b :: l))%nat = true) by done.
  destruct (truthy dos) eqn:Hd.
  - assert (Hdate : exists d : value,
      (if true && contains "-" (py_str dos)
       then if (length (split "-" (py_str dos)) =? 2)%nat
            then p0 ← py_index (split "-" (py_str dos)) 0;
                 (if (String.length p0 =? 8)%nat then Return (VStr p0)
                  else Return dos)
            else Return dos
       else Return dos) = Return d
      /\ truthy d = true
      /\ py_str d = match split "-" (py_str dos) with
                    | [p0; _] =>
                        if (String.length p0 =? 8)%nat then p0 else py_str dos
                    | _ => py_str dos
                    end).
    { simpl andb. destruct (contains "-" (py_str dos)) eqn:Hc.
      - destruct (split "-" (py_str dos)) as [|a [|b [|c l]]]; simpl;
          try (by exists dos).
        destruct (String.length a =? 8)%nat eqn:Ha; [|by exists dos].
        exists (VStr a). split_and!; [done| by apply length_8_truthy |done].
      - rewrite (contains_split _ _ Hc). by exists dos. }
    destruct Hdate as (d & -> & Htd & <-).
    cbn [mbind Exc_bind]. rewrite Htd. rewrite Htail.
    cbn [mbind Exc_bind]. simpl app.
    destruct (truthy amt); by rewrite Hlen.
  - assert (Ha : truthy amt = true) by (by destruct Hda).
    simpl andb. cbn [mbind Exc_bind]. rewrite Hd. rewrite Htail.
    cbn [mbind Exc_bind]. rewrite Ha. simpl app. by rewrite Hlen.
Qed.

(** With a patient id, the only step that can raise is the conversion of
    the amount, and its exception is the one of the call. *)
Lemma key_raises (t : txn) (x : exn) :
  present (dict_get t "patient_id") ->
  amount_raises t x ->
  _create_match_key t = Raise x.
Proof.
  unfold present, amount_raises, _create_match_key.
  cbv zeta. fold (amount_of t).
  set (pid := dict_get t "patient_id").
  set (dos := dict_get t "date_of_service").
  set (amt := amount_of t).
  intros -> [Ha Hx]. simpl negb. cbv iota.
  assert (Htail : forall kp : list string,
    (if truthy amt
     then f ← py_float amt; m ← py_int f; Return (kp ++ [py_str (VInt m)])
     else Return kp)
    = Raise x).
  { intros kp. rewrite Ha.
    destruct Hx as [->|(f & -> & Hf)]; simpl; [done | by rewrite Hf]. }
  assert (Hdate : exists d : value,
    (if truthy dos && contains "-" (py_str dos)
     then if (length (split "-" (py_str dos)) =? 2)%nat
          then p0 ← py_index (split "-" (py_str dos)) 0;
               (if (String.length p0 =? 8)%nat then Return (VStr p0)
                else Return dos)
          else Return dos
     else Return dos) = Return d).
  { destruct (truthy dos && contains "-" (py_str dos)); [|by eexists].
    destruct (split "-" (py_str dos)) as [|a [|b [|c l]]]; simpl;
      try (by eexists).
    destruct (String.length a =? 8)%nat; by eexists. }
  destruct Hdate as [d ->]. cbn [mbind Exc_bind].
  destruct (truthy d); by rewrite Htail.
Qed.

End KeyProps.

Lemma py_int_truncates (f : spec_float) (n : Z) :
  py_int f = Return n -> truncation_of f n.
Proof.
  destruct f as [s|s| |s m e]; simpl; try done; [by intros [= <-]|].
  intros [= <-].
  set (a := if 0 <=? e then Z.shiftl (Z.pos m) e else Z.shiftr (Z.pos m) (- e)).
  assert (Ha : 0 <= a /\
               a * 2 ^ Z.max 0 (- e) <= Z.pos m * 2 ^ Z.max 0 e
                 < (a + 1) * 2 ^ Z.max 0 (- e)).
  { unfold a. destruct (0 <=? e) eqn:He.
    - apply Z.leb_le in He.
      rewrite Z.shiftl_mul_pow2 by done.
      rewrite (Z.max_l 0 (- e)), (Z.max_r 0 e) by lia.
      assert (0 < 2 ^ e) by (apply Z.pow_pos_nonneg; lia). nia.
    - apply Z.leb_gt in He.
      rewrite Z.shiftr_div_pow2 by lia.
      rewrite (Z.max_r 0 (- e)), (Z.max_l 0 e) by lia.
      assert (Hp : 0 < 2 ^ (- e)) by (apply Z.pow_pos_nonneg; lia).
      pose proof (Z.div_mod (Z.pos m) (2 ^ (- e)) ltac:(lia)) as Hdm.
      pose proof (Z.mod_pos_bound (Z.pos m) (2 ^ (- e)) Hp) as Hmod.
      assert (0 <= Z.pos m / 2 ^ (- e)) by (apply Z.div_pos; lia).
      nia. }
  destruct Ha as [Ha0 Ha].
  destruct s.
  - rewrite Z.abs_opp, Z.abs_eq by done. by split.
  - rewrite Z.abs_eq by done. by split.
Qed.

(** ** The match key: claims C1 and C2 *)

Section KeyClaims.
Context {py : Builtins}.

Lemma add_rejection_no_key (t : txn) (e : Engine) :
  _create_match_key t = Return None -> add_rejection t e = (e, Return tt).
Proof. unfold add_rejection. by intros ->. Qed.

Lemma add_payment_no_key (t : txn) (e : Engine) :
  _create_match_key t = Return None -> add_payment t e = (e, Return tt).
Proof. unfold add_payment. by intros ->. Qed.

Lemma add_277ca_rejections_skip (t : txn) (before after : list txn) (e : Engine) :
  _create_match_key t = Return None ->
  add_277ca_rejections (before ++ t :: after) e
  = add_277ca_rejections (before ++ after) e.
Proof.
  intros Hkey. revert e. induction before as [|t' before IH]; intros e; simpl.
  - by rewrite (add_rejection_no_key t e Hkey).
  - destruct (add_rejection t' e) as [e' [[]|x]]; [apply IH | done].
Qed.

Lemma add_835_payments_skip (t : txn) (before after : list txn) (e : Engine) :
  _create_match_key t = Return None ->
  add_835_payments (before ++ t :: after) e
  = add_835_payments (before ++ after) e.
Proof.
  intros Hkey. revert e. induction before as [|t' before IH]; intros e; simpl.
  - by rewrite (add_payment_no_key t e Hkey).
  - destruct (add_payment t' e) as [e' [[]|x]]; [apply IH | done].
Qed.

(** C1, as the code has it. A field is absent when it is [None], empty or
    zero, which is the code's own test.  If [patient_id] is absent, or both
    [date_of_service] and the amount are, the match key is [None], no error
    is raised, and the record changes neither cache: the iteration over it
    returns the engine as it was, and a list of records is processed as if
    the record were not in it.  Otherwise, for an amount that is missing or
    a number with integer part [n], the key is the "|"-join of the present
    components: patient id, normalized date, truncated amount.  For an
    amount that is present and that [int(float(amount))] refuses with the
    exception [x], no key is computed: the exception leaves the call, and
    the iteration over the record, with both caches as they were. *)
Theorem match_key_needs_two_components
    (t : txn) (n : Z) (x : exn) (before after : list txn) (e : Engine) :
  (absent (dict_get t "patient_id") \/
   (absent (dict_get t "date_of_service") /\ absent (amount_of t)) ->
   _create_match_key t = Return None /\
   add_rejection t e = (e, Return tt) /\
   add_payment t e = (e, Return tt) /\
   add_277ca_rejections (before ++ t :: after) e
   = add_277ca_rejections (before ++ after) e /\
   add_835_payments (before ++ t :: after) e
   = add_835_payments (before ++ after) e) /\
  (present (dict_get t "patient_id") ->
   present (dict_get t "date_of_service") \/ present (amount_of t) ->
   amount_truncates t n ->
   _create_match_key t = Return (Some (join "|" (key_components t n)))) /\
  (present (dict_get t "patient_id") ->
   amount_raises t x ->
   _create_match_key t = Raise x /\
   add_rejection t e = (e, Raise x) /\
   add_payment t e = (e, Raise x) /\
   add_277ca_rejections (t :: after) e = (e, Raise x) /\
   add_835_payments (t :: after) e = (e, Raise x)).
Proof.
  split_and!.
  - intros Habsent. pose proof (key_none t Habsent) as Hkey.
    split_and!;
      auto using add_rejection_no_key, add_payment_no_key,
        add_277ca_rejections_skip, add_835_payments_skip.
  - apply key_some.
  - intros Hp Hx. pose proof (key_raises t x Hp Hx) as Hkey.
    assert (Hrej : add_rejection t e = (e, Raise x))
      by (unfold add_rejection; by rewrite Hkey).
    assert (Hpay : add_payment t e = (e, Raise x))
      by (unfold add_payment; by rewrite Hkey).
    split_and!; [done..| |]; simpl; by rewrite ?Hrej, ?Hpay.
Qed.

(** C2, as the code has it. For a record with a patient id and a non-empty
    [date_of_service], the date component of the key is the text before the
    dash exactly when the value holds one dash with eight characters before
    it (whatever these characters and whatever follows the dash), and the
    value unchanged otherwise; and when the amount is present, the amount
    component is the amount truncated toward zero. *)
Theorem date_component_is_first_part_of_length_8
    (t : txn) (f : spec_float) (n : Z) :
  present (dict_get t "patient_id") ->
  present (dict_get t "date_of_service") ->
  absent (amount_of t) \/
    (py_float (amount_of t) = Return f /\ py_int f = Return n) ->
  let s := py_str (dict_get t "date_of_service") in
  let date :=
    match split "-" s with
    | [p0; _] => if (String.length p0 =? 8)%nat then p0 else s
    | _ => s
    end in
  _create_match_key t
  = Return (Some (join "|" ([py_str (dict_get t "patient_id"); date]
                            ++ if truthy (amount_of t) then [pretty n] else [])))
  /\ (present (amount_of t) -> truncation_of f n).
Proof.
  intros Hp Hd Ha. split.
  - rewrite (key_some t n Hp); [|by left|].
    + unfold key_components. unfold present in Hd. by rewrite Hd.
    + destruct Ha as [Ha|Ha]; [by left | right; by exists f].
  - intros Hamt. destruct Ha as [Ha|[_ Hn]].
    + unfold present, absent in *. congruence.
    + by apply py_int_truncates.
Qed.

End KeyClaims.

(** ** The caches *)

Lemma bind_Return {A B} (c : Exc A) (f : A -> Exc B) (b : B) :
  c ≫= f = Return b -> exists a, c = Return a /\ f a = Return b.
Proof. destruct c as [a|x]; simpl; [by eauto | done]. Qed.

Lemma join_two_nonempty (sep a b : string) (l : list string) :
  sep <> "" -> join sep (a :: b :: l) <> "".
Proof.
  intros Hsep. change (join sep (a :: b :: l))
    with (a +:+ sep +:+ join sep (b :: l)).
  destruct a; simpl; [|done].
  destruct sep; simpl; done.
Qed.


Section CacheProps.
Context {py : Builtins}.

(** A key that is returned is a non-empty string, and the amount it was
    built from converts to a float. *)
Lemma key_some_inv (t : txn) (k : string) :
  _create_match_key t = Return (Some k) ->
  k <> "" /\
  (truthy (amount_of t) = true -> returns (py_float (amount_of t))).
Proof.
  unfold _create_match_key. cbv zeta. fold (amount_of t).
  destruct (truthy (dict_get t "patient_id")); simpl negb; cbv iota;
    [|intros; discriminate].
  intros Hk.
  apply bind_Return in Hk as (d & _ & Hk).
  apply bind_Return in Hk as (kp & Hkp & Hk).
  destruct (2 <=? length kp)%nat eqn:Hlen; [|done].
  injection Hk as <-. split.
  - destruct kp as [|a [|b l]]; try done. by apply join_two_nonempty.
  - intros Ha. rewrite Ha in Hkp.
    apply bind_Return in Hkp as (f & Hf & _). by exists f.
Qed.

Lemma rejection_entry_amount_ok (t : txn) (k : string) :
  _create_match_key t = Return (Some k) -> amount_ok (rejection_entry t).
Proof.
  intros Hk. apply key_some_inv in Hk as [_ Hamt].
  unfold amount_ok, rejection_entry. simpl.
  unfold amount_of, py_or in *.
  destruct (truthy (dict_get t "billed_amount")) eqn:Hb.
  - by apply Hamt.
  - by eexists.
Qed.

(** The iteration of [add_277ca_rejections] over a record with key [k]. *)
Lemma add_rejection_key (t : txn) (k : string) (e : Engine) :
  _create_match_key t = Return (Some k) ->
  add_rejection t e
  = ({| lookback_days := lookback_days e;
        rejections_cache := od_set k (rejection_entry t) (rejections_cache e);
        payments_cache := payments_cache e |}, Return tt).
Proof.
  intros Hk. unfold add_rejection. rewrite Hk.
  apply key_some_inv in Hk as [Hne _]. simpl.
  apply String.eqb_neq in Hne. by rewrite Hne.
Qed.

Lemma add_payment_key (t : txn) (k : string) (e : Engine) :
  _create_match_key t = Return (Some k) ->
  add_payment t e
  = ({| lookback_days := lookback_days e;
        rejections_cache :=
          match od_get k (rejections_cache e) with
          | Some r =>
              od_set k (mark_found (dict_get t "payment_date") r)
                     (rejections_cache e)
          | None => rejections_cache e
          end;
        payments_cache := od_set k (payment_entry t) (payments_cache e) |},
     Return tt).
Proof.
  intros Hk. unfold add_payment. rewrite Hk.
  apply key_some_inv in Hk as [Hne _]. simpl.
  apply String.eqb_neq in Hne. by rewrite Hne.
Qed.

(** The three outcomes of one iteration. *)
Lemma add_rejection_cases (t : txn) (e : Engine) :
  add_rejection t e = (e, Return tt) \/
  (exists x, add_rejection t e = (e, Raise x)) \/
  (exists k, _create_match_key t = Return (Some k)).
Proof.
  unfold add_rejection.
  destruct (_create_match_key t) as [[k|]|x]; eauto.
Qed.

Lemma add_payment_cases (t : txn) (e : Engine) :
  add_payment t e = (e, Return tt) \/
  (exists x, add_payment t e = (e, Raise x)) \/
  (exists k, _create_match_key t = Return (Some k)).
Proof.
  unfold add_payment.
  destruct (_create_match_key t) as [[k|]|x]; eauto.
Qed.

Lemma add_rejection_inv (t : txn) (e : Engine) :
  engine_inv e -> engine_inv (add_rejection t e).1.
Proof.
  intros [Hnd Hok].
  destruct (add_rejection_cases t e) as [->|[[x ->]|[k Hk]]]; [done..|].
  rewrite (add_rejection_key t k e Hk). split; simpl.
  - by apply od_set_NoDup.
  - apply od_set_Forall; [|done]. by apply (rejection_entry_amount_ok t k).
Qed.

Lemma add_payment_inv (t : txn) (e : Engine) :
  engine_inv e -> engine_inv (add_payment t e).1.
Proof.
  intros [Hnd Hok].
  destruct (add_payment_cases t e) as [->|[[x ->]|[k Hk]]]; [done..|].
  rewrite (add_payment_key t k e Hk). split; simpl.
  - destruct (od_get k (rejections_cache e)); [by apply od_set_NoDup | done].
  - destruct (od_get k (rejections_cache e)) as [r|] eqn:Hget; [|done].
    apply od_set_Forall; [|done].
    by apply (od_get_Forall amount_ok k r (rejections_cache e)).
Qed.

Lemma add_277ca_rejections_inv (l : list txn) (e : Engine) :
  engine_inv e -> engine_inv (add_277ca_rejections l e).1.
Proof.
  revert e. induction l as [|t l IH]; intros e He; simpl; [done|].
  pose proof (add_rejection_inv t e He) as He'.
  destruct (add_rejection t e) as [e' [[]|x]]; simpl in *; [by apply IH | done].
Qed.

Lemma add_835_payments_inv (l : list txn) (e : Engine) :
  engine_inv e -> engine_inv (add_835_payments l e).1.
Proof.
  revert e. induction l as [|t l IH]; intros e He; simpl; [done|].
  pose proof (add_payment_inv t e He) as He'.
  destruct (add_payment t e) as [e' [[]|x]]; simpl in *; [by apply IH | done].
Qed.

Lemma run_op_inv (o : op) (e : Engine) : engine_inv e -> engine_inv (run_op o e).
Proof.
  destruct o; simpl;
    auto using add_277ca_rejections_inv, add_835_payments_inv.
Qed.

Lemma run_ops_inv (ops : list op) (e : Engine) :
  engine_inv e -> engine_inv (run_ops ops e).
Proof.
  revert e. induction ops as [|o ops IH]; intros e He; simpl; [done|].
  apply IH. by apply run_op_inv.
Qed.

Lemma new_engine_inv (lookback : Z) : engine_inv (new_engine lookback).
Proof. split; simpl; [apply NoDup_nil_2 | apply Forall_nil_2]. Qed.

(** ** The summary *)

Lemma unsubmitted_amounts_ok (values : list Rejection.t) :
  Forall amount_ok values ->
  unsubmitted_amounts values
  = Return (map amount_or_zero (List.filter unmatched values)).
Proof.
  induction 1 as [|r values [f Hf] _ IH]; simpl; [done|].
  unfold unmatched at 1.
  destruct (negb (Rejection.found_in_835 r)); [|done].
  rewrite Hf, IH. simpl. unfold amount_or_zero. by rewrite Hf.
Qed.

Lemma summary_returns (e : Engine) :
  engine_inv e ->
  exists s,
    get_reconciliation_summary e = Return s /\
    potential_revenue_at_risk s
    = py_sum (map amount_or_zero
                (List.filter unmatched (od_values (rejections_cache e)))).
Proof.
  intros [_ Hok]. unfold get_reconciliation_summary.
  rewrite (unsubmitted_amounts_ok _ Hok). simpl.
  destruct (0 <? length (rejections_cache e))%nat eqn:Hlen; simpl;
    [|by eexists].
  unfold int_truediv. apply Nat.ltb_lt in Hlen.
  destruct (Z.of_nat (length (rejections_cache e)) =? 0) eqn:Hz.
  - apply Z.eqb_eq in Hz. lia.
  - simpl. by eexists.
Qed.

End CacheProps.

(** ** What an operation does to an entry of the rejections cache *)

Section EntryProps.
Context {py : Builtins}.







(** C5. In every state the engine reaches, the summary is computed
    without error and its [potential_revenue_at_risk] is the sum of the
    billed amounts, a missing one counted as 0, over the entries of the
    rejections cache that no payment has matched; the cache holds one entry
    per key; and adding a rejection whose key is already in the cache
    replaces that entry, leaves the number of entries and all other entries
    as they were, so that no amount is counted twice. *)
Theorem revenue_at_risk_sums_unmatched_entries (ops : list op) (lookback : Z) :
  let e := run_ops ops (new_engine lookback) in
  (exists s,
      get_reconciliation_summary e = Return s /\
      potential_revenue_at_risk s
      = py_sum (map amount_or_zero
                  (List.filter unmatched (od_values (rejections_cache e))))) /\
  NoDup (od_keys (rejections_cache e)) /\
  (forall (t : txn) (k : string),
      _create_match_key t = Return (Some k) ->
      let e' := run_op (AddRejections [t]) e in
      od_get k (rejections_cache e') = Some (rejection_entry t) /\
      length (rejections_cache e')
      = (if od_mem k (rejections_cache e) then length (rejections_cache e)
         else S (length (rejections_cache e))) /\
      (forall k', k <> k' ->
                  od_get k' (rejections_cache e')
                  = od_get k' (rejections_cache e))).
Proof.
  intros e.
  assert (He : engine_inv e) by apply run_ops_inv, new_engine_inv.
  split_and!.
  - by apply summary_returns.
  - apply He.
  - intros t k Hk e'. unfold e'. simpl.
    rewrite (add_rejection_key t k e Hk). simpl. split_and!.
    + apply od_get_set_eq.
    + apply od_set_length.
    + intros k' Hne. by apply od_get_set_ne.
Qed.








End EntryProps.

(** ** Aged alerts: claims C4 and C10 *)

Section AlertProps.
Context {py : Builtins}.

Lemma days_of_timedelta (n : Z) : days_of (timedelta_days n) = n.
Proof.
  unfold days_of, timedelta_days. apply Z.div_mul. unfold us_per_day. lia.
Qed.

(** The range checks of [datetime] and [timedelta]. *)
Lemma datetime_of_us_spec (us : Z) :
  match datetime_of_us us with
  | Some d => dt_us d = us
  | None => in_datetime_range us = false
  end.
Proof.
  unfold datetime_of_us.
  assert (Hany : forall b (H : in_datetime_range us = b),
             match
               match b as b' return in_datetime_range us = b' -> option datetime
               with
               | true => fun H' => Some {| dt_us := us; dt_range := H' |}
               | false => fun _ => None
               end H
             with
             | Some d => dt_us d = us
             | None => in_datetime_range us = false
             end).
  { by intros [] H. }
  apply Hany.
Qed.

Lemma datetime_sub_spec (dt : datetime) (td : timedelta) :
  match datetime_sub dt td with
  | Return r => dt_us r = dt - td
  | Raise x => x = OverflowError /\ in_datetime_range (dt - td) = false
  end.
Proof.
  unfold datetime_sub. pose proof (datetime_of_us_spec (dt - td)) as Hspec.
  by destruct (datetime_of_us (dt - td)).
Qed.

Lemma threshold_date_spec (now : datetime) (days_threshold : Z) :
  match td ← py_timedelta days_threshold; datetime_sub now td with
  | Return threshold_date =>
      threshold_in_range now days_threshold = true /\
      dt_us threshold_date = now - timedelta_days days_threshold
  | Raise x =>
      threshold_in_range now days_threshold = false /\ x = OverflowError
  end.
Proof.
  unfold threshold_in_range, py_timedelta.
  destruct (Z.abs days_threshold <=? 999999999); simpl; [|done].
  pose proof (datetime_sub_spec now (timedelta_days days_threshold)) as Hspec.
  destruct (datetime_sub now (timedelta_days days_threshold)) as [r|x].
  - split; [|done]. rewrite <- Hspec. apply dt_range.
  - by destruct Hspec as [-> ->].
Qed.

(** With a threshold date that exists, [find_unsubmitted_claims] is the
    scan of the cache against it, followed by the sort. *)
Lemma find_in_range (now : datetime) (days_threshold : Z) (e : Engine) :
  threshold_in_range now days_threshold = true ->
  exists threshold_date : datetime,
    dt_us threshold_date = now - timedelta_days days_threshold /\
    find_unsubmitted_claims now days_threshold e
    = (alerts ← scan_rejections now threshold_date (rejections_cache e) [];
       Return (sort_desc alerts)).
Proof.
  intros Hrange. unfold find_unsubmitted_claims.
  pose proof (threshold_date_spec now days_threshold) as Hspec.
  change (py_timedelta days_threshold ≫= datetime_sub now)
    with (td ← py_timedelta days_threshold; datetime_sub now td) in Hspec.
  destruct (py_timedelta days_threshold) as [td|x]; simpl in *.
  - destruct (datetime_sub now td) as [threshold_date|x]; simpl.
    + exists threshold_date. by destruct Hspec.
    + destruct Hspec. congruence.
  - destruct Hspec. congruence.
Qed.

(** Otherwise it raises [OverflowError], whatever the cache holds. *)
Lemma find_out_of_range (now : datetime) (days_threshold : Z) (e : Engine) :
  threshold_in_range now days_threshold = false ->
  find_unsubmitted_claims now days_threshold e = Raise OverflowError.
Proof.
  intros Hrange. unfold find_unsubmitted_claims.
  pose proof (threshold_date_spec now days_threshold) as Hspec.
  change (py_timedelta days_threshold ≫= datetime_sub now)
    with (td ← py_timedelta days_threshold; datetime_sub now td) in Hspec.
  destruct (py_timedelta days_threshold) as [td|x]; simpl in *.
  - destruct (datetime_sub now td) as [threshold_date|x]; simpl.
    + destruct Hspec. congruence.
    + by destruct Hspec as [_ ->].
  - by destruct Hspec as [_ ->].
Qed.

(** A threshold of 30 days is in range at every instant that lies 45 or 46
    days after a [datetime]. *)
Lemma threshold_30_in_range (now d : datetime) (age : Z) :
  now - d = timedelta_days age -> 30 <= age ->
  threshold_in_range now 30 = true.
Proof.
  intros Hage Hle. unfold threshold_in_range.
  pose proof (dt_range now) as Hnow. pose proof (dt_range d) as Hd.
  unfold in_datetime_range in *.
  apply andb_true_iff in Hnow as [_ Hnow]. apply andb_true_iff in Hd as [Hd _].
  apply Z.leb_le in Hnow, Hd.
  apply andb_true_iff. split; [done|].
  apply andb_true_iff. split; apply Z.leb_le;
    unfold timedelta_days, us_per_day in *; lia.
Qed.

(** An entry that is unmatched, dated [d] and older than the threshold
    raises the one alert [make_alert]. *)
Lemma scan_single_entry (now : datetime) (days_threshold : Z)
    (k s : string) (r : Rejection.t) (d : datetime) (e : Engine) :
  rejections_cache e = [(k, r)] ->
  Rejection.found_in_835 r = false ->
  Rejection.rejection_date r = VStr s ->
  s <> "" ->
  strptime s (date_format s) = Some d ->
  threshold_in_range now days_threshold = true ->
  d < now - timedelta_days days_threshold ->
  find_unsubmitted_claims now days_threshold e
  = Return [make_alert now k r d].
Proof.
  intros Hcache Hfound Hdate Hs Hparse Hrange Hold.
  destruct (find_in_range now days_threshold e Hrange)
    as (threshold_date & Hthreshold & ->).
  rewrite Hcache. simpl.
  rewrite Hfound, Hdate. simpl.
  apply String.eqb_neq in Hs. rewrite Hs. simpl. rewrite Hparse.
  rewrite Hthreshold. apply Z.ltb_lt in Hold. by rewrite Hold.
Qed.

(** C4. The clock is a parameter: [now] is what [datetime.now()] returns.
    For a rejections cache holding one entry, unmatched, whose rejection
    date parses to the instant [d]: when [now] is exactly 45 days after [d],
    a threshold of 30 days gives exactly one alert, of severity "MEDIUM";
    when [now] is exactly 46 days after [d], the one alert has severity
    "HIGH". *)
Theorem alert_severity_at_45_and_46_days
    (now : datetime) (k s : string) (r : Rejection.t) (d : datetime)
    (e : Engine) :
  rejections_cache e = [(k, r)] ->
  Rejection.found_in_835 r = false ->
  Rejection.rejection_date r = VStr s ->
  s <> "" ->
  strptime s (date_format s) = Some d ->
  (now - d = timedelta_days 45 ->
   exists a, find_unsubmitted_claims now 30 e = Return [a] /\
             Alert.severity a = "MEDIUM" /\
             Alert.days_since_rejection a = 45) /\
  (now - d = timedelta_days 46 ->
   exists a, find_unsubmitted_claims now 30 e = Return [a] /\
             Alert.severity a = "HIGH" /\
             Alert.days_since_rejection a = 46).
Proof.
  intros Hcache Hfound Hdate Hs Hparse.
  split; intros Hage; exists (make_alert now k r d);
    (split; [apply (scan_single_entry now 30 k s r d e); try done;
             [by eapply threshold_30_in_range
             |unfold timedelta_days, us_per_day in *; lia]|]);
    unfold make_alert; simpl; by rewrite Hage, days_of_timedelta.
Qed.

(** Entries without rejection date raise no alert. *)
Lemma scan_no_date (now threshold : datetime) (items : odict Rejection.t)
    (alerts : list Alert.t) :
  Forall (fun r => Rejection.rejection_date r = VNone) (od_values items) ->
  scan_rejections now threshold items alerts = Return alerts.
Proof.
  unfold od_values. induction items as [|[k r] items IH]; simpl; [done|].
  intros Hall. apply Forall_cons in Hall as [Hr Hitems].
  rewrite Hr. simpl. destruct (Rejection.found_in_835 r); by apply IH.
Qed.

Lemma add_rejection_no_date (t : txn) (e : Engine) :
  no_transaction_date t -> no_rejection_date e ->
  no_rejection_date (add_rejection t e).1.
Proof.
  intros Ht He.
  destruct (add_rejection_cases t e) as [->|[[x ->]|[k Hk]]]; [done..|].
  rewrite (add_rejection_key t k e Hk). unfold no_rejection_date. simpl.
  apply od_set_Forall; [|done].
  unfold rejection_entry, dict_get. simpl. by rewrite Ht.
Qed.

Lemma add_277ca_rejections_no_date (l : list txn) (e : Engine) :
  Forall no_transaction_date l -> no_rejection_date e ->
  no_rejection_date (add_277ca_rejections l e).1.
Proof.
  intros Hl. revert e. induction Hl as [|t l Ht Hl IH]; intros e He; simpl;
    [done|].
  pose proof (add_rejection_no_date t e Ht He) as He1.
  destruct (add_rejection t e) as [e1 [[]|x]]; simpl in *; [by apply IH | done].
Qed.

Lemma parse_no_transaction_date (x12_content : string) :
  exists result,
    parse x12_content = Return result /\
    Forall no_transaction_date (acknowledgments result) /\
    Forall no_transaction_date (rejections result).
Proof.
  destruct (parse_result_inv no_transaction_date no_transaction_date
              x12_content) as (acks & Hparse & Hacks).
  - done.
  - intros t t' Ht Hext. unfold no_transaction_date.
    rewrite Hext; [done|]. apply (bool_decide_unpack _). by vm_compute.
  - done.
  - exists (result_of acks). split_and!; [done..|].
    by apply Forall_list_filter.
Qed.

Lemma ingest_277ca_no_date (docs : list string) (e : Engine) :
  no_rejection_date e -> no_rejection_date (ingest_277ca docs e).
Proof.
  revert e. induction docs as [|doc docs IH]; intros e He; simpl; [done|].
  apply IH.
  destruct (parse_no_transaction_date doc) as (result & -> & _ & Hrej).
  by apply add_277ca_rejections_no_date.
Qed.

(** C10, as the code has it. No transaction assembled by the 277CA parser
    has a [transaction_date] key.  Hence, in an engine fed only with the
    rejections of parsed 277CA documents, every cache entry has the
    rejection date [None], and [find_unsubmitted_claims] returns the empty
    list at every time and for every threshold whose threshold date
    [now - timedelta(days=days_threshold)] exists; for every other
    threshold it raises [OverflowError], before it reads the cache. *)
Theorem parsed_rejections_never_alert
    (docs : list string) (lookback : Z) (now : datetime) (days_threshold : Z) :
  (forall x12_content,
      exists result,
        parse x12_content = Return result /\
        Forall (fun t : txn => t !! "transaction_date" = None)
               (acknowledgments result)) /\
  let e := ingest_277ca docs (new_engine lookback) in
  Forall (fun r => Rejection.rejection_date r = VNone)
         (od_values (rejections_cache e)) /\
  find_unsubmitted_claims now days_threshold e
  = (if threshold_in_range now days_threshold then Return []
     else Raise OverflowError).
Proof.
  split.
  - intros c. destruct (parse_no_transaction_date c) as (r & Hr & Hacks & _).
    by exists r.
  - intros e.
    assert (He : no_rejection_date e).
    { apply ingest_277ca_no_date. apply Forall_nil_2. }
    split; [done|].
    destruct (threshold_in_range now days_threshold) eqn:Hrange.
    + destruct (find_in_range now days_threshold e Hrange)
        as (threshold_date & _ & ->).
      by rewrite (scan_no_date _ _ _ [] He).
    + by apply find_out_of_range.
Qed.

End AlertProps.

(** ** The properties on sample records *)

Example normalized_range :
  normalized_date (py := Sample.builtins) (VStr "20050831-20050906")
  = "20050831".
Proof. reflexivity. Qed.

Example normalized_dashed_date :
  normalized_date (py := Sample.builtins) (VStr "2024-01-01") = "2024-01-01".
Proof. reflexivity. Qed.

(** The bounds of [datetime] are the first instant of 0001-01-01 and the
    last microsecond of 9999-12-31. *)
Example datetime_bounds_are_the_calendar_ones :
  datetime_min = Sample.days_from_civil 1 1 1 * us_per_day /\
  datetime_max = (Sample.days_from_civil 9999 12 31 + 1) * us_per_day - 1 /\
  dt_us midnight_20240101 = Sample.days_from_civil 2024 1 1 * us_per_day.
Proof. by vm_compute. Qed.

Example nan_amount_raises :
  _create_match_key (py := Sample.builtins)
    (record [("patient_id", VStr "123"); ("billed_amount", VFloat S754_nan)])
  = Raise ValueError.
Proof. vm_compute. reflexivity. Qed.

Lemma match_key_needs_two_components_witness :
  (_create_match_key (py := Sample.builtins) rec_no_patient = Return None /\
   add_rejection (py := Sample.builtins) rec_no_patient engine_one_entry
   = (engine_one_entry, Return tt) /\
   add_payment (py := Sample.builtins) rec_no_patient engine_one_entry
   = (engine_one_entry, Return tt)) /\
  (_create_match_key (py := Sample.builtins) rec_range
   = Return (Some (join "|" (key_components (py := Sample.builtins)
                               rec_range 150))) /\
   key_components (py := Sample.builtins) rec_range 150
   = ["12345"; "20050831"; "150"]).
Proof.
  split.
  - destruct (proj1 (match_key_needs_two_components (py := Sample.builtins)
                       rec_no_patient 0 ValueError [] [] engine_one_entry))
      as (Hkey & Hrej & Hpay & _).
    + left. vm_compute. reflexivity.
    + split_and!; assumption.
  - split; [|vm_compute; reflexivity].
    apply (proj1 (proj2 (match_key_needs_two_components
                           (py := Sample.builtins)
                           rec_range 150 ValueError [] [] engine_one_entry))).
    + vm_compute. reflexivity.
    + left. vm_compute. reflexivity.
    + right. exists f150_99. split; vm_compute; reflexivity.
Defined.

(** C1 fails as stated: a record with a patient id and an amount that is
    not a number has two components, so that the claim gives it a key; the
    code computes none, for any truncated amount, and the call that adds
    the record raises. *)
Lemma nan_amount_gives_no_key :
  present (dict_get rec_nan_amount "patient_id") /\
  present (amount_of rec_nan_amount) /\
  _create_match_key (py := Sample.builtins) rec_nan_amount
  = Raise ValueError /\
  (forall n,
      _create_match_key (py := Sample.builtins) rec_nan_amount
      <> Return (Some (join "|" (key_components (py := Sample.builtins)
                                   rec_nan_amount n)))) /\
  add_277ca_rejections (py := Sample.builtins) [rec_nan_amount]
    engine_one_entry
  = (engine_one_entry, Raise ValueError).
Proof.
  assert (Hkey : _create_match_key (py := Sample.builtins) rec_nan_amount
                 = Raise ValueError) by (vm_compute; reflexivity).
  split_and!; [vm_compute; reflexivity..|exact Hkey| |vm_compute; reflexivity].
  intros n. rewrite Hkey. discriminate.
Qed.

Lemma date_component_is_first_part_of_length_8_witness :
  _create_match_key (py := Sample.builtins) rec_range
  = Return (Some "12345|20050831|150") /\
  truncation_of f150_99 150.
Proof.
  destruct (date_component_is_first_part_of_length_8 (py := Sample.builtins)
              rec_range f150_99 150) as [Hkey Htrunc].
  - vm_compute. reflexivity.
  - vm_compute. reflexivity.
  - right. split; vm_compute; reflexivity.
  - split.
    + rewrite Hkey. vm_compute. reflexivity.
    + apply Htrunc. vm_compute. reflexivity.
Defined.

(** C2 fails as stated: "20050831-2005" is not a range of two 8-digit
    segments, so the claim leaves it unchanged, and the code takes the part
    before the dash. *)
Lemma short_second_segment_is_normalized :
  claimed_date_component "20050831-2005" = "20050831-2005" /\
  _create_match_key (py := Sample.builtins) rec_short_range
  = Return (Some (join "|" ["12345"; "20050831"])) /\
  _create_match_key (py := Sample.builtins) rec_short_range
  <> Return (Some (join "|" ["12345";
                             claimed_date_component "20050831-2005"])).
Proof.
  split_and!.
  - vm_compute. reflexivity.
  - vm_compute. reflexivity.
  - vm_compute. discriminate.
Qed.

Lemma alert_severity_at_45_and_46_days_witness :
  (exists a,
      find_unsubmitted_claims (py := Sample.builtins)
        midnight_20240215 30 engine_one_entry
      = Return [a] /\
      Alert.severity a = "MEDIUM" /\ Alert.days_since_rejection a = 45) /\
  (exists a,
      find_unsubmitted_claims (py := Sample.builtins)
        midnight_20240216 30 engine_one_entry
      = Return [a] /\
      Alert.severity a = "HIGH" /\ Alert.days_since_rejection a = 46).
Proof.
  split.
  - apply (proj1 (alert_severity_at_45_and_46_days (py := Sample.builtins)
                    midnight_20240215
                    "123|20231215|150" "20240101" entry_20240101
                    midnight_20240101 engine_one_entry
                    eq_refl eq_refl eq_refl ltac:(discriminate) eq_refl)).
    vm_compute. reflexivity.
  - apply (proj2 (alert_severity_at_45_and_46_days (py := Sample.builtins)
                    midnight_20240216
                    "123|20231215|150" "20240101" entry_20240101
                    midnight_20240101 engine_one_entry
                    eq_refl eq_refl eq_refl ltac:(discriminate) eq_refl)).
    vm_compute. reflexivity.
Defined.

Lemma revenue_at_risk_sums_unmatched_entries_witness :
  let e := run_ops (py := Sample.builtins)
             [AddRejections [rec_rejection]] (new_engine 60) in
  let e' := run_op (py := Sample.builtins)
              (AddRejections [rec_rejection_again]) e in
  length (rejections_cache e) = 1%nat /\
  od_get "123|20240101|150" (rejections_cache e')
  = Some (rejection_entry rec_rejection_again) /\
  length (rejections_cache e') = 1%nat.
Proof.
  intros e e'.
  destruct (proj2 (proj2 (revenue_at_risk_sums_unmatched_entries
                            (py := Sample.builtins)
                            [AddRejections [rec_rejection]] 60))
              rec_rejection_again "123|20240101|150")
    as (Hget & Hlen & _).
  - vm_compute. reflexivity.
  - split_and!.
    + vm_compute. reflexivity.
    + exact Hget.
    + etransitivity; [exact Hlen|]. vm_compute. reflexivity.
Defined.



(** C10 fails as stated: on 2024-01-01 a threshold of 800000 days gives a
    threshold date before the year 1, and a threshold of 1000000000 days
    is more than a [timedelta] can hold.  With such a threshold
    [find_unsubmitted_claims] raises on an engine fed with a parsed
    document, and on an empty one, and returns no list. *)
Lemma out_of_range_threshold_raises :
  let e := ingest_277ca (py := Sample.builtins) [doc_one_rejection]
             (new_engine 60) in
  length (rejections_cache e) = 1%nat /\
  find_unsubmitted_claims (py := Sample.builtins) midnight_20240101 800000 e
  = Raise OverflowError /\
  find_unsubmitted_claims (py := Sample.builtins) midnight_20240101 800000 e
  <> Return [] /\
  find_unsubmitted_claims (py := Sample.builtins) midnight_20240101
    1000000000 (new_engine 60)
  = Raise OverflowError /\
  find_unsubmitted_claims (py := Sample.builtins) midnight_20240101 30 e
  = Return [].
Proof.
  intros e.
  split_and!; try (vm_compute; reflexivity). vm_compute. discriminate.
Qed.

(** * Further properties *)

(** ** Strings *)

Lemma append_assoc (a b c : string) : (a +:+ b) +:+ c = a +:+ (b +:+ c).
Proof.
  induction a as [|x a IH]; [done|].
  change (String x ((a +:+ b) +:+ c) = String x (a +:+ b +:+ c)).
  by rewrite IH.
Qed.

Lemma contains_app (c : ascii) (a b : string) :
  contains c (a +:+ b) = contains c a || contains c b.
Proof.
  induction a as [|c' a IH]; simpl; [done|].
  rewrite IH. by rewrite orb_assoc.
Qed.

Lemma remove_char_app (c : ascii) (a b : string) :
  remove_char c (a +:+ b) = remove_char c a +:+ remove_char c b.
Proof.
  induction a as [|c' a IH]; simpl; [done|].
  destruct (Ascii.eqb c' c); simpl; by rewrite IH.
Qed.

Lemma remove_char_id (c : ascii) (s : string) :
  contains c s = false -> remove_char c s = s.
Proof.
  induction s as [|c' s IH]; simpl; [done|].
  destruct (Ascii.eqb c' c); simpl; [done|].
  intros Hs. by rewrite IH.
Qed.

Lemma contains_remove_char (c : ascii) (s : string) :
  contains c (remove_char c s) = false.
Proof.
  induction s as [|c' s IH]; simpl; [done|].
  destruct (Ascii.eqb c' c) eqn:Hc; simpl; [done|]. by rewrite Hc.
Qed.

Lemma split_app_sep (c : ascii) (a b : string) :
  contains c a = false -> split c (a +:+ String c b) = a :: split c b.
Proof.
  induction a as [|c' a IH]; simpl.
  - by rewrite Ascii.eqb_refl.
  - destruct (Ascii.eqb c' c); simpl; [done|].
    intros Ha. by rewrite IH.
Qed.

Lemma split_pieces (c : ascii) (s : string) :
  Forall (fun x => contains c x = false) (split c s).
Proof.
  induction s as [|c' s IH]; simpl.
  - by repeat constructor.
  - destruct (Ascii.eqb c' c) eqn:Hc; [by constructor|].
    destruct (split c s) as [|h t]; [by repeat constructor; simpl; rewrite Hc|].
    apply Forall_cons in IH as [Hh Ht].
    constructor; [|done]. simpl. by rewrite Hc.
Qed.

Lemma split_pieces_other (c c' : ascii) (s : string) :
  contains c' s = false ->
  Forall (fun x => contains c' x = false) (split c s).
Proof.
  induction s as [|c0 s IH]; simpl.
  - by repeat constructor.
  - intros Hs. apply orb_false_iff in Hs as [Hc0 Hs].
    specialize (IH Hs).
    destruct (Ascii.eqb c0 c); [by constructor|].
    destruct (split c s) as [|h t];
      [by repeat constructor; simpl; rewrite Hc0|].
    apply Forall_cons in IH as [Hh Ht].
    constructor; [|done]. simpl. by rewrite Hc0, Hh.
Qed.

Lemma join_split (c : ascii) (s : string) :
  join (String c "") (split c s) = s.
Proof.
  induction s as [|c' s IH]; simpl; [done|].
  destruct (Ascii.eqb c' c) eqn:Hc.
  - apply Ascii.eqb_eq in Hc. subst c'.
    destruct (split_cons c s) as (h & t & Hs). rewrite Hs in *.
    change (join (String c "") ("" :: h :: t))
      with (String c (join (String c "") (h :: t))).
    by rewrite IH.
  - destruct (split_cons c s) as (h & t & Hs). rewrite Hs in *.
    destruct t as [|h' t]; simpl in *; by rewrite <- IH.
Qed.

Lemma lstrip_contains (c : ascii) (s : string) :
  contains c s = false -> contains c (lstrip s) = false.
Proof.
  induction s as [|c' s IH]; simpl; [done|].
  intros Hs. destruct (is_space c'); [|done].
  apply orb_false_iff in Hs as [_ Hs]. by apply IH.
Qed.

Lemma rstrip_contains (c : ascii) (s : string) :
  contains c s = false -> contains c (rstrip s) = false.
Proof.
  induction s as [|c' s IH]; simpl; [done|].
  intros Hs. apply orb_false_iff in Hs as [Hc Hs]. specialize (IH Hs).
  destruct (rstrip s) as [|c0 r].
  - destruct (is_space c'); simpl; [done | by rewrite Hc].
  - simpl in *. by rewrite Hc, IH.
Qed.

Lemma strip_contains (c : ascii) (s : string) :
  contains c s = false -> contains c (strip s) = false.
Proof. intros Hs. by apply rstrip_contains, lstrip_contains. Qed.

Lemma lstrip_head (s : string) :
  lstrip s = "" \/ exists c r, lstrip s = String c r /\ is_space c = false.
Proof.
  induction s as [|c s IH]; simpl; [by left|].
  destruct (is_space c) eqn:Hc; [done|]. right. by exists c, s.
Qed.

Lemma rstrip_idem (s : string) : rstrip (rstrip s) = rstrip s.
Proof.
  induction s as [|c s IH]; simpl; [done|].
  destruct (rstrip s) as [|c0 r] eqn:Hr.
  - destruct (is_space c) eqn:Hc; simpl; [done|]. by rewrite Hc.
  - change (rstrip (String c (String c0 r)))
      with (match rstrip (String c0 r) with
            | EmptyString =>
                if is_space c then EmptyString else String c EmptyString
            | r' => String c r'
            end).
    by rewrite IH.
Qed.

Lemma rstrip_head (c : ascii) (r : string) :
  is_space c = false -> exists r', rstrip (String c r) = String c r'.
Proof.
  intros Hc. simpl. destruct (rstrip r); rewrite ?Hc; by eauto.
Qed.

Lemma strip_idem (s : string) : strip (strip s) = strip s.
Proof.
  unfold strip. destruct (lstrip_head s) as [->|(c & r & -> & Hc)]; [done|].
  destruct (rstrip_head c r Hc) as [r' Hr]. rewrite Hr.
  simpl lstrip. rewrite Hc. rewrite <- Hr. apply rstrip_idem.
Qed.

Lemma contains_join (c : ascii) (sep : string) (l : list string) :
  contains c sep = false ->
  Forall (fun x => contains c x = false) l ->
  contains c (join sep l) = false.
Proof.
  intros Hsep. induction 1 as [|x l Hx Hl IH]; [done|].
  destruct l as [|y l]; [done|].
  change (join sep (x :: y :: l)) with (x +:+ sep +:+ join sep (y :: l)).
  by rewrite !contains_app, Hx, Hsep, IH.
Qed.

Lemma split_join (c : ascii) (x : string) (l : list string) :
  Forall (fun x => contains c x = false) (x :: l) ->
  split c (join (String c "") (x :: l)) = x :: l.
Proof.
  revert x. induction l as [|y l IH]; intros x Hall.
  - apply Forall_cons in Hall as [Hx _]. by apply contains_split.
  - apply Forall_cons in Hall as [Hx Hall].
    change (join (String c "") (x :: y :: l))
      with (x +:+ String c (join (String c "") (y :: l))).
    rewrite split_app_sep by done. by rewrite IH.
Qed.

Lemma Forall_forallb_true {A} (f : A -> bool) (l : list A) :
  Forall (fun x => f x = true) l <-> forallb f l = true.
Proof.
  induction l as [|x l IH]; simpl; [by split; [|constructor]|].
  rewrite Forall_cons, andb_true_iff. by rewrite IH.
Qed.

(** ** The tokenizer *)

Lemma tokenize_fold_Forall (P : Segment -> Prop) (lines : list string)
    (acc : list Segment) :
  Forall P acc ->
  (forall piece e0 rest,
      piece ∈ lines ->
      strip piece <> "" ->
      split "*" (strip piece) = e0 :: rest ->
      P {| seg_id := e0; seg_elements := rest |}) ->
  Forall P
    (fold_left
       (fun segments line =>
          let line := strip line in
          if String.eqb line "" then segments
          else match split "*" line with
               | [] => segments
               | e0 :: rest =>
                   segments ++ [{| seg_id := e0; seg_elements := rest |}]
               end)
       lines acc).
Proof.
  revert acc.
  induction lines as [|line lines IH]; intros acc Hacc Hstep; simpl; [done|].
  apply IH.
  - destruct (String.eqb (strip line) "") eqn:Hline; [done|].
    apply String.eqb_neq in Hline.
    destruct (split "*" (strip line)) as [|e0 rest] eqn:Hsplit; [done|].
    apply Forall_app. split; [done|]. apply Forall_singleton.
    apply (Hstep line); [apply list_elem_of_here | done..].
  - intros piece e0 rest Hin. apply Hstep. by apply list_elem_of_further.
Qed.

(** Every piece that is kept gives a segment with [P], and so [P] holds of
    all segments. *)
Lemma parse_segments_Forall (P : Segment -> Prop) (x12_content : string) :
  (forall piece e0 rest,
      piece ∈ split "~" (remove_char "010" x12_content) ->
      strip piece <> "" ->
      split "*" (strip piece) = e0 :: rest ->
      P {| seg_id := e0; seg_elements := rest |}) ->
  Forall P (_parse_segments x12_content).
Proof.
  intros Hstep. unfold _parse_segments.
  apply tokenize_fold_Forall; [constructor | done].
Qed.

Lemma parsed_segment_clean (x12_content piece e0 : string) (rest : list string) :
  piece ∈ split "~" (remove_char "010" x12_content) ->
  strip piece <> "" ->
  split "*" (strip piece) = e0 :: rest ->
  clean_segment {| seg_id := e0; seg_elements := rest |} = true.
Proof.
  intros Hin Hne Hsplit.
  assert (Htilde : contains "~" (strip piece) = false).
  { apply strip_contains.
    by apply (proj1 (Forall_forall _ _)
                (split_pieces "~" (remove_char "010" x12_content))). }
  assert (Hnl : contains "010" (strip piece) = false).
  { apply strip_contains.
    apply (proj1 (Forall_forall _ _)
             (split_pieces_other "~" "010" _
                (contains_remove_char "010" x12_content))); done. }
  unfold clean_segment, segment_line. simpl seg_id. simpl seg_elements.
  rewrite <- Hsplit.
  rewrite !join_split, strip_idem, String.eqb_refl.
  apply String.eqb_neq in Hne. rewrite Hne. rewrite !andb_true_r.
  apply Forall_forallb_true.
  pose proof (split_pieces "*" (strip piece)) as Hstar.
  pose proof (split_pieces_other "*" "~" _ Htilde) as Ht.
  pose proof (split_pieces_other "*" "010" _ Hnl) as Hn.
  rewrite Forall_forall in *. intros tok Htok. unfold token_ok.
  by rewrite (Hstar tok Htok), (Ht tok Htok), (Hn tok Htok).
Qed.

Lemma render_pieces (segments : list Segment) :
  Forall (fun segment => clean_segment segment = true) segments ->
  split "~" (remove_char "010" (render segments))
  = map segment_line segments ++ [""].
Proof.
  induction 1 as [|segment rest Hseg Hrest IH]; [done|].
  unfold clean_segment in Hseg.
  apply andb_true_iff in Hseg as [Hseg _].
  apply andb_true_iff in Hseg as [Htok _].
  apply Forall_forallb_true in Htok.
  assert (Hline : contains "~" (segment_line segment) = false
                  /\ contains "010" (segment_line segment) = false).
  { unfold segment_line. split; apply contains_join; try done;
      (eapply Forall_impl; [exact Htok|]); intros tok Hok; unfold token_ok in Hok;
      repeat (apply andb_true_iff in Hok as [Hok ?]);
      by apply negb_true_iff. }
  destruct Hline as [Htilde Hnl].
  change (render (segment :: rest))
    with (segment_line segment +:+ String "~" (String "010" (render rest))).
  rewrite remove_char_app, (remove_char_id _ _ Hnl).
  change (remove_char "010" (String "~" (String "010" (render rest))))
    with (String "~" (remove_char "010" (render rest))).
  rewrite split_app_sep by done. by rewrite IH.
Qed.

Lemma round_trip_clean (segments : list Segment) :
  Forall (fun segment => clean_segment segment = true) segments ->
  _parse_segments (render segments) = segments.
Proof.
  intros Hclean. unfold _parse_segments. rewrite render_pieces by done.
  rewrite fold_left_app. cbv zeta. simpl.
  assert (Hfold : forall acc,
    fold_left
      (fun segments line =>
         if String.eqb (strip line) "" then segments
         else match split "*" (strip line) with
              | [] => segments
              | e0 :: rest =>
                  segments ++ [{| seg_id := e0; seg_elements := rest |}]
              end)
      (map segment_line segments) acc = acc ++ segments).
  { induction Hclean as [|segment rest Hseg Hrest IH]; intros acc; simpl.
    - by rewrite app_nil_r.
    - unfold clean_segment in Hseg.
      apply andb_true_iff in Hseg as [Hseg Hne].
      apply andb_true_iff in Hseg as [Htok Hstrip].
      apply String.eqb_eq in Hstrip. rewrite Hstrip.
      apply negb_true_iff in Hne. rewrite Hne.
      apply Forall_forallb_true in Htok.
      assert (Hsplit : split "*" (segment_line segment)
                       = seg_id segment :: seg_elements segment).
      { apply (split_join "*").
        eapply Forall_impl; [exact Htok|]. intros tok Hok.
        unfold token_ok in Hok.
        repeat (apply andb_true_iff in Hok as [Hok ?]).
        by apply negb_true_iff. }
      rewrite Hsplit, IH, <- app_assoc. by destruct segment. }
  by rewrite Hfold.
Qed.

(** X1. Every segment the tokenizer produces is clean: none of its tokens
    holds a segment terminator, an element separator or a line break, and
    its text is not empty and has no white space at either end.  Hence
    writing the segments out, one per line, and tokenizing again gives the
    same segments. *)
Theorem parsed_segments_are_clean (x12_content : string) :
  Forall (fun segment => clean_segment segment = true)
         (_parse_segments x12_content) /\
  _parse_segments (render (_parse_segments x12_content))
  = _parse_segments x12_content.
Proof.
  assert (Hclean : Forall (fun segment => clean_segment segment = true)
                          (_parse_segments x12_content)).
  { apply parse_segments_Forall. intros piece e0 rest.
    apply parsed_segment_clean. }
  split; [done | by apply round_trip_clean].
Qed.

(** X2. Tokenizing the text of a list of clean segments, written one per
    line with the terminator "~", gives back the list. *)
Theorem tokenizer_round_trip (segments : list Segment) :
  forallb clean_segment segments = true ->
  _parse_segments (render segments) = segments.
Proof.
  intros Hclean. apply round_trip_clean. by apply Forall_forallb_true.
Qed.

Lemma tokenizer_round_trip_witness :
  let segments :=
    [{| seg_id := "HL"; seg_elements := ["2"; "1"; "22"; "0"] |};
     {| seg_id := "TRN"; seg_elements := ["2"; "TRACE 1"] |};
     {| seg_id := "SE"; seg_elements := [] |}] in
  _parse_segments (render segments) = segments.
Proof.
  intros segments. apply (tokenizer_round_trip segments).
  vm_compute. reflexivity.
Defined.

(** ** The assembling loop, segment by segment *)

Section AssembleSteps.
Context {py : Builtins}.

Lemma dict_truthy_init : dict_truthy _init_transaction = true.
Proof. by vm_compute. Qed.

(** A claim-level boundary commits the open transaction and opens a blank
    one. *)
Lemma assemble_step_boundary (st : asm_state) (segment : Segment) :
  is_boundary segment = true ->
  assemble_step st segment
  = Return (Some _init_transaction, commit st.1 st.2).
Proof.
  destruct st as [current acks]. destruct segment as [sid els].
  unfold is_boundary, assemble_step. simpl.
  intros Hb. apply andb_true_iff in Hb as [Hb Hlevel].
  rewrite Hb. simpl. apply andb_true_iff in Hb as [Hid _].
  apply String.eqb_eq in Hid. subst sid.
  unfold py_index. destruct (els !! 2%nat) as [lc|]; [|done].
  simpl. rewrite Hlevel. simpl. by rewrite dict_truthy_init.
Qed.

(** Any other segment goes to the extractors of the open transaction, if
    there is one. *)
Lemma assemble_step_other (st : asm_state) (segment : Segment) :
  is_boundary segment = false ->
  assemble_step st segment
  = match st.1 with
    | Some t =>
        if dict_truthy t
        then t' ← dispatch segment t; Return (Some t', st.2)
        else Return st
    | None => Return st
    end.
Proof.
  destruct st as [current acks]. destruct segment as [sid els].
  unfold is_boundary, assemble_step.
  simpl seg_id. simpl seg_elements. simpl fst. simpl snd.
  intros Hb.
  destruct (String.eqb sid "HL" && (3 <=? length els)%nat) eqn:Hhl.
  - rewrite andb_true_l in Hb.
    apply andb_true_iff in Hhl as [_ Hlen]. apply Nat.leb_le in Hlen.
    destruct (py_index_lt els 2) as (lc & Hlc & ->); [lia|].
    rewrite Hlc in Hb. cbn [mbind Exc_bind]. by rewrite Hb.
  - done.
Qed.

Lemma commit_length (current : option txn) (acks : list txn) :
  (length (commit current acks)
   <= length acks + match current with Some _ => 1 | None => 0 end)%nat.
Proof.
  unfold commit. destruct current as [t|]; [|lia].
  destruct (dict_truthy t && truthy (dict_get t "trace_number"));
    rewrite ?length_app; simpl; lia.
Qed.

Lemma assemble_cons (st : asm_state) (segment : Segment)
    (rest : list Segment) :
  assemble st (segment :: rest)
  = st' ← assemble_step st segment; assemble st' rest.
Proof. done. Qed.

(** Without boundary nothing is opened and nothing is committed. *)
Lemma assemble_no_boundary (segments : list Segment) (acks : list txn) :
  forallb (fun segment => negb (is_boundary segment)) segments = true ->
  assemble (None, acks) segments = Return (None, acks).
Proof.
  induction segments as [|segment rest IH]; [done|].
  intros Hall. apply andb_true_iff in Hall as [Hseg Hrest].
  apply negb_true_iff in Hseg.
  rewrite assemble_cons, (assemble_step_other _ _ Hseg).
  by apply IH.
Qed.

(** Each boundary accounts for at most one record. *)
Lemma assemble_count (segments : list Segment) (st st' : asm_state) :
  assemble st segments = Return st' ->
  (length st'.2 + match st'.1 with Some _ => 1 | None => 0 end
   <= length st.2 + match st.1 with Some _ => 1 | None => 0 end
      + length (List.filter is_boundary segments))%nat.
Proof.
  revert st. induction segments as [|segment rest IH]; intros st.
  - intros [= <-]. simpl. lia.
  - rewrite assemble_cons. simpl List.filter.
    destruct (is_boundary segment) eqn:Hb.
    + rewrite (assemble_step_boundary _ _ Hb). intros Hrest.
      apply IH in Hrest. simpl in Hrest. simpl length.
      pose proof (commit_length st.1 st.2). lia.
    + rewrite (assemble_step_other _ _ Hb).
      destruct st as [[t|] acks]; simpl fst; simpl snd; cbv iota.
      * destruct (dict_truthy t).
        -- destruct (dispatch segment t) as [t'|x]; [|done].
           intros Hrest. apply IH in Hrest. simpl in Hrest. lia.
        -- intros Hrest. apply IH in Hrest. simpl in Hrest. lia.
      * intros Hrest. apply IH in Hrest. simpl in Hrest. lia.
Qed.

(** The result of [parse] from the final state of the loop. *)
Lemma parse_from_assemble (x12_content : string) (st : asm_state) :
  assemble (None, []) (_parse_segments x12_content) = Return st ->
  parse x12_content = Return (result_of (commit st.1 st.2)).
Proof.
  intros Hasm. unfold parse, parse_body. rewrite Hasm.
  destruct st as [current acks]. simpl.
  rewrite categorize_filter. simpl. by rewrite make_summary_percent.
Qed.

Lemma assemble_returns (x12_content : string) :
  exists st, assemble (None, []) (_parse_segments x12_content) = Return st.
Proof.
  destruct (assemble_inv (fun _ => True) (fun _ => True)
              ltac:(done) ltac:(done) ltac:(done)
              (_parse_segments x12_content) (None, [])
              (asm_inv_start _ _)) as (st & Hst & _).
  by exists st.
Qed.

(** X3. A document without claim-level boundary (no HL segment with at
    least three elements and level code "22") yields no record at all:
    every segment is ignored, whatever it holds. *)
Theorem no_boundary_no_record (x12_content : string) :
  forallb (fun segment => negb (is_boundary segment))
          (_parse_segments x12_content) = true ->
  exists result,
    parse x12_content = Return result /\
    acknowledgments result = [] /\
    rejections result = [] /\
    acceptances result = [] /\
    total_claims (summary result) = 0%nat.
Proof.
  intros Hall.
  pose proof (assemble_no_boundary _ [] Hall) as Hasm.
  rewrite (parse_from_assemble _ _ Hasm). by eexists.
Qed.

(** X4. The number of records of a document is at most the number of its
    claim-level boundaries: each boundary opens one transaction, which is
    committed at most once. *)
Theorem records_bounded_by_boundaries (x12_content : string) :
  exists result,
    parse x12_content = Return result /\
    (length (acknowledgments result)
     <= length (List.filter is_boundary (_parse_segments x12_content)))%nat.
Proof.
  destruct (assemble_returns x12_content) as [st Hasm].
  rewrite (parse_from_assemble _ _ Hasm).
  eexists. split; [done|]. simpl.
  apply assemble_count in Hasm. simpl in Hasm.
  pose proof (commit_length st.1 st.2). lia.
Qed.

Lemma filter_partition {A} (f g : A -> bool) (l : list A) :
  (forall x, f x = true -> g x = false) ->
  (length (List.filter f l) + length (List.filter g l) <= length l)%nat /\
  ((length (List.filter f l) + length (List.filter g l))%nat = length l
   <-> Forall (fun x => f x || g x = true) l).
Proof.
  intros Hfg. induction l as [|x l [IHle IHeq]]; simpl.
  - split; [lia|]. split; [constructor | done].
  - rewrite Forall_cons.
    destruct (f x) eqn:Hf; [rewrite (Hfg x Hf)|destruct (g x)]; simpl;
      (split; [lia|]); rewrite <- IHeq; split; try lia;
      try (intros [? ?]; lia); intros ?; split; (done || lia).
Qed.

(** X5. The rejections and the acceptances of a document never overlap:
    their counts add up to at most the total, and to exactly the total if
    and only if every record has the status category "A7" or "A1". *)
Theorem rejected_and_accepted_partition (x12_content : string) :
  exists result,
    parse x12_content = Return result /\
    let s := summary result in
    (rejected_count s + accepted_count s <= total_claims s)%nat /\
    ((rejected_count s + accepted_count s)%nat = total_claims s
     <-> Forall (fun t => is_rejected t || is_accepted t = true)
                (acknowledgments result)).
Proof.
  destruct (assemble_returns x12_content) as [st Hasm].
  rewrite (parse_from_assemble _ _ Hasm).
  eexists. split; [done|]. simpl.
  apply filter_partition, rejected_not_accepted.
Qed.

End AssembleSteps.

(** ** The shape of the assembled records *)

Lemma shape_insert (t : txn) (k : string) (v : value) :
  k ∈ parser_keys -> field_shape k v ->
  record_shape t -> record_shape (<[k := v]> t).
Proof.
  intros Hk Hv [Hdom Hval]. split.
  - intros k'. rewrite lookup_insert_is_Some'. split.
    + intros [<-|Hsome]; [done | by apply Hdom].
    + intros Hk'. right. by apply Hdom.
  - intros k' v'. rewrite lookup_insert_Some.
    intros [[<- <-]|[_ Hget]]; [done | by apply (Hval k')].
Qed.

Lemma shape_init : record_shape _init_transaction.
Proof.
  unfold _init_transaction. split.
  - intros k. rewrite <- not_eq_None_Some, <- not_elem_of_list_to_map.
    simpl. unfold parser_keys. split; [apply dec_stable | by intros ? ?].
  - intros k v Hget. apply elem_of_list_to_map_2 in Hget.
    repeat (apply elem_of_cons in Hget as [[= -> ->]|Hget]; [done|]).
    by apply elem_of_nil in Hget.
Qed.

Section ShapeProps.
Context {py : Builtins}.

Ltac key_in := unfold parser_keys; set_solver.

Ltac solve_shape :=
  intros ? [= <-] ?;
  repeat (apply shape_insert; [key_in | done |]); assumption.

Lemma _process_nm1_shape segment t : keeps_shape (_process_nm1 segment t) t.
Proof.
  destruct segment as [sid els]. unfold _process_nm1. simpl.
  destruct els as [|e0 [|e1 els]]; simpl; try solve_shape.
  destruct (String.eqb e0 "IL"); [|destruct (String.eqb e0 "1P")];
    try solve_shape;
    destruct els as [|e2 [|e3 [|e4 [|e5 [|e6 [|e7 [|e8 els]]]]]]]; simpl;
    solve_shape.
Qed.

Lemma _process_trn_shape segment t : keeps_shape (_process_trn segment t) t.
Proof.
  destruct segment as [sid els]. unfold _process_trn. simpl.
  destruct els as [|e0 [|e1 els]]; simpl; solve_shape.
Qed.

Lemma _process_stc_shape segment t : keeps_shape (_process_stc segment t) t.
Proof.
  destruct segment as [sid els]. unfold _process_stc. simpl.
  destruct els as [|e0 els]; simpl; try solve_shape.
  destruct (contains ":" e0);
    [destruct (split_cons ":" e0) as (p0 & ps & ->); destruct ps as [|p1 ps]|];
    simpl;
    (destruct els as [|e1 [|e2 [|e3 els]]]; simpl; try solve_shape;
     destruct (negb (String.eqb e3 "")); try solve_shape;
     destruct (float_of_string e3); solve_shape).
Qed.

Lemma _process_ref_shape segment t : keeps_shape (_process_ref segment t) t.
Proof.
  destruct segment as [sid els]. unfold _process_ref. simpl.
  destruct els as [|e0 [|e1 els]]; simpl; try solve_shape.
  destruct (String.eqb e0 "D9"); [solve_shape|].
  destruct (String.eqb e0 "EA"); [|solve_shape].
  destruct (negb (truthy (dict_get t "patient_id"))); solve_shape.
Qed.

Lemma _process_dtp_shape segment t : keeps_shape (_process_dtp segment t) t.
Proof.
  destruct segment as [sid els]. unfold _process_dtp. simpl.
  destruct els as [|e0 [|e1 [|e2 els]]]; simpl; try solve_shape.
  destruct (String.eqb e0 "472"); solve_shape.
Qed.

Lemma _process_msg_shape segment t : keeps_shape (_process_msg segment t) t.
Proof.
  destruct segment as [sid els]. unfold _process_msg. simpl.
  destruct els as [|e0 els]; simpl; solve_shape.
Qed.

Lemma dispatch_shape segment t : keeps_shape (dispatch segment t) t.
Proof.
  unfold dispatch.
  repeat (match goal with
          | |- context [if ?b then _ else _] => destruct b
          end);
    auto using _process_nm1_shape, _process_trn_shape, _process_stc_shape,
      _process_ref_shape, _process_dtp_shape, _process_msg_shape.
  by intros ? [= <-].
Qed.

Lemma commit_shape (current : option txn) (acks : list txn) :
  (forall t, current = Some t -> record_shape t) ->
  Forall record_shape acks -> Forall record_shape (commit current acks).
Proof.
  intros Hcur Hacks. unfold commit. destruct current as [t|]; [|done].
  destruct (dict_truthy t && truthy (dict_get t "trace_number")); [|done].
  apply Forall_app. split; [done|]. apply Forall_singleton. by apply Hcur.
Qed.

Lemma assemble_shape (segments : list Segment) (st st' : asm_state) :
  assemble st segments = Return st' ->
  (forall t, st.1 = Some t -> record_shape t) ->
  Forall record_shape st.2 ->
  (forall t, st'.1 = Some t -> record_shape t) /\ Forall record_shape st'.2.
Proof.
  revert st. induction segments as [|segment rest IH]; intros st.
  - by intros [= <-].
  - rewrite assemble_cons. intros Hasm Hcur Hacks.
    destruct (is_boundary segment) eqn:Hb.
    + rewrite (assemble_step_boundary _ _ Hb) in Hasm.
      apply (IH _ Hasm); simpl.
      * intros ? [= <-]. apply shape_init.
      * by apply commit_shape.
    + rewrite (assemble_step_other _ _ Hb) in Hasm.
      destruct st as [[t|] acks]; simpl fst in *; simpl snd in *;
        cbv iota in Hasm.
      * destruct (dict_truthy t); [|by apply (IH _ Hasm)].
        destruct (dispatch segment t) as [t'|x] eqn:Hd; [|done].
        apply (IH _ Hasm); simpl; [|done].
        intros ? [= <-]. apply (dispatch_shape segment t); [done|].
        by apply Hcur.
      * by apply (IH _ Hasm).
Qed.

Lemma parse_shape (x12_content : string) :
  exists acks,
    parse x12_content = Return (result_of acks) /\
    Forall record_shape acks /\ Forall has_trace acks.
Proof.
  destruct (assemble_returns x12_content) as [st Hasm].
  exists (commit st.1 st.2). split; [by apply parse_from_assemble|].
  destruct (assemble_shape _ _ _ Hasm) as [Hcur Hacks]; [done|constructor|].
  split; [by apply commit_shape|].
  destruct (parse_result_inv has_trace (fun _ => True) x12_content)
    as (acks & Hparse & Htrace); [done..|].
  rewrite (parse_from_assemble _ _ Hasm) in Hparse.
  by injection Hparse as ->.
Qed.

(** X6. Every record of a parsed document has exactly the eleven fields of
    a blank transaction, so that reading any of them never fails; the
    billed amount is [None] or a float and every other field is [None] or a
    string. *)
Theorem records_have_the_eleven_fields (x12_content : string) :
  exists result,
    parse x12_content = Return result /\
    Forall (fun t : txn =>
              (forall k, is_Some (t !! k) <-> k ∈ parser_keys) /\
              (forall k v, t !! k = Some v ->
                           match v with
                           | VNone => True
                           | VStr _ => k <> "billed_amount"
                           | VFloat _ => k = "billed_amount"
                           | VInt _ => False
                           end))
           (acknowledgments result).
Proof.
  destruct (parse_shape x12_content) as (acks & Hparse & Hshape & _).
  by exists (result_of acks).
Qed.

End ShapeProps.

(** ** From the parser to the engine *)

Section ParserToEngine.
Context {py : Builtins}.

Lemma shape_lookup (t : txn) (k : string) :
  record_shape t -> k ∈ parser_keys -> k <> "billed_amount" ->
  dict_get t k = VNone \/ exists s, dict_get t k = VStr s.
Proof.
  intros [Hdom Hval] Hk Hne. unfold dict_get.
  destruct (t !! k) as [v|] eqn:Hget; [|by left].
  specialize (Hval k v Hget). destruct v; simpl in *; by eauto.
Qed.

Lemma shape_billed (t : txn) :
  record_shape t ->
  dict_get t "billed_amount" = VNone \/
  exists f, dict_get t "billed_amount" = VFloat f.
Proof.
  intros [Hdom Hval]. unfold dict_get.
  destruct (t !! "billed_amount") as [v|] eqn:Hget; [|by left].
  specialize (Hval _ v Hget). destruct v; simpl in *; by eauto.
Qed.

Lemma shape_charged (t : txn) :
  record_shape t -> dict_get t "charged_amount" = VNone.
Proof.
  intros [Hdom _]. unfold dict_get.
  destruct (t !! "charged_amount") as [v|] eqn:Hget; [|done].
  assert (Hin : "charged_amount" ∈ parser_keys) by (apply Hdom; eauto).
  exfalso. revert Hin. apply (bool_decide_unpack _). by vm_compute.
Qed.

(** The key of a parsed record is computed without error when its amount
    is not a NaN or an infinity. *)
Lemma shaped_key_returns (t : txn) :
  record_shape t -> amount_finite (dict_get t "billed_amount") ->
  returns (_create_match_key t).
Proof.
  intros Hshape Hfin.
  destruct (truthy (dict_get t "patient_id")) eqn:Hp;
    [|exists None; apply key_none; by left].
  destruct (truthy (amount_of t)) eqn:Ha.
  - assert (Hn : exists n, amount_truncates t n).
    { unfold amount_truncates. unfold amount_of, py_or in *.
      rewrite (shape_charged t Hshape) in *.
      destruct (shape_billed t Hshape) as [Hb|[f Hb]]; rewrite Hb in *;
        [done|].
      destruct f as [s|s| |s m e]; simpl in *; try done.
      eexists. right. eexists. split; [done|]. done. }
    destruct Hn as [n Hn]. eexists. apply (key_some t n); [done| by right|done].
  - destruct (truthy (dict_get t "date_of_service")) eqn:Hd.
    + eexists. apply (key_some t 0); [done | by left | by left].
    + exists None. apply key_none. by right.
Qed.

Lemma add_rejection_returns (t : txn) (e : Engine) :
  returns (_create_match_key t) ->
  exists e', add_rejection t e = (e', Return tt).
Proof.
  intros [mk Hmk]. unfold add_rejection. rewrite Hmk.
  destruct mk as [k|]; [|by eauto].
  destruct (key_truthy (Some k)); by eauto.
Qed.

Lemma add_277ca_rejections_returns (l : list txn) (e : Engine) :
  Forall (fun t => returns (_create_match_key t)) l ->
  exists e', add_277ca_rejections l e = (e', Return tt).
Proof.
  intros Hl. revert e. induction Hl as [|t l Ht Hl IH]; intros e; simpl.
  - by eauto.
  - destruct (add_rejection_returns t e Ht) as [e1 ->]. apply IH.
Qed.

Lemma parsed_rejections_are_added_aux
    (x12_content : string) (result : ParseResult) (e : Engine) :
  parse x12_content = Return result ->
  Forall (fun t => amount_finite (dict_get t "billed_amount"))
         (rejections result) ->
  exists e', add_277ca_rejections (rejections result) e = (e', Return tt).
Proof.
  intros Hparse Hfin.
  destruct (parse_shape x12_content) as (acks & Hacks & Hshape & _).
  rewrite Hparse in Hacks. injection Hacks as ->. simpl in *.
  apply add_277ca_rejections_returns.
  pose proof (Forall_list_filter _ is_rejected _ Hshape) as Hshape'.
  revert Hfin Hshape'. generalize (List.filter is_rejected acks).
  intros l Hfin Hshape'. induction Hfin as [|t l Ht Hl IH]; [constructor|].
  apply Forall_cons in Hshape' as [Hs Hshape'].
  constructor; [by apply shaped_key_returns | by apply IH].
Qed.

(** X7. Adding the rejections of a parsed document to an engine raises no
    error, provided no billed amount of the document is a NaN or an
    infinity (which [float] accepts in the status segment and [int] then
    refuses). *)
Theorem parsed_rejections_are_added_without_error
    (x12_content : string) (result : ParseResult) (e : Engine) :
  parse x12_content = Return result ->
  Forall (fun t => amount_finite (dict_get t "billed_amount"))
         (rejections result) ->
  exists e', add_277ca_rejections (rejections result) e = (e', Return tt).
Proof. apply parsed_rejections_are_added_aux. Qed.

(** X8. The patient identifier of a name segment takes precedence over the
    member identifier of a reference segment in either order: after a name
    segment with a non-empty element 8 and a reference segment "EA", in
    this order or the other, [patient_id] is element 8 of the name
    segment. *)
Theorem name_segment_id_takes_precedence
    (sid1 sid2 : string) (rest more : list string) (e8 v : string) (t : txn) :
  rest !! 7%nat = Some e8 ->
  e8 <> "" ->
  let nm1 := {| seg_id := sid1; seg_elements := "IL" :: rest |} in
  let ref := {| seg_id := sid2; seg_elements := "EA" :: v :: more |} in
  (exists t1 t2,
      _process_nm1 nm1 t = Return t1 /\ _process_ref ref t1 = Return t2 /\
      dict_get t2 "patient_id" = VStr e8) /\
  (exists t1 t2,
      _process_ref ref t = Return t1 /\ _process_nm1 nm1 t1 = Return t2 /\
      dict_get t2 "patient_id" = VStr e8).
Proof.
  intros Hrest He8 nm1 ref.
  destruct rest as [|e1 [|e2 [|e3 [|e4 [|e5 [|e6 [|e7 [|e8' rest]]]]]]]];
    try done.
  injection Hrest as ->. apply String.eqb_neq in He8.
  split.
  - eexists _, _. split; [reflexivity|].
    unfold _process_ref, dict_get. simpl. rewrite lookup_insert_eq. simpl.
    rewrite He8. simpl. split; [reflexivity|].
    by rewrite lookup_insert_eq.
  - unfold _process_ref. simpl.
    destruct (negb (truthy (dict_get t "patient_id")));
      (eexists _, _; split; [reflexivity|]; split; [reflexivity|]);
      unfold dict_get; by rewrite lookup_insert_eq.
Qed.

End ParserToEngine.

(** ** Validation *)

Section ValidateProps.
Context {py : Builtins}.

Lemma validate_step_nil (errors : list string) (ack : txn) :
  validate_step errors ack = [] <->
  errors = [] /\ passes_validation ack = true.
Proof.
  unfold validate_step, passes_validation, is_rejected.
  destruct (truthy (dict_get ack "patient_id")),
           (truthy (dict_get ack "trace_number")),
           (eq_str (dict_get ack "status_category") "A7"),
           (truthy (dict_get ack "rejection_reason")); simpl;
    split;
    try (intros [-> ?]; done);
    try (intros H; by apply app_eq_nil in H as [? ?]);
    try (intros ->; done); try (intros [? ?]; done); by intros.
Qed.

Lemma validate_fold_nil (acks : list txn) (errors : list string) :
  fold_left validate_step acks errors = [] <->
  errors = [] /\ forallb passes_validation acks = true.
Proof.
  revert errors. induction acks as [|ack acks IH]; intros errors; simpl.
  - by split; [|intros [? _]].
  - rewrite IH, validate_step_nil, andb_true_iff. tauto.
Qed.

Lemma validate_step_length (errors : list string) (ack : txn) :
  (length (validate_step errors ack) <= length errors + 2)%nat.
Proof.
  unfold validate_step.
  repeat (match goal with
          | |- context [if ?b then _ else _] => destruct b
          end); rewrite ?length_app; simpl; lia.
Qed.

Lemma validate_fold_length (acks : list txn) (errors : list string) :
  (length (fold_left validate_step acks errors)
   <= length errors + 2 * length acks)%nat.
Proof.
  revert errors. induction acks as [|ack acks IH]; intros errors; simpl;
    [lia|].
  pose proof (IH (validate_step errors ack)).
  pose proof (validate_step_length errors ack). lia.
Qed.

(** X9. [validate] returns no warning exactly when every record has a
    patient id or a trace number and every rejected record has a rejection
    reason; it returns at most two warnings per record. *)
Theorem validate_empty_iff_all_pass (acknowledgments : list txn) :
  (validate acknowledgments = [] <->
   forallb passes_validation acknowledgments = true) /\
  (length (validate acknowledgments) <= 2 * length acknowledgments)%nat.
Proof.
  unfold validate. split.
  - rewrite validate_fold_nil. tauto.
  - apply (validate_fold_length acknowledgments []).
Qed.

Lemma validate_fold_traced (acks : list txn) (errors : list string) :
  Forall has_trace acks ->
  fold_left validate_step acks errors
  = errors ++ map msg_missing_reason (List.filter lacks_reason acks).
Proof.
  intros Hacks. revert errors.
  induction Hacks as [|ack acks Hack Hacks IH]; intros errors; simpl.
  - by rewrite app_nil_r.
  - rewrite IH. unfold validate_step, lacks_reason, is_rejected.
    unfold has_trace in Hack. rewrite Hack, andb_false_r.
    destruct (eq_str (dict_get ack "status_category") "A7"
              && negb (truthy (dict_get ack "rejection_reason"))); simpl;
      [by rewrite <- app_assoc | done].
Qed.

Lemma filter_length_le {A} (f g : A -> bool) (l : list A) :
  (forall x, f x = true -> g x = true) ->
  (length (List.filter f l) <= length (List.filter g l))%nat.
Proof.
  intros Hfg. induction l as [|x l IH]; simpl; [lia|].
  destruct (f x) eqn:Hf; [rewrite (Hfg x Hf); simpl; lia|].
  destruct (g x); simpl; lia.
Qed.

(** X10. On the records of a parsed document, [validate] never warns about
    missing identifiers, since every record has a trace number: its
    warnings are the missing-reason messages of the rejected records
    without rejection reason, in document order, and there are at most
    [rejected_count] of them. *)
Theorem validate_of_parsed_document (x12_content : string) :
  exists result,
    parse x12_content = Return result /\
    validate (acknowledgments result)
    = map msg_missing_reason
          (List.filter lacks_reason (acknowledgments result)) /\
    (msg_missing_ids ∉ validate (acknowledgments result)) /\
    (length (validate (acknowledgments result))
     <= rejected_count (summary result))%nat.
Proof.
  destruct (parse_shape x12_content) as (acks & Hparse & _ & Htrace).
  exists (result_of acks). split; [done|]. simpl.
  unfold validate. rewrite (validate_fold_traced acks [] Htrace). simpl.
  split_and!; [done| |].
  - intros Hin. apply list_elem_of_fmap in Hin as (t & Hmsg & _).
    unfold msg_missing_ids, msg_missing_reason in Hmsg. simpl in Hmsg.
    discriminate.
  - rewrite length_map. apply filter_length_le.
    unfold lacks_reason. intros t Ht. by apply andb_true_iff in Ht as [? _].
Qed.

End ValidateProps.

(** ** Alerts *)

Section AlertsMore.
Context {py : Builtins}.

Lemma insert_desc_perm (a : Alert.t) (l : list Alert.t) :
  insert_desc a l ≡ₚ a :: l.
Proof.
  induction l as [|b l IH]; simpl; [done|].
  destruct (Alert.days_since_rejection a <? Alert.days_since_rejection b);
    [|done].
  rewrite IH. apply perm_swap.
Qed.

Lemma sort_desc_perm (l : list Alert.t) : sort_desc l ≡ₚ l.
Proof.
  induction l as [|a l IH]; simpl; [done|].
  unfold sort_desc in *. simpl. by rewrite insert_desc_perm, IH.
Qed.

Lemma insert_desc_sorted (a : Alert.t) (l : list Alert.t) :
  StronglySorted older_first l -> StronglySorted older_first (insert_desc a l).
Proof.
  induction 1 as [|b l Hl IH Hb]; simpl.
  - by repeat constructor.
  - destruct (Alert.days_since_rejection a <? Alert.days_since_rejection b)
      eqn:Hab.
    + apply Z.ltb_lt in Hab. constructor; [done|].
      rewrite insert_desc_perm. constructor; [|done].
      unfold older_first. lia.
    + apply Z.ltb_ge in Hab. constructor; [by constructor|].
      constructor; [done|].
      eapply Forall_impl; [exact Hb|]. unfold older_first. intros; lia.
Qed.

Lemma sort_desc_sorted (l : list Alert.t) :
  StronglySorted older_first (sort_desc l).
Proof.
  induction l as [|a l IH]; [constructor|].
  by apply insert_desc_sorted.
Qed.

(** The loop in closed form, when every date is readable. *)
Lemma scan_readable (now threshold : datetime) (items : odict Rejection.t)
    (alerts : list Alert.t) :
  Forall date_readable (od_values items) ->
  scan_rejections now threshold items alerts
  = Return (alerts ++ omap (entry_alert now threshold) items).
Proof.
  unfold od_values. revert alerts.
  induction items as [|[k r] items IH]; intros alerts Hall; simpl.
  - by rewrite app_nil_r.
  - apply Forall_cons in Hall as [Hr Hitems]. simpl in Hr.
    destruct (Rejection.found_in_835 r) eqn:Hfound; [by apply IH|].
    destruct Hr as [Hr|[Hr|[s Hr]]]; [congruence| |].
    + rewrite Hr. simpl.
      rewrite IH by done.
      destruct (Rejection.rejection_date r) as [| | |s]; try done.
      simpl in Hr. apply negb_false_iff in Hr. by rewrite Hr.
    + rewrite Hr. simpl.
      destruct (String.eqb s ""); simpl; [by apply IH|].
      destruct (strptime s (date_format s)) as [d|]; [|by apply IH].
      destruct (d <? threshold); [|by apply IH].
      rewrite IH by done. by rewrite <- app_assoc.
Qed.

(** The first unreadable date stops the loop with a [TypeError]. *)
Lemma scan_unreadable (now threshold : datetime) (items : odict Rejection.t)
    (alerts : list Alert.t) :
  Exists (fun r => ~ date_readable r) (od_values items) ->
  scan_rejections now threshold items alerts = Raise TypeError.
Proof.
  unfold od_values. revert alerts.
  induction items as [|[k r] items IH]; intros alerts Hex; simpl.
  - by apply Exists_nil in Hex.
  - apply Exists_cons in Hex. simpl in Hex.
    destruct (Rejection.found_in_835 r) eqn:Hfound.
    { destruct Hex as [Hr|Hex]; [|by apply IH].
      exfalso. apply Hr. by left. }
    destruct (truthy (Rejection.rejection_date r)) eqn:Htruthy; simpl.
    2:{ destruct Hex as [Hr|Hex]; [|by apply IH].
        exfalso. apply Hr. right. by left. }
    destruct (Rejection.rejection_date r) as [|z|f|s] eqn:Hdate; try done.
    destruct Hex as [Hr|Hex].
    { exfalso. apply Hr. right. right. by exists s. }
    simpl. destruct (strptime s (date_format s)) as [d|]; [|by apply IH].
    destruct (d <? threshold); by apply IH.
Qed.

Lemma entry_alert_sound (now threshold_date : datetime) (days_threshold : Z)
    (k : string) (r : Rejection.t) (a : Alert.t) :
  dt_us threshold_date = now - timedelta_days days_threshold ->
  entry_alert now threshold_date (k, r) = Some a ->
  Alert.match_key a = k /\
  Rejection.found_in_835 r = false /\
  days_threshold <= Alert.days_since_rejection a /\
  Alert.severity a
  = (if 45 <? Alert.days_since_rejection a then "HIGH" else "MEDIUM") /\
  Alert.billed_amount a = Rejection.billed_amount r.
Proof.
  intros Hthreshold. unfold entry_alert.
  destruct (Rejection.found_in_835 r); [done|].
  destruct (Rejection.rejection_date r) as [| | |s]; try done.
  destruct (String.eqb s ""); [done|].
  destruct (strptime s (date_format s)) as [d|]; [|done].
  destruct (d <? threshold_date) eqn:Hold; [|done].
  intros [= <-]. simpl. split_and!; try done.
  apply Z.ltb_lt in Hold. rewrite Hthreshold in Hold.
  unfold days_of, timedelta_days in *.
  apply Z.div_le_lower_bound; [by unfold us_per_day|]. lia.
Qed.

Lemma date_readable_dec (r : Rejection.t) :
  date_readable r \/ ~ date_readable r.
Proof.
  unfold date_readable.
  destruct (Rejection.found_in_835 r); [by left; left|].
  destruct (Rejection.rejection_date r) as [|z|f|s] eqn:Hdate;
    try (by left; right; left);
    try (by left; right; right; eexists).
  - destruct (truthy (VInt z)) eqn:Ht; [|by left; right; left].
    right. intros [?|[?|[? ?]]]; done.
  - destruct (truthy (VFloat f)) eqn:Ht; [|by left; right; left].
    right. intros [?|[?|[? ?]]]; done.
Qed.

Lemma readable_or_not (l : list Rejection.t) :
  Forall date_readable l \/ Exists (fun r => ~ date_readable r) l.
Proof.
  induction l as [|r l [IH|IH]].
  - left. constructor.
  - destruct (date_readable_dec r); [left | right]; by constructor.
  - right. by apply Exists_cons_tl.
Qed.

Lemma entry_alert_unmatched (now threshold : datetime) (k : string)
    (r : Rejection.t) (a : Alert.t) :
  entry_alert now threshold (k, r) = Some a ->
  Rejection.found_in_835 r = false.
Proof.
  unfold entry_alert. by destruct (Rejection.found_in_835 r).
Qed.

Lemma alerts_length (now threshold : datetime) (items : odict Rejection.t) :
  (length (omap (entry_alert now threshold) items)
   <= length (List.filter unmatched (od_values items)))%nat.
Proof.
  unfold od_values. induction items as [|[k r] items IH]; [done|].
  change (omap (entry_alert now threshold) ((k, r) :: items))
    with (match entry_alert now threshold (k, r) with
          | Some a => a :: omap (entry_alert now threshold) items
          | None => omap (entry_alert now threshold) items
          end).
  simpl map. simpl List.filter.
  destruct (entry_alert now threshold (k, r)) as [a|] eqn:Ha.
  - apply entry_alert_unmatched in Ha.
    unfold unmatched at 1. rewrite Ha. simpl. lia.
  - destruct (unmatched r); simpl; lia.
Qed.

(** The alerts in closed form. *)
Lemma find_closed_form (now : datetime) (days_threshold : Z) (e : Engine)
    (alerts : list Alert.t) :
  find_unsubmitted_claims now days_threshold e = Return alerts ->
  exists threshold_date : datetime,
    dt_us threshold_date = now - timedelta_days days_threshold /\
    alerts
    = sort_desc (omap (entry_alert now threshold_date) (rejections_cache e)).
Proof.
  intros Hfind.
  destruct (threshold_in_range now days_threshold) eqn:Hrange;
    [|by rewrite (find_out_of_range now days_threshold e Hrange) in Hfind].
  destruct (find_in_range now days_threshold e Hrange)
    as (threshold_date & Hthreshold & Heq).
  rewrite Heq in Hfind. exists threshold_date. split; [done|].
  apply bind_Return in Hfind as (scanned & Hscan & [= <-]).
  assert (Hreadable : Forall date_readable (od_values (rejections_cache e))).
  { destruct (readable_or_not (od_values (rejections_cache e)))
      as [Hall|Hex]; [done|].
    by rewrite (scan_unreadable _ _ _ _ Hex) in Hscan. }
  rewrite (scan_readable _ _ _ _ Hreadable) in Hscan.
  by injection Hscan as <-.
Qed.

(** X11. When [find_unsubmitted_claims] returns, its alerts come oldest
    first.  Each alert stands for an entry of the rejections cache that no
    payment has matched, carries the key of that entry, and has an age of
    at least [days_threshold] whole days; its severity is "HIGH" when the
    age exceeds 45 days and "MEDIUM" otherwise.  There are no more alerts
    than unmatched entries. *)
Theorem alerts_are_sorted_and_sound
    (now : datetime) (days_threshold : Z) (e : Engine) (alerts : list Alert.t) :
  find_unsubmitted_claims now days_threshold e = Return alerts ->
  StronglySorted older_first alerts /\
  Forall (fun a =>
            (exists r, (Alert.match_key a, r) ∈ rejections_cache e /\
                       Rejection.found_in_835 r = false /\
                       Alert.billed_amount a = Rejection.billed_amount r) /\
            days_threshold <= Alert.days_since_rejection a /\
            Alert.severity a
            = (if 45 <? Alert.days_since_rejection a
               then "HIGH" else "MEDIUM"))
         alerts /\
  (length alerts
   <= length (List.filter unmatched (od_values (rejections_cache e))))%nat.
Proof.
  intros Hfind.
  apply find_closed_form in Hfind as (threshold_date & Hthreshold & ->).
  split_and!.
  - apply sort_desc_sorted.
  - rewrite sort_desc_perm. apply Forall_forall. intros a Ha.
    apply list_elem_of_omap in Ha as ([k r] & Hin & Ha).
    apply (entry_alert_sound _ _ _ _ _ _ Hthreshold) in Ha
      as (<- & Hfound & Hage & Hsev & Hamt).
    split_and!; [by exists r | done..].
  - rewrite sort_desc_perm. apply alerts_length.
Qed.

(** X12. [find_unsubmitted_claims] fails in two ways only.  When the
    threshold date [now - timedelta(days=days_threshold)] does not exist
    (more than 999999999 days, or a date outside the years 1 to 9999), it
    raises [OverflowError], whatever the cache holds.  Otherwise it fails
    only on a rejection date that is neither missing nor a string: when
    every unmatched entry has a rejection date that is [None], empty or a
    string, it returns (dates that do not parse are skipped); when some
    unmatched entry has another one, it raises [TypeError]. *)
Theorem alerts_fail_on_threshold_or_date_type
    (now : datetime) (days_threshold : Z) (e : Engine) :
  (threshold_in_range now days_threshold = false ->
   find_unsubmitted_claims now days_threshold e = Raise OverflowError) /\
  (threshold_in_range now days_threshold = true ->
   (Forall date_readable (od_values (rejections_cache e)) ->
    returns (find_unsubmitted_claims now days_threshold e)) /\
   (Exists (fun r => ~ date_readable r) (od_values (rejections_cache e)) ->
    find_unsubmitted_claims now days_threshold e = Raise TypeError)).
Proof.
  split; [apply find_out_of_range|].
  intros Hrange.
  destruct (find_in_range now days_threshold e Hrange)
    as (threshold_date & _ & ->).
  split.
  - intros Hall. rewrite (scan_readable _ _ _ _ Hall). by eexists.
  - intros Hex. by rewrite (scan_unreadable _ _ _ _ Hex).
Qed.

Lemma od_get_elem {V} (k : string) (v : V) (d : odict V) :
  NoDup (od_keys d) -> (k, v) ∈ d -> od_get k d = Some v.
Proof.
  unfold od_keys. induction d as [|[k' v'] d IH]; simpl.
  - intros _ Hin. by apply elem_of_nil in Hin.
  - intros Hnd Hin. apply NoDup_cons in Hnd as [Hk' Hnd].
    apply elem_of_cons in Hin as [[= <- <-]|Hin].
    + by rewrite String.eqb_refl.
    + destruct (String.eqb k k') eqn:Hk; [|by apply IH].
      apply String.eqb_eq in Hk. subst k'. exfalso. apply Hk'.
      apply list_elem_of_fmap. by exists (k, v).
Qed.

(** X13. In every state the engine reaches, an entry that a payment has
    matched raises no alert: no alert of [find_unsubmitted_claims] carries
    its key, at any time and for any threshold. *)
Theorem matched_entries_never_alert
    (ops : list op) (lookback : Z) (now : datetime) (days_threshold : Z)
    (k : string) (r : Rejection.t) (alerts : list Alert.t) :
  let e := run_ops ops (new_engine lookback) in
  od_get k (rejections_cache e) = Some r ->
  Rejection.found_in_835 r = true ->
  find_unsubmitted_claims now days_threshold e = Return alerts ->
  Forall (fun a => Alert.match_key a <> k) alerts.
Proof.
  intros e Hget Hfound Hfind.
  assert (Hnd : NoDup (od_keys (rejections_cache e)))
    by apply run_ops_inv, new_engine_inv.
  apply find_closed_form in Hfind as (threshold_date & Hthreshold & ->).
  rewrite sort_desc_perm. apply Forall_forall. intros a Ha Hk.
  apply list_elem_of_omap in Ha as ([k' r'] & Hin & Ha).
  apply (entry_alert_sound _ _ _ _ _ _ Hthreshold) in Ha
    as (Hkey & Hfound' & _).
  rewrite Hk in Hkey. subst k'.
  rewrite (od_get_elem _ _ _ Hnd Hin) in Hget. injection Hget as ->.
  congruence.
Qed.

End AlertsMore.

(** ** Frames, matching and the summary *)

Section EngineMore.
Context {py : Builtins}.

Lemma add_rejection_frame (t : txn) (e : Engine) :
  payments_cache (add_rejection t e).1 = payments_cache e /\
  lookback_days (add_rejection t e).1 = lookback_days e /\
  (length (rejections_cache (add_rejection t e).1)
   <= S (length (rejections_cache e)))%nat.
Proof.
  destruct (add_rejection_cases t e) as [->|[[x ->]|[k Hk]]];
    [simpl; split_and!; (done || lia)..|].
  rewrite (add_rejection_key t k e Hk). simpl. split_and!; [done..|].
  rewrite od_set_length. destruct (od_mem k (rejections_cache e)); lia.
Qed.

Lemma add_payment_frame (t : txn) (e : Engine) :
  od_keys (rejections_cache (add_payment t e).1)
  = od_keys (rejections_cache e) /\
  lookback_days (add_payment t e).1 = lookback_days e.
Proof.
  destruct (add_payment_cases t e) as [->|[[x ->]|[k Hk]]]; [done..|].
  rewrite (add_payment_key t k e Hk). simpl. split; [|done].
  destruct (od_get k (rejections_cache e)) as [r|] eqn:Hget; [|done].
  rewrite od_set_keys. unfold od_mem. by rewrite Hget.
Qed.

Lemma add_277ca_rejections_frame (l : list txn) (e : Engine) :
  payments_cache (add_277ca_rejections l e).1 = payments_cache e /\
  lookback_days (add_277ca_rejections l e).1 = lookback_days e /\
  (length (rejections_cache (add_277ca_rejections l e).1)
   <= length (rejections_cache e) + length l)%nat.
Proof.
  revert e. induction l as [|t l IH]; intros e; simpl.
  - split_and!; (done || lia).
  - destruct (add_rejection_frame t e) as (Hp & Hl & Hn).
    destruct (add_rejection t e) as [e1 [[]|x]]; simpl in *.
    + destruct (IH e1) as (Hp' & Hl' & Hn').
      split_and!; [congruence..|lia].
    + split_and!; (done || lia).
Qed.

Lemma add_835_payments_frame (l : list txn) (e : Engine) :
  od_keys (rejections_cache (add_835_payments l e).1)
  = od_keys (rejections_cache e) /\
  lookback_days (add_835_payments l e).1 = lookback_days e.
Proof.
  revert e. induction l as [|t l IH]; intros e; simpl; [done|].
  destruct (add_payment_frame t e) as (Hk & Hl).
  destruct (add_payment t e) as [e1 [[]|x]]; simpl in *; [|done].
  destruct (IH e1) as (Hk' & Hl'). split; congruence.
Qed.

(** X14. Payments never add, remove or reorder the entries of the
    rejections cache, and rejections never touch the payments cache;
    neither changes the tracking period.  An [add_277ca_rejections] call
    adds at most one entry per record. *)
Theorem ingestion_frames (l : list txn) (e : Engine) :
  (od_keys (rejections_cache (add_835_payments l e).1)
   = od_keys (rejections_cache e) /\
   lookback_days (add_835_payments l e).1 = lookback_days e) /\
  (payments_cache (add_277ca_rejections l e).1 = payments_cache e /\
   lookback_days (add_277ca_rejections l e).1 = lookback_days e /\
   (length (rejections_cache (add_277ca_rejections l e).1)
    <= length (rejections_cache e) + length l)%nat).
Proof.
  split; [apply add_835_payments_frame | apply add_277ca_rejections_frame].
Qed.




Lemma filter_found_split (l : list Rejection.t) :
  (length (List.filter Rejection.found_in_835 l)
   + length (List.filter unmatched l))%nat = length l.
Proof.
  induction l as [|r l IH]; simpl; [done|].
  unfold unmatched at 1. destruct (Rejection.found_in_835 r); simpl; lia.
Qed.

Lemma run_op_lookback (o : op) (e : Engine) :
  lookback_days (run_op o e) = lookback_days e.
Proof.
  destruct o; simpl; [|  |done..].
  - apply add_277ca_rejections_frame.
  - apply add_835_payments_frame.
Qed.

Lemma run_ops_lookback (ops : list op) (e : Engine) :
  lookback_days (run_ops ops e) = lookback_days e.
Proof.
  unfold run_ops. revert e.
  induction ops as [|o ops IH]; intros e; simpl; [done|].
  by rewrite IH, run_op_lookback.
Qed.

Lemma summary_closed_form (e : Engine) :
  engine_inv e ->
  exists s,
    get_reconciliation_summary e = Return s /\
    total_rejections_tracked s = length (rejections_cache e) /\
    successfully_resubmitted s
    = length (List.filter Rejection.found_in_835
                          (od_values (rejections_cache e))) /\
    still_unsubmitted s
    = (length (rejections_cache e)
       - length (List.filter Rejection.found_in_835
                             (od_values (rejections_cache e))))%nat /\
    tracking_period_days s = lookback_days e /\
    (resubmission_rate s = VInt 0 <-> rejections_cache e = []).
Proof.
  intros [_ Hok]. unfold get_reconciliation_summary.
  rewrite (unsubmitted_amounts_ok _ Hok). cbn [mbind Exc_bind].
  destruct (rejections_cache e) as [|item items] eqn:Hcache.
  - simpl. eexists. by split_and!.
  - unfold int_truediv.
    change (0 <? length (item :: items))%nat with true. cbv iota.
    destruct (Z.of_nat (length (item :: items)) =? 0) eqn:Hz.
    { apply Z.eqb_eq in Hz. simpl in Hz. lia. }
    cbn [mbind Exc_bind]. eexists. split; [reflexivity|]. simpl.
    by split_and!.
Qed.

(** X16. In every state the engine reaches, the summary counts add up: the
    number of entries tracked is the number of matched entries plus the
    number of unmatched ones, [still_unsubmitted] is the number of
    unmatched entries, the tracking period is the one the engine was
    created with, and the resubmission rate is the integer 0 exactly when
    nothing is tracked. *)
Theorem summary_counts_add_up (ops : list op) (lookback : Z) :
  let e := run_ops ops (new_engine lookback) in
  exists s,
    get_reconciliation_summary e = Return s /\
    total_rejections_tracked s = length (rejections_cache e) /\
    successfully_resubmitted s
    = length (List.filter Rejection.found_in_835
                          (od_values (rejections_cache e))) /\
    still_unsubmitted s
    = length (List.filter unmatched (od_values (rejections_cache e))) /\
    (successfully_resubmitted s + still_unsubmitted s)%nat
    = total_rejections_tracked s /\
    tracking_period_days s = lookback /\
    (resubmission_rate s = VInt 0 <-> rejections_cache e = []).
Proof.
  intros e.
  assert (He : engine_inv e) by apply run_ops_inv, new_engine_inv.
  destruct (summary_closed_form e He)
    as (s & Hs & Htotal & Hfound & Hun & Hlook & Hrate).
  exists s.
  pose proof (filter_found_split (od_values (rejections_cache e))) as Hsplit.
  assert (Hlen : length (od_values (rejections_cache e))
                 = length (rejections_cache e))
    by apply length_map.
  split_and!; try done; try lia.
  rewrite Hlook. unfold e. by rewrite run_ops_lookback.
Qed.

End EngineMore.

(** ** The reconciliation report *)

Section ReportProps.
Context {py : Builtins}.

Lemma od_set_count {V} (f : V -> bool) (k : string) (v : V) (d : odict V) :
  (length (List.filter f (od_values (od_set k v d)))
   <= S (length (List.filter f (od_values d))))%nat.
Proof.
  unfold od_values. induction d as [|[k' v'] d IH]; simpl.
  - destruct (f v); simpl; lia.
  - destruct (String.eqb k k'); simpl.
    + destruct (f v), (f v'); simpl; lia.
    + destruct (f v'); simpl; lia.
Qed.

Lemma add_payment_found_count (t : txn) (e : Engine) :
  (length (List.filter Rejection.found_in_835
             (od_values (rejections_cache (add_payment t e).1)))
   <= S (length (List.filter Rejection.found_in_835
                   (od_values (rejections_cache e)))))%nat.
Proof.
  destruct (add_payment_cases t e) as [->|[[x ->]|[k Hk]]];
    [simpl; lia..|].
  rewrite (add_payment_key t k e Hk). simpl.
  destruct (od_get k (rejections_cache e)); [apply od_set_count | lia].
Qed.

Lemma add_835_payments_found_count (l : list txn) (e : Engine) :
  (length (List.filter Rejection.found_in_835
             (od_values (rejections_cache (add_835_payments l e).1)))
   <= length (List.filter Rejection.found_in_835
                (od_values (rejections_cache e))) + length l)%nat.
Proof.
  revert e. induction l as [|t l IH]; intros e; simpl; [lia|].
  pose proof (add_payment_found_count t e) as Ht.
  destruct (add_payment t e) as [e1 [[]|x]]; simpl in *; [|lia].
  pose proof (IH e1). lia.
Qed.

Lemma add_277ca_rejections_unmatched (l : list txn) (e : Engine) :
  all_unmatched e -> all_unmatched (add_277ca_rejections l e).1.
Proof.
  revert e. induction l as [|t l IH]; intros e He; simpl; [done|].
  assert (He1 : all_unmatched (add_rejection t e).1).
  { destruct (add_rejection_cases t e) as [->|[[x ->]|[k Hk]]]; [done..|].
    rewrite (add_rejection_key t k e Hk). unfold all_unmatched. simpl.
    by apply od_set_Forall. }
  destruct (add_rejection t e) as [e1 [[]|x]]; simpl in *; [by apply IH|done].
Qed.

Lemma unmatched_count (l : list Rejection.t) :
  Forall (fun r => Rejection.found_in_835 r = false) l ->
  length (List.filter Rejection.found_in_835 l) = 0%nat.
Proof.
  induction 1 as [|r l Hr Hl IH]; simpl; [done|]. by rewrite Hr.
Qed.

Lemma high_filter (alerts : list Alert.t) :
  Forall (fun a => Alert.severity a
                   = if 45 <? Alert.days_since_rejection a
                     then "HIGH" else "MEDIUM") alerts ->
  List.filter (fun a => String.eqb (Alert.severity a) "HIGH") alerts
  = List.filter (fun a => 45 <? Alert.days_since_rejection a) alerts.
Proof.
  induction 1 as [|a l Ha Hl IH]; simpl; [done|].
  rewrite Ha, IH. by destruct (45 <? Alert.days_since_rejection a).
Qed.

Lemma filter_length_bound {A} (f : A -> bool) (l : list A) :
  (length (List.filter f l) <= length l)%nat.
Proof.
  induction l as [|x l IH]; simpl; [lia|]. destruct (f x); simpl; lia.
Qed.

(** X17. When [generate_reconciliation_report] returns, the report is
    consistent with its inputs: the alerts come oldest first and
    [alert_count] is their number; [high_severity_count] is the number of
    alerts older than 45 days; the summary tracks at most one entry per
    rejection record and counts at most one resubmission per payment
    record, over the default tracking period of 60 days. *)
Theorem report_is_consistent
    (now_alerts now_report : datetime) (rejections_277ca payments_835 : list txn)
    (days_threshold : Z) (report : Report.t) :
  generate_reconciliation_report now_alerts now_report
    rejections_277ca payments_835 days_threshold = Return report ->
  Report.report_date report = now_report /\
  StronglySorted older_first (Report.unsubmitted_claims report) /\
  Report.alert_count report = length (Report.unsubmitted_claims report) /\
  Report.high_severity_count report
  = length (List.filter (fun a => 45 <? Alert.days_since_rejection a)
                        (Report.unsubmitted_claims report)) /\
  (Report.high_severity_count report <= Report.alert_count report)%nat /\
  (total_rejections_tracked (Report.summary report)
   <= length rejections_277ca)%nat /\
  (successfully_resubmitted (Report.summary report)
   <= length payments_835)%nat /\
  tracking_period_days (Report.summary report) = 60.
Proof.
  unfold generate_reconciliation_report.
  pose proof (add_277ca_rejections_frame rejections_277ca (new_engine 60))
    as (_ & Hlook1 & Hlen1).
  pose proof (add_277ca_rejections_inv rejections_277ca (new_engine 60)
                (new_engine_inv 60)) as Hinv1.
  pose proof (add_277ca_rejections_unmatched rejections_277ca (new_engine 60)
                ltac:(constructor)) as Hun1.
  destruct (add_277ca_rejections rejections_277ca (new_engine 60))
    as [e1 [[]|x]]; [|done].
  simpl in Hlook1, Hlen1, Hinv1, Hun1.
  pose proof (add_835_payments_frame payments_835 e1) as (Hkeys2 & Hlook2).
  pose proof (add_835_payments_inv payments_835 e1 Hinv1) as Hinv2.
  pose proof (add_835_payments_found_count payments_835 e1) as Hfound2.
  destruct (add_835_payments payments_835 e1) as [e2 [[]|x]]; [|done].
  simpl in Hkeys2, Hlook2, Hinv2, Hfound2.
  intros Hreport.
  apply bind_Return in Hreport as (alerts & Hfind & Hreport).
  apply bind_Return in Hreport as (s & Hs & [= <-]). simpl.
  destruct (summary_closed_form e2 Hinv2)
    as (s' & Hs' & Htotal & Hres & _ & Hperiod & _).
  rewrite Hs in Hs'. injection Hs' as <-.
  destruct (find_closed_form _ _ _ _ Hfind)
    as (threshold_date & Hthreshold & Hclosed).
  assert (Hsev : Forall (fun a => Alert.severity a
                                  = if 45 <? Alert.days_since_rejection a
                                    then "HIGH" else "MEDIUM") alerts).
  { rewrite Hclosed, sort_desc_perm. apply Forall_forall. intros a Ha.
    apply list_elem_of_omap in Ha as ([k r] & _ & Ha).
    by apply (entry_alert_sound _ _ _ _ _ _ Hthreshold) in Ha
      as (_ & _ & _ & Hsev & _). }
  split_and!.
  - done.
  - rewrite Hclosed. apply sort_desc_sorted.
  - done.
  - by rewrite (high_filter alerts Hsev).
  - apply filter_length_bound.
  - rewrite Htotal.
    assert (Hk : length (rejections_cache e2) = length (rejections_cache e1)).
    { rewrite <- (length_map fst (rejections_cache e2)).
      rewrite <- (length_map fst (rejections_cache e1)).
      unfold od_keys in Hkeys2. by rewrite Hkeys2. }
    simpl in Hlen1. lia.
  - rewrite Hres. rewrite (unmatched_count _ Hun1) in Hfound2. lia.
  - rewrite Hperiod. congruence.
Qed.

Lemma add_payment_returns (t : txn) (e : Engine) :
  returns (_create_match_key t) ->
  exists e', add_payment t e = (e', Return tt).
Proof.
  intros [mk Hmk]. unfold add_payment. rewrite Hmk.
  destruct mk as [k|]; [|by eauto].
  destruct (key_truthy (Some k)); by eauto.
Qed.

Lemma add_835_payments_returns (l : list txn) (e : Engine) :
  Forall (fun t => returns (_create_match_key t)) l ->
  exists e', add_835_payments l e = (e', Return tt).
Proof.
  intros Hl. revert e. induction Hl as [|t l Ht Hl IH]; intros e; simpl.
  - by eauto.
  - destruct (add_payment_returns t e Ht) as [e1 ->]. apply IH.
Qed.

Lemma add_payment_no_date (t : txn) (e : Engine) :
  no_rejection_date e -> no_rejection_date (add_payment t e).1.
Proof.
  intros He.
  destruct (add_payment_cases t e) as [->|[[x ->]|[k Hk]]]; [done..|].
  rewrite (add_payment_key t k e Hk). unfold no_rejection_date. simpl.
  destruct (od_get k (rejections_cache e)) as [r|] eqn:Hget; [|done].
  apply od_set_Forall; [|done]. simpl.
  by apply (od_get_Forall _ k r (rejections_cache e) He).
Qed.

Lemma add_835_payments_no_date (l : list txn) (e : Engine) :
  no_rejection_date e -> no_rejection_date (add_835_payments l e).1.
Proof.
  revert e. induction l as [|t l IH]; intros e He; simpl; [done|].
  pose proof (add_payment_no_date t e He) as He1.
  destruct (add_payment t e) as [e1 [[]|x]]; simpl in *; [by apply IH|done].
Qed.

(** X18. A report over the rejections of a parsed document raises no
    alert, whatever the payments and the clock, for every threshold whose
    threshold date [now - timedelta(days=days_threshold)] exists: the
    parser records no rejection date.  The report is then produced without
    error when no billed amount of the document is a NaN or an infinity and
    the key of every payment record can be computed.  For every other
    threshold no report is produced: the call raises [OverflowError]. *)
Theorem report_on_parsed_document_is_silent
    (x12_content : string) (result : ParseResult) (payments_835 : list txn)
    (now_alerts now_report : datetime) (days_threshold : Z) :
  parse x12_content = Return result ->
  Forall (fun t => amount_finite (dict_get t "billed_amount"))
         (rejections result) ->
  Forall (fun p => returns (_create_match_key p)) payments_835 ->
  (threshold_in_range now_alerts days_threshold = true ->
   exists report,
     generate_reconciliation_report now_alerts now_report
       (rejections result) payments_835 days_threshold = Return report /\
     Report.unsubmitted_claims report = [] /\
     Report.alert_count report = 0%nat /\
     Report.high_severity_count report = 0%nat /\
     (total_rejections_tracked (Report.summary report)
      <= rejected_count (summary result))%nat) /\
  (threshold_in_range now_alerts days_threshold = false ->
   generate_reconciliation_report now_alerts now_report
     (rejections result) payments_835 days_threshold = Raise OverflowError).
Proof.
  intros Hparse Hfin Hpay.
  destruct (parsed_rejections_are_added_aux x12_content result (new_engine 60)
              Hparse Hfin) as [e1 He1].
  destruct (parse_no_transaction_date x12_content) as (r' & Hr' & _ & Hnodate).
  rewrite Hparse in Hr'. injection Hr' as <-.
  pose proof (add_277ca_rejections_no_date (rejections result) (new_engine 60)
                Hnodate ltac:(constructor)) as Hnd1.
  pose proof (add_277ca_rejections_inv (rejections result) (new_engine 60)
                (new_engine_inv 60)) as Hinv1.
  pose proof (add_277ca_rejections_frame (rejections result) (new_engine 60))
    as (_ & _ & Hlen1).
  destruct (add_835_payments_returns payments_835 e1 Hpay) as [e2 He2].
  pose proof (add_835_payments_no_date payments_835 e1) as Hnd2.
  pose proof (add_835_payments_inv payments_835 e1) as Hinv2.
  pose proof (add_835_payments_frame payments_835 e1) as (Hkeys2 & _).
  unfold generate_reconciliation_report.
  rewrite He1 in *. simpl in Hnd1, Hinv1, Hlen1. rewrite He2 in *.
  simpl in Hnd2, Hinv2, Hkeys2.
  specialize (Hnd2 Hnd1). specialize (Hinv2 Hinv1).
  split; intros Hrange;
    [|by rewrite (find_out_of_range now_alerts days_threshold e2 Hrange)].
  destruct (find_in_range now_alerts days_threshold e2 Hrange)
    as (threshold_date & _ & ->).
  rewrite (scan_no_date _ _ _ [] Hnd2). cbn [mbind Exc_bind].
  destruct (summary_closed_form e2 Hinv2) as (s & -> & Htotal & _).
  cbn [mbind Exc_bind]. eexists. split; [reflexivity|]. simpl.
  split_and!; try done.
  rewrite Htotal.
  assert (Hk : length (rejections_cache e2) = length (rejections_cache e1)).
  { rewrite <- (length_map fst (rejections_cache e2)).
    rewrite <- (length_map fst (rejections_cache e1)).
    unfold od_keys in Hkeys2. by rewrite Hkeys2. }
  destruct (parse_shape x12_content) as (acks & Hacks & _).
  rewrite Hparse in Hacks. injection Hacks as ->. simpl in *. lia.
Qed.

End ReportProps.

(** ** The status segment *)

Lemma contains_split_two (c : ascii) (s : string) :
  contains c s = true -> exists a b l, split c s = a :: b :: l.
Proof.
  induction s as [|c' s IH]; simpl; [done|].
  destruct (Ascii.eqb c' c); simpl.
  - intros _. destruct (split_cons c s) as (h & t & ->). by eauto.
  - intros Hs. destruct (IH Hs) as (a & b & l & ->). by eauto.
Qed.

(** X19. The status segment in closed form.  With a colon in element 0,
    the status category is the text before the first colon and the status
    code the text between the first and the second (the code is never left
    [None] by such a segment); without colon both fields keep their value.
    The billed amount is read from element 3, and only when that element is
    not empty and [float] accepts it; otherwise the amount keeps its value
    and no error is raised. *)
Theorem stc_reads_status_and_amount `{Builtins} (segment : Segment) (t : txn) :
  _process_stc segment t
  = Return
      (match seg_elements segment with
       | [] => t
       | status_info :: _ =>
           let t1 :=
             match split ":" status_info with
             | category :: code :: _ =>
                 <["status_code" := VStr code]>
                   (<["status_category" := VStr category]> t)
             | _ => t
             end in
           match seg_elements segment !! 3%nat with
           | Some e3 =>
               match (if String.eqb e3 "" then None else float_of_string e3)
               with
               | Some f => <["billed_amount" := VFloat f]> t1
               | None => t1
               end
           | None => t1
           end
       end).
Proof.
  destruct segment as [sid els]. unfold _process_stc. simpl.
  destruct els as [|e0 els]; simpl; [done|].
  destruct (contains ":" e0) eqn:Hc.
  - destruct (contains_split_two ":" e0 Hc) as (a & b & l & ->). simpl.
    destruct els as [|e1 [|e2 [|e3 els]]]; simpl; try done.
    destruct (String.eqb e3 ""); simpl; [done|].
    by destruct (float_of_string e3).
  - rewrite (contains_split _ _ Hc). simpl.
    destruct els as [|e1 [|e2 [|e3 els]]]; simpl; try done.
    destruct (String.eqb e3 ""); simpl; [done|].
    by destruct (float_of_string e3).
Qed.

(** ** The transaction set header *)

Lemma prefix_cons (a b : ascii) (s1 s2 : string) :
  String.prefix (String a s1) (String b s2)
  = match ascii_dec a b with
    | left _ => String.prefix s1 s2
    | right _ => false
    end.
Proof. done. Qed.

Lemma prefix_empty (s : string) : String.prefix "" s = true.
Proof. by destruct s. Qed.

Lemma prefix_ST_line (id : string) (els : list string) :
  String.prefix "ST" (join "*" (id :: els)) = String.prefix "ST" id.
Proof.
  destruct els as [|e els]; [done|].
  change (join "*" (id :: e :: els))
    with (id +:+ String "*" (join "*" (e :: els))).
  generalize (join "*" (e :: els)). intros x.
  destruct id as [|c1 [|c2 r]].
  - change (String.prefix "ST" (String "*" x) = String.prefix "ST" "").
    rewrite prefix_cons. by destruct (ascii_dec "S" "*").
  - change (String.prefix "ST" (String c1 (String "*" x))
            = String.prefix "ST" (String c1 "")).
    rewrite !prefix_cons. destruct (ascii_dec "S" c1); [|done].
    destruct (ascii_dec "T" "*") as [Heq|_]; [discriminate Heq | done].
  - change (String.prefix "ST" (String c1 (String c2 (r +:+ String "*" x)))
            = String.prefix "ST" (String c1 (String c2 r))).
    rewrite !prefix_cons. destruct (ascii_dec "S" c1); [|done].
    destruct (ascii_dec "T" c2); [|done]. by rewrite !prefix_empty.
Qed.

Lemma join_prepend (sep a x : string) (l : list string) :
  join sep ((a +:+ x) :: l) = a +:+ join sep (x :: l).
Proof.
  destruct l as [|y l]; [done|].
  change (join sep ((a +:+ x) :: y :: l))
    with ((a +:+ x) +:+ sep +:+ join sep (y :: l)).
  change (join sep (x :: y :: l)) with (x +:+ sep +:+ join sep (y :: l)).
  by rewrite append_assoc.
Qed.

Lemma clean_segment_facts (segment : Segment) :
  clean_segment segment = true ->
  Forall (fun tok => contains "~" tok = false /\ contains "*" tok = false)
         (seg_id segment :: seg_elements segment) /\
  contains "~" (segment_line segment) = false /\
  strip (segment_line segment) = segment_line segment.
Proof.
  unfold clean_segment. intros Hc.
  apply andb_true_iff in Hc as [Hc _].
  apply andb_true_iff in Hc as [Htok Hstrip].
  apply String.eqb_eq in Hstrip. apply Forall_forallb_true in Htok.
  assert (Htoks : Forall (fun tok => contains "~" tok = false
                                     /\ contains "*" tok = false)
                         (seg_id segment :: seg_elements segment)).
  { eapply Forall_impl; [exact Htok|]. intros tok Hok. unfold token_ok in Hok.
    apply andb_true_iff in Hok as [Hok _].
    apply andb_true_iff in Hok as [H1 H2].
    by apply negb_true_iff in H1, H2. }
  split_and!; [done| |done].
  unfold segment_line. apply contains_join; [done|].
  eapply Forall_impl; [exact Htoks|]. by intros tok [? _].
Qed.

(** What the loop does on the piece of a clean segment, preceded by a
    line break or not. *)
Lemma find_st_line_piece (nl : bool) (segment : Segment) (rest : list string) :
  clean_segment segment = true ->
  let ws := if nl then newline else "" in
  find_st_line ((ws +:+ segment_line segment) :: rest)
  = if st_like segment
    then Return {| transaction_code := nth 0 (seg_elements segment) "";
                   info_version := nth 2 (seg_elements segment) "unknown" |}
    else find_st_line rest.
Proof.
  intros Hclean ws.
  destruct (clean_segment_facts segment Hclean) as (Htoks & _ & Hstrip).
  assert (Hs : strip (ws +:+ segment_line segment) = segment_line segment).
  { unfold ws. by destruct nl. }
  assert (Hsplit : split "*" (ws +:+ segment_line segment)
                   = (ws +:+ seg_id segment) :: seg_elements segment).
  { unfold segment_line. rewrite <- join_prepend.
    apply (split_join "*").
    apply Forall_cons in Htoks as [[_ Hid] Hels].
    constructor.
    - rewrite contains_app, Hid. unfold ws. by destruct nl.
    - eapply Forall_impl; [exact Hels|]. by intros tok [_ ?]. }
  unfold find_st_line at 1. fold find_st_line.
  rewrite Hs, Hsplit. unfold segment_line at 1. rewrite prefix_ST_line.
  unfold st_like.
  destruct (String.prefix "ST" (seg_id segment)); [|done].
  destruct (seg_elements segment) as [|e0 [|e1 [|e2 els]]]; done.
Qed.

Lemma render_split_head (nl : bool) (segment : Segment) (rest : list Segment) :
  clean_segment segment = true ->
  let ws := if nl then newline else "" in
  split "~" (ws +:+ render (segment :: rest))
  = (ws +:+ segment_line segment) :: split "~" (newline +:+ render rest).
Proof.
  intros Hclean ws.
  destruct (clean_segment_facts segment Hclean) as (_ & Htilde & _).
  change (render (segment :: rest))
    with (segment_line segment +:+ String "~" (newline +:+ render rest)).
  rewrite <- append_assoc. apply split_app_sep.
  rewrite contains_app, Htilde. unfold ws. by destruct nl.
Qed.

Lemma find_header (nl : bool) (pre post : list Segment) (st : Segment) :
  Forall (fun s => clean_segment s = true) (pre ++ st :: post) ->
  Forall (fun s => st_like s = false) pre ->
  st_like st = true ->
  find_st_line (split "~" ((if nl then newline else "")
                           +:+ render (pre ++ st :: post)))
  = Return {| transaction_code := nth 0 (seg_elements st) "";
              info_version := nth 2 (seg_elements st) "unknown" |}.
Proof.
  revert nl. induction pre as [|s pre IH]; intros nl Hclean Hpre Hst.
  - simpl app in *. apply Forall_cons in Hclean as [Hc _].
    rewrite (render_split_head nl st post Hc).
    by rewrite (find_st_line_piece nl st _ Hc), Hst.
  - change ((s :: pre) ++ st :: post) with (s :: (pre ++ st :: post)) in *.
    apply Forall_cons in Hclean as [Hc Hclean].
    apply Forall_cons in Hpre as [Hs Hpre].
    rewrite (render_split_head nl s _ Hc).
    rewrite (find_st_line_piece nl s _ Hc), Hs.
    by apply (IH true).
Qed.

(** X20. [get_transaction_info] finds the header of a document written
    one segment per line: when the segments before it are clean and none
    of them has an id starting with "ST" together with two or more
    elements, the first such segment gives the transaction code (its
    element 0) and the version (its element 2, or "unknown" when it has
    only two elements).  The test is on the first two letters of the id:
    a status segment "STC" ahead of the header would be taken for it. *)
Theorem transaction_info_from_header (pre post : list Segment) (st : Segment) :
  forallb clean_segment (pre ++ st :: post) = true ->
  forallb (fun s => negb (st_like s)) pre = true ->
  st_like st = true ->
  get_transaction_info (render (pre ++ st :: post))
  = Return {| transaction_code := nth 0 (seg_elements st) "";
              info_version := nth 2 (seg_elements st) "unknown" |}.
Proof.
  intros Hclean Hpre Hst. unfold get_transaction_info.
  apply (find_header false).
  - by apply Forall_forallb_true.
  - apply Forall_forallb_true in Hpre.
    eapply Forall_impl; [exact Hpre|]. intros s. apply negb_true_iff.
  - done.
Qed.

(** ** The further properties on sample inputs *)

Lemma no_boundary_no_record_witness :
  exists result,
    parse (py := Sample.builtins)
      "ST*277*0001~NM1*IL*1*DOE*JOHN****MI*12345~TRN*2*TRACE1~STC*A7:42~"
    = Return result /\
    acknowledgments result = [] /\
    rejections result = [] /\
    acceptances result = [] /\
    total_claims (summary result) = 0%nat.
Proof.
  apply (no_boundary_no_record (py := Sample.builtins)).
  vm_compute. reflexivity.
Defined.

Lemma parsed_rejections_are_added_without_error_witness :
  match parse (py := Sample.builtins) doc_one_rejection with
  | Return result =>
      exists e',
        add_277ca_rejections (py := Sample.builtins)
          (rejections result) (new_engine 60) = (e', Return tt)
  | Raise _ => False
  end.
Proof.
  destruct (parse (py := Sample.builtins) doc_one_rejection)
    as [result|x] eqn:Hparse; [|vm_compute in Hparse; discriminate].
  apply (parsed_rejections_are_added_without_error (py := Sample.builtins)
           doc_one_rejection result (new_engine 60) Hparse).
  vm_compute in Hparse. injection Hparse as <-.
  repeat constructor.
Defined.

Lemma name_segment_id_takes_precedence_witness :
  let nm1 := {| seg_id := "NM1";
                seg_elements :=
                  ["IL"; "1"; "DOE"; "JOHN"; ""; ""; ""; "MI"; "12345"] |} in
  let ref := {| seg_id := "REF"; seg_elements := ["EA"; "M-777"] |} in
  (exists t1 t2,
      _process_nm1 nm1 _init_transaction = Return t1 /\
      _process_ref ref t1 = Return t2 /\
      dict_get t2 "patient_id" = VStr "12345") /\
  (exists t1 t2,
      _process_ref ref _init_transaction = Return t1 /\
      _process_nm1 nm1 t1 = Return t2 /\
      dict_get t2 "patient_id" = VStr "12345").
Proof.
  apply (name_segment_id_takes_precedence "NM1" "REF"
           ["1"; "DOE"; "JOHN"; ""; ""; ""; "MI"; "12345"] []
           "12345" "M-777" _init_transaction); [reflexivity | discriminate].
Defined.

Lemma alerts_are_sorted_and_sound_witness :
  match find_unsubmitted_claims (py := Sample.builtins)
          midnight_20240220 30 engine_one_entry with
  | Return alerts =>
      StronglySorted older_first alerts /\
      Forall (fun a =>
                (exists r, (Alert.match_key a, r)
                           ∈ rejections_cache engine_one_entry /\
                           Rejection.found_in_835 r = false /\
                           Alert.billed_amount a = Rejection.billed_amount r) /\
                30 <= Alert.days_since_rejection a /\
                Alert.severity a
                = (if 45 <? Alert.days_since_rejection a
                   then "HIGH" else "MEDIUM"))
             alerts /\
      (length alerts
       <= length (List.filter unmatched
                    (od_values (rejections_cache engine_one_entry))))%nat
  | Raise _ => False
  end.
Proof.
  destruct (find_unsubmitted_claims (py := Sample.builtins)
              midnight_20240220 30 engine_one_entry)
    as [alerts|x] eqn:Hfind; [|vm_compute in Hfind; discriminate].
  exact (alerts_are_sorted_and_sound (py := Sample.builtins) _ _ _ _ Hfind).
Defined.

Lemma matched_entries_never_alert_witness :
  let dated (t : txn) := <["transaction_date" := VStr "20240101"]> t in
  let other :=
    record [("patient_id", VStr "456"); ("date_of_service", VStr "20240102");
            ("transaction_date", VStr "20240101")] in
  let ops := [AddRejections [dated rec_rejection; other];
              AddPayments [rec_payment]] in
  match find_unsubmitted_claims (py := Sample.builtins)
          midnight_20240220 30
          (run_ops (py := Sample.builtins) ops (new_engine 60)) with
  | Return alerts =>
      length alerts = 1%nat /\
      Forall (fun a => Alert.match_key a <> "123|20240101|150") alerts
  | Raise _ => False
  end.
Proof.
  intros dated other ops.
  destruct (find_unsubmitted_claims (py := Sample.builtins)
              midnight_20240220 30
              (run_ops (py := Sample.builtins) ops (new_engine 60)))
    as [alerts|x] eqn:Hfind; [|vm_compute in Hfind; discriminate].
  split.
  - vm_compute in Hfind. by injection Hfind as <-.
  - eapply (matched_entries_never_alert (py := Sample.builtins) ops 60
              midnight_20240220 30
              "123|20240101|150" _ alerts);
      [vm_compute; reflexivity | reflexivity | exact Hfind].
Defined.


Lemma report_is_consistent_witness :
  let dated (t : txn) := <["transaction_date" := VStr "20240101"]> t in
  let now := midnight_20240220 in
  match generate_reconciliation_report (py := Sample.builtins) now now
          [dated rec_rejection; dated rec_range] [rec_payment] 30 with
  | Return report =>
      Report.alert_count report = 1%nat /\
      Report.high_severity_count report = 1%nat /\
      (total_rejections_tracked (Report.summary report) <= 2)%nat /\
      (successfully_resubmitted (Report.summary report) <= 1)%nat
  | Raise _ => False
  end.
Proof.
  intros dated now.
  destruct (generate_reconciliation_report (py := Sample.builtins) now now
              [dated rec_rejection; dated rec_range] [rec_payment] 30)
    as [report|x] eqn:Hreport; [|vm_compute in Hreport; discriminate].
  destruct (report_is_consistent (py := Sample.builtins) _ _ _ _ _ _ Hreport)
    as (_ & _ & _ & _ & _ & Htotal & Hres & _).
  split_and!; [| |exact Htotal|exact Hres];
    vm_compute in Hreport; by injection Hreport as <-.
Defined.

Lemma report_on_parsed_document_is_silent_witness :
  match parse (py := Sample.builtins) doc_one_rejection with
  | Return result =>
      (exists report,
          generate_reconciliation_report (py := Sample.builtins)
            midnight_20240220 midnight_20240220
            (rejections result) [rec_payment] 30 = Return report /\
          Report.unsubmitted_claims report = [] /\
          Report.alert_count report = 0%nat /\
          Report.high_severity_count report = 0%nat /\
          (total_rejections_tracked (Report.summary report)
           <= rejected_count (summary result))%nat) /\
      generate_reconciliation_report (py := Sample.builtins)
        midnight_20240220 midnight_20240220
        (rejections result) [rec_payment] 800000 = Raise OverflowError
  | Raise _ => False
  end.
Proof.
  destruct (parse (py := Sample.builtins) doc_one_rejection)
    as [result|x] eqn:Hparse; [|vm_compute in Hparse; discriminate].
  assert (Hfin : Forall (fun t => amount_finite (dict_get t "billed_amount"))
                        (rejections result)).
  { vm_compute in Hparse. injection Hparse as <-. repeat constructor. }
  assert (Hpay : Forall (fun p => returns (_create_match_key
                                             (py := Sample.builtins) p))
                        [rec_payment]).
  { repeat constructor. eexists. vm_compute. reflexivity. }
  split.
  - apply (proj1 (report_on_parsed_document_is_silent (py := Sample.builtins)
                    doc_one_rejection result [rec_payment]
                    midnight_20240220 midnight_20240220 30
                    Hparse Hfin Hpay)).
    vm_compute. reflexivity.
  - apply (proj2 (report_on_parsed_document_is_silent (py := Sample.builtins)
                    doc_one_rejection result [rec_payment]
                    midnight_20240220 midnight_20240220 800000
                    Hparse Hfin Hpay)).
    vm_compute. reflexivity.
Defined.

Lemma transaction_info_from_header_witness :
  let pre := [{| seg_id := "ISA"; seg_elements := ["00"; "ZZ"] |};
              {| seg_id := "GS"; seg_elements := ["HN"; "SENDER"] |}] in
  let st := {| seg_id := "ST";
               seg_elements := ["277"; "0001"; "005010X214"] |} in
  let post := [{| seg_id := "STC"; seg_elements := ["A7:42"; "20240101"] |};
               {| seg_id := "SE"; seg_elements := ["3"; "0001"] |}] in
  get_transaction_info (render (pre ++ st :: post))
  = Return {| transaction_code := "277"; info_version := "005010X214" |}.
Proof.
  intros pre st post.
  apply (transaction_info_from_header pre post st); vm_compute; reflexivity.
Defined.
